(** * MetricsReport: a shallow embedding of [metricsreport/metricsreport.py]

    The class [MetricsReport] is a facade over numpy, scikit-learn, the
    plotting libraries and the file system.  The embedding follows the
    source method by method:

    - a Python number is an int or a float.  A float is a binary64 number:
      [float64] rounds a rational to the nearest one (ties to even), and the
      operations that numpy performs on float64 arrays (conversion of a
      list, comparison with the threshold, subtraction, division, rounding)
      are the exact operation followed by that rounding; a result that numpy
      reports as [inf] or [nan] is [NonFinite].  Ints are taken in the range
      of [int64], where numpy stores them exactly, and the values of an
      integer array are taken small enough for their sums and differences
      not to overflow;
    - the metric formulas of scikit-learn, the plotting calls, the order in
      which [np.mean] and [np.std] add up, [markdownify],
      [classification_report] and the helper [lift] are collaborators of
      the class and not part of it: they are fields of the record
      [Externals], each one allowed to raise;
    - [confusion_matrix] is modelled from its documented behaviour (a count
      per pair of labels), because the constructor unpacks its result;
    - the file system is a finite map from paths to nodes.  A path is the
      list of its components below the working directory, [[]] being ['.'];
      the strings that the source pastes together ([folder], [name]) are
      taken as already split, so a component is a plain name
      ([plain_component]): not empty, not ['.'] or ['..'], without ['/'];
    - the methods run in a state-and-exception monad over the object and
      the world (file system, standard output, figures handed to
      [plt.show()]); warnings, which go to standard error, are not part of
      the world. *)

From stdpp Require Import gmap strings list sorting numbers pretty.
From Stdlib Require Import QArith Qcanon Qround Lqa.

Local Open Scope Qc_scope.

(** ** Numbers *)

(** A Python number: an [int], or the [float] that the literal [q] denotes
    (the double nearest to [q]). *)
Inductive pynum :=
| PyI (z : Z)
| PyF (q : Qc).

Definition is_PyI (x : pynum) : bool :=
  match x with
  | PyI _ => true
  | PyF _ => false
  end.

(** A float result: finite, or one of [inf], [-inf], [nan]. *)
Inductive pyfloat :=
| Finite (q : Qc)
| NonFinite.

(** The value of a dictionary entry of the report: a float or an integer
    (numpy integers included); [isinstance(value, float)] tells them apart. *)
Inductive pyval :=
| VFloat (f : pyfloat)
| VInt (z : Z).

(** The result of a metric function of scikit-learn: a Python float or a
    [np.float64], after the version of the library. *)
Inductive scalar :=
| PyFloat (f : pyfloat)
| NpFloat (f : pyfloat).

Global Instance pynum_eq_dec : EqDecision pynum.
Proof. solve_decision. Defined.
Global Instance pyfloat_eq_dec : EqDecision pyfloat.
Proof. solve_decision. Defined.
Global Instance pyval_eq_dec : EqDecision pyval.
Proof. solve_decision. Defined.
Global Instance scalar_eq_dec : EqDecision scalar.
Proof. solve_decision. Defined.

Definition qc (n : Z) (d : positive) : Qc := Q2Qc (n # d).

Definition Qc_abs (q : Qc) : Qc := if decide (q < 0) then - q else q.

Definition Qc_max (a b : Qc) : Qc := if decide (a < b) then b else a.

Definition pow10 (ndigits : nat) : Qc := Qc_of_Z (10 ^ Z.of_nat ndigits).

(** Rounding of a rational to the nearest integer, ties to the even one. *)
Definition round_half_even (q : Qc) : Z :=
  let f := Qfloor q in
  let r := q - Qc_of_Z f in
  if decide (r < qc 1 2) then f
  else if decide (qc 1 2 < r) then (f + 1)%Z
  else if Z.even f then f else (f + 1)%Z.

(** *** Binary64 *)

(** [2 ^ e] for an integer [e]. *)
Definition pow2 (e : Z) : Qc :=
  if decide (0 ≤ e)%Z then Qc_of_Z (2 ^ e) else / Qc_of_Z (2 ^ (- e)).

(** The integer [e] with [2 ^ e <= |q| < 2 ^ (e + 1)], for [q] other than 0. *)
Definition floor_log2 (q : Qc) : Z :=
  let e := (Z.log2 (Z.abs (Qnum q)) - Z.log2 (Zpos (Qden q)))%Z in
  if decide (Qc_abs q < pow2 e) then (e - 1)%Z else e.

(** The binary64 number nearest to [q], ties to the even significand: 53
    bits of significand, the exponent of the last bit not below -1074.
    The largest finite double is below [2 ^ 1024]; the bound is applied by
    [to_float]. *)
Definition float64 (q : Qc) : Qc :=
  if decide (q = 0) then 0
  else
    let e := Z.max (floor_log2 q - 52) (-1074) in
    Qc_of_Z (round_half_even (q / pow2 e)) * pow2 e.

(** The float64 result of an operation whose exact result is [q]: [inf]
    when the rounded value is out of range. *)
Definition to_float (q : Qc) : pyfloat :=
  let r := float64 q in
  if decide (Qc_abs r < pow2 1024) then Finite r else NonFinite.

(** The value of a Python number. *)
Definition num_val (x : pynum) : Qc :=
  match x with
  | PyI z => Qc_of_Z z
  | PyF q => float64 q
  end.

(** [float(x)]: the value of a number as numpy stores it in a float64 array. *)
Definition as_float64 (x : pynum) : Qc :=
  match x with
  | PyI z => float64 (Qc_of_Z z)
  | PyF q => float64 q
  end.

(** *** Rounding to decimals *)

(** [round(x, ndigits)] on a Python float, for [ndigits >= 0]: the double
    nearest to the decimal rounding (ties to even) of the value of [x]. *)
Definition py_float_round (x : pyfloat) (ndigits : nat) : pyfloat :=
  match x with
  | Finite q => to_float (Qc_of_Z (round_half_even (q * pow10 ndigits)) / pow10 ndigits)
  | NonFinite => NonFinite
  end.

(** [round(x, ndigits)] on a [np.float64], for [ndigits > 0]: numpy multiplies
    by [10 ** ndigits], rounds to the nearest integer (ties to even) and
    divides, each step in float64. *)
Definition np_float_round (x : pyfloat) (ndigits : nat) : pyfloat :=
  match x with
  | Finite q =>
      match to_float (q * pow10 ndigits) with
      | Finite p => to_float (Qc_of_Z (round_half_even p) / pow10 ndigits)
      | NonFinite => NonFinite
      end
  | NonFinite => NonFinite
  end.

(** [round(s, ndigits)] on the result of a metric function. *)
Definition round_scalar (s : scalar) (ndigits : nat) : pyfloat :=
  match s with
  | PyFloat f => py_float_round f ndigits
  | NpFloat f => np_float_round f ndigits
  end.

(** [round(v, ndigits)] on a numpy scalar: an integer is returned unchanged
    for [ndigits >= 0]. *)
Definition py_round (v : pyval) (ndigits : nat) : pyval :=
  match v with
  | VFloat f => VFloat (np_float_round f ndigits)
  | VInt z => VInt z
  end.

(** ** numpy *)

(** A one-dimensional array: its values and whether its dtype is integer
    ([int64]) or [float64]. *)
Record ndarray := Ndarray { is_int : bool; data : list Qc }.

(** [np.array(l)] for a Python list of numbers: [int64] when the list is not
    empty and holds ints only, [float64] otherwise, each number converted. *)
Definition np_array (l : list pynum) : ndarray :=
  if match l with [] => false | _ => forallb is_PyI l end
  then {| is_int := true; data := num_val <$> l |}
  else {| is_int := false; data := as_float64 <$> l |}.

(** The values of [a.astype(float)]. *)
Definition astype_float (a : ndarray) : list Qc :=
  if is_int a then float64 <$> data a else data a.

(** [ar[mask]] of [np.unique], where [mask[i] = (ar[i] != ar[i-1])] on the
    sorted array: [prev] is the element before the head of [l]. *)
Fixpoint drop_repeats (prev : Qc) (l : list Qc) : list Qc :=
  match l with
  | [] => []
  | x :: l' =>
      if decide (x = prev) then drop_repeats prev l'
      else x :: drop_repeats x l'
  end.

(** [np.unique(ar)]: sort, then keep the first element of every run. *)
Definition np_unique (ar : list Qc) : list Qc :=
  match merge_sort Qcle ar with
  | [] => []
  | x :: l => x :: drop_repeats x l
  end.

(** [(a > t).astype(int)] for a Python scalar [t]: an integer array is
    compared with an int as it is; in every other case both sides are
    compared as float64. *)
Definition np_greater_int (a : ndarray) (t : pynum) : list Z :=
  if is_int a && is_PyI t
  then (λ p, if decide (num_val t < p) then 1%Z else 0%Z) <$> data a
  else (λ p, if decide (as_float64 t < p) then 1%Z else 0%Z) <$> astype_float a.

(** [1 - a] *)
Definition np_one_minus (a : ndarray) : list Qc :=
  if is_int a then (λ p, 1 - p) <$> data a
  else (λ p, float64 (1 - p)) <$> data a.

(** [np.maximum(a, c)] for a scalar [c]. *)
Definition np_maximum (a : list Qc) (c : Qc) : list Qc :=
  (λ p, Qc_max p c) <$> a.

(** Elementwise binary operation with numpy's broadcasting of
    one-dimensional arrays: equal lengths, or one side of length one;
    anything else raises. *)
Definition broadcast2 {A B C} (f : A → B → C) (a : list A) (b : list B)
  : option (list C) :=
  if decide (length a = length b) then Some (zip_with f a b)
  else match a, b with
       | [x], _ => Some (f x <$> b)
       | _, [y] => Some ((λ x, f x y) <$> a)
       | _, _ => None
       end.

(** Division of floats: by zero it gives [inf] or [nan]. *)
Definition float_div (x : pyfloat) (y : Qc) : pyfloat :=
  match x with
  | Finite q => if decide (y = 0) then NonFinite else to_float (q / y)
  | NonFinite => NonFinite
  end.

Definition float_abs (x : pyfloat) : pyfloat :=
  match x with
  | Finite q => Finite (Qc_abs q)
  | NonFinite => NonFinite
  end.

Definition float_add (x y : pyfloat) : pyfloat :=
  match x, y with
  | Finite a, Finite b => to_float (a + b)
  | _, _ => NonFinite
  end.

Definition float_sub (x y : pyfloat) : pyfloat :=
  match x, y with
  | Finite a, Finite b => to_float (a - b)
  | _, _ => NonFinite
  end.

Definition float_mul (x : pyfloat) (c : Qc) : pyfloat :=
  match x with
  | Finite q => to_float (q * c)
  | NonFinite => NonFinite
  end.

(** The conversion of an integer result to float64. *)
Definition float_cast (x : pyfloat) : pyfloat :=
  match x with
  | Finite q => Finite (float64 q)
  | NonFinite => NonFinite
  end.

(** A sum of floats taken from left to right, as Python's [sum] does. *)
Definition float_sum (l : list pyfloat) : pyfloat :=
  foldl float_add (Finite 0) l.

(** [a - b]: on two integer arrays the differences are integers, otherwise
    both sides are subtracted as float64. *)
Definition np_subtract (a b : ndarray) : option (list pyfloat) :=
  if is_int a && is_int b
  then broadcast2 (λ x y, Finite (x - y)) (data a) (data b)
  else broadcast2 (λ x y, to_float (x - y)) (astype_float a) (astype_float b).

Definition Qc_sum (l : list Qc) : Qc := foldr Qcplus 0 l.

(** ** Task type *)

Inductive task := Classification | Regression.

Global Instance task_eq_dec : EqDecision task.
Proof. solve_decision. Defined.

Definition task_name (t : task) : string :=
  match t with
  | Classification => "classification"
  | Regression => "regression"
  end.

(** [MetricsReport._determine_task_type]: [np.unique(y_true)] converts the
    list to an array first. *)
Definition _determine_task_type (y_true : list pynum) : task :=
  if decide (2 < length (np_unique (data (np_array y_true))))%nat
  then Regression
  else Classification.

(** ** Exceptions *)

Inductive exn :=
| ValueError
| AttributeError
| ZeroDivisionError
| FileNotFoundError
| FileExistsError
| NotADirectoryError
| IsADirectoryError
| OSError
| ExternalError.

Global Instance exn_eq_dec : EqDecision exn.
Proof. solve_decision. Defined.

(** The result of a call: a value, or an exception that propagates. *)
Inductive outcome (A : Type) :=
| Ok (a : A)
| Raise (e : exn).
Arguments Ok {A} a.
Arguments Raise {A} e.

Global Instance outcome_eq_dec `{EqDecision A} : EqDecision (outcome A).
Proof. solve_decision. Defined.

Global Instance outcome_ret : MRet outcome := λ A a, Ok a.
Global Instance outcome_bind : MBind outcome := λ A B f m,
  match m with
  | Ok a => f a
  | Raise e => Raise e
  end.

(** A call into a collaborator: [None] is an exception raised inside it. *)
Definition ext {A} (o : option A) : outcome A :=
  match o with
  | Some a => Ok a
  | None => Raise ExternalError
  end.

(** Reading an attribute that the constructor may not have set. *)
Definition getattr {A} (o : option A) : outcome A :=
  match o with
  | Some a => Ok a
  | None => Raise AttributeError
  end.

Definition or_raise {A} (e : exn) (o : option A) : outcome A :=
  match o with
  | Some a => Ok a
  | None => Raise e
  end.

(** ** Collaborators *)

Inductive plot :=
| class_distribution
| confusion_matrix_plot
| precision_recall_curve
| roc_curve
| ks_statistic
| calibration_curve
| cumulative_gain
| lift_curve
| residual_plot
| predicted_vs_actual.

(** A rendered figure (what [savefig] writes, what [show] displays). *)
Definition figure := string.

Record Externals := {
  (* sklearn.metrics, on (y_true, y_pred) *)
  check_targets : list Qc → list Qc → bool;
  roc_auc_score : list Qc → list Qc → option scalar;
  log_loss : list Qc → list Qc → option scalar;
  average_precision_score : list Qc → list Qc → option scalar;
  (* sklearn.metrics, on (y_true, y_pred_binary) *)
  accuracy_score : list Qc → list Z → option scalar;
  precision_score_weighted : list Qc → list Z → option scalar;
  recall_score_weighted : list Qc → list Z → option scalar;
  f1_score_weighted : list Qc → list Z → option scalar;
  matthews_corrcoef : list Qc → list Z → option scalar;
  classification_report : list Qc → list Z → option string;
  (* sklearn.metrics, regression *)
  mean_squared_error : list Qc → list Qc → option scalar;
  mean_squared_log_error : list Qc → list Qc → option scalar;
  mean_absolute_error : list Qc → list Qc → option scalar;
  r2_score : list Qc → list Qc → option scalar;
  explained_variance_score : list Qc → list Qc → option scalar;
  max_error : list Qc → list Qc → option scalar;
  (* numpy: the mean and the standard deviation of finite float64 values,
     whose last bits depend on the order in which numpy adds them up *)
  np_mean_finite : list Qc → pyfloat;
  np_std : list Qc → pyfloat;
  (* plot_metric.BinaryClassification(y_true, y_pred).plot_xxx() *)
  draw_bc : plot → nat * nat → list Qc → list Qc → option figure;
  (* scikitplot.metrics.plot_xxx(y_true, probas) *)
  draw_skplt : plot → nat * nat → list Qc → list (Qc * Qc) → option figure;
  (* plt.scatter(x, y) with its labels and title *)
  draw_scatter : plot → nat * nat → list Qc → list pyfloat → option figure;
  (* text *)
  str_float : pyfloat → string;
  frame_to_string : list (string * pyval) → string;
  markdownify : string → string;
  (* metricsreport.custom_metrics.lift *)
  lift : list Qc → list Qc → option string
}.

(** ** sklearn's confusion matrix *)

(** Number of samples whose true label is [a] and predicted label is [b]. *)
Definition count_pairs (a b : Qc) (pairs : list (Qc * Qc)) : Z :=
  Z.of_nat (length (filter (λ tp, tp.1 = a ∧ tp.2 = b) pairs)).

(** [confusion_matrix(y_true, y_pred)]: the labels are the sorted distinct
    values of both arrays; entry [(i, j)] counts the samples with true label
    [labels[i]] and predicted label [labels[j]].  Arrays of different
    lengths, and targets that sklearn's own validation rejects, raise. *)
Definition confusion_matrix (E : Externals) (y_true : list Qc) (y_pred : list Z)
  : outcome (list (list Z)) :=
  let y_pred := Qc_of_Z <$> y_pred in
  if decide (length y_true = length y_pred) then
    if check_targets E y_true y_pred then
      let labels := np_unique (y_true ++ y_pred) in
      let pairs := zip y_true y_pred in
      Ok ((λ a, (λ b, count_pairs a b pairs) <$> labels) <$> labels)
    else Raise ValueError
  else Raise ValueError.

(** [.ravel()] of a two-dimensional array. *)
Definition ravel {A} (m : list (list A)) : list A := concat m.

(** [tn, fp, fn, tp = ...]: unpacking needs exactly four values. *)
Definition unpack4 {A} (l : list A) : outcome (A * A * A * A) :=
  match l with
  | [a; b; c; d] => Ok (a, b, c, d)
  | _ => Raise ValueError
  end.

(** ** The object *)

Record MetricsReport := {
  task_type : task;
  y_true : ndarray;
  y_pred : ndarray;
  threshold : pynum;
  metrics : list (string * pyval);
  target_info : list (string * pyval);
  (* set by the constructor for a classification task only *)
  y_pred_binary : option (list Z);
  probas_reval : option (list (Qc * Qc));
  (* set by the constructor for a regression task only *)
  y_pred_nonnegative : option (list Qc)
}.

Definition set_metrics (m : list (string * pyval)) (r : MetricsReport) :=
  {| task_type := task_type r; y_true := y_true r; y_pred := y_pred r;
     threshold := threshold r; metrics := m; target_info := target_info r;
     y_pred_binary := y_pred_binary r; probas_reval := probas_reval r;
     y_pred_nonnegative := y_pred_nonnegative r |}.

Definition set_target_info (ti : list (string * pyval)) (r : MetricsReport) :=
  {| task_type := task_type r; y_true := y_true r; y_pred := y_pred r;
     threshold := threshold r; metrics := metrics r; target_info := ti;
     y_pred_binary := y_pred_binary r; probas_reval := probas_reval r;
     y_pred_nonnegative := y_pred_nonnegative r |}.

(** [round(s, ndigits)] as an entry of the metrics. *)
Definition rounded (s : scalar) (ndigits : nat) : pyval :=
  VFloat (round_scalar s ndigits).

(** [round(x, ndigits)] on a [np.float64] that the class computes itself. *)
Definition np_rounded (f : pyfloat) (ndigits : nat) : pyval :=
  VFloat (np_float_round f ndigits).

(** The finite values of a list of floats, when all of them are finite. *)
Fixpoint finite_values (l : list pyfloat) : option (list Qc) :=
  match l with
  | [] => Some []
  | Finite q :: l' => cons q <$> finite_values l'
  | NonFinite :: _ => None
  end.

(** [np.mean(a)]: [nan] on an empty array; an [inf] or a [nan] among the
    values gives one. *)
Definition np_mean (E : Externals) (a : list pyfloat) : pyfloat :=
  match a with
  | [] => NonFinite
  | _ => match finite_values a with
         | Some qs => np_mean_finite E qs
         | None => NonFinite
         end
  end.

(** [MetricsReport._generate_classification_metrics] *)
Definition _generate_classification_metrics (E : Externals) (self : MetricsReport)
  : outcome (list (string * pyval)) :=
  let yt := data (y_true self) in
  let yp := data (y_pred self) in
  yb ← getattr (y_pred_binary self);
  cm ← confusion_matrix E yt yb;
  '(tn, fp, fn, tp) ← unpack4 (ravel cm);
  auc ← ext (roc_auc_score E yt yp);
  ll ← ext (log_loss E yt yp);
  ap ← ext (average_precision_score E yt yp);
  acc ← ext (accuracy_score E yt yb);
  prec ← ext (precision_score_weighted E yt yb);
  rec ← ext (recall_score_weighted E yt yb);
  f1 ← ext (f1_score_weighted E yt yb);
  mcc ← ext (matthews_corrcoef E yt yb);
  Ok [ ("AUC", rounded auc 4);
       ("Log Loss", rounded ll 4);
       ("Average_Precision", rounded ap 4);
       ("Accuracy", rounded acc 4);
       ("Precision", rounded prec 4);
       ("Recall", rounded rec 4);
       ("F1 Score", rounded f1 4);
       ("MCC", rounded mcc 4);
       ("TN", VInt tn);
       ("FP", VInt fp);
       ("FN", VInt fn);
       ("TP", VInt tp) ].

(** [np.mean(np.abs((y_true - y_pred) / y_true)) * 100]: the division is
    the true division of numpy, in float64 whatever the dtypes. *)
Definition mean_abs_percentage (E : Externals) (yt yp : ndarray) : outcome pyfloat :=
  diff ← or_raise ValueError (np_subtract yt yp);
  let diff := if is_int yt && is_int yp then float_cast <$> diff else diff in
  quot ← or_raise ValueError (broadcast2 float_div diff (astype_float yt));
  Ok (float_mul (np_mean E (float_abs <$> quot)) (Qc_of_Z 100)).

(** [MetricsReport._generate_regression_metrics] *)
Definition _generate_regression_metrics (E : Externals) (self : MetricsReport)
  : outcome (list (string * pyval)) :=
  let yt := data (y_true self) in
  let yp := data (y_pred self) in
  mse ← ext (mean_squared_error E yt yp);
  ynn ← getattr (y_pred_nonnegative self);
  msle ← ext (mean_squared_log_error E yt ynn);
  mae ← ext (mean_absolute_error E yt yp);
  r2 ← ext (r2_score E yt yp);
  evs ← ext (explained_variance_score E yt yp);
  mx ← ext (max_error E yt yp);
  mape ← mean_abs_percentage E (y_true self) (y_pred self);
  Ok [ ("Mean Squared Error", rounded mse 4);
       ("Mean Squared Log Error", rounded msle 4);
       ("Mean Absolute Error", rounded mae 4);
       ("R^2", rounded r2 4);
       ("Explained Variance Score", rounded evs 4);
       ("Max Error", rounded mx 4);
       ("Mean Absolute Percentage Error", np_rounded mape 1) ].

(** ** The world: file system, standard output, calls of [plt.show()] *)

Inductive node :=
| Dir
| File (content : string).

Global Instance node_eq_dec : EqDecision node.
Proof. solve_decision. Defined.

(** Paths are lists of components below the working directory; the working
    directory itself, ['.'], is [[]] and always exists.  [shown] is the
    record of the calls of [plt.show()], each with the figure that was
    drawn right before it. *)
Record world := World {
  fs : gmap (list string) node;
  stdout : list string;
  shown : list figure
}.

Definition set_fs (f : gmap (list string) node) (w : world) : world :=
  {| fs := f; stdout := stdout w; shown := shown w |}.

(** State and exceptions: an exception keeps the effects made before it. *)
Definition M (S A : Type) : Type := S → outcome A * S.

Global Instance M_ret {S} : MRet (M S) := λ A a s, (Ok a, s).
Global Instance M_bind {S} : MBind (M S) := λ A B f m s,
  match m s with
  | (Ok a, s') => f a s'
  | (Raise e, s') => (Raise e, s')
  end.

Definition raise {S A} (e : exn) : M S A := λ s, (Raise e, s).
Definition get {S} : M S S := λ s, (Ok s, s).
Definition modify {S} (f : S → S) : M S unit := λ s, (Ok tt, f s).
Definition lift_outcome {S A} (o : outcome A) : M S A := λ s, (o, s).

(** [for x in l: body(x)] *)
Fixpoint for_each {S A} (l : list A) (body : A → M S unit) : M S unit :=
  match l with
  | [] => mret tt
  | x :: l' => body x ≫= λ _, for_each l' body
  end.

(** [when c: m] *)
Definition when {S} (c : bool) (m : M S unit) : M S unit :=
  if c then m else mret tt.

Definition is_dir (f : gmap (list string) node) (p : list string) : bool :=
  match p with
  | [] => true
  | _ => bool_decide (f !! p = Some Dir)
  end.

(** [os.path.exists(p)] *)
Definition os_path_exists (p : list string) : M world bool :=
  w ← get;
  mret (match p with [] => true | _ => bool_decide (is_Some (fs w !! p)) end).

(** The non-empty prefixes of a path, shortest first. *)
Definition ancestors_and_self (p : list string) : list (list string) :=
  (λ n, take n p) <$> seq 1 (length p).

(** Whether a regular file lies on the way to [p]. *)
Definition file_on_path (f : gmap (list string) node) (p : list string) : bool :=
  existsb (λ q, match f !! q with Some (File _) => true | _ => false end)
    (ancestors_and_self (removelast p)).

(** The error of a system call on a path that does not resolve:
    [ENOTDIR] when a regular file lies on the way, [ENOENT] otherwise. *)
Definition missing_error (f : gmap (list string) node) (p : list string) : exn :=
  if file_on_path f p then NotADirectoryError else FileNotFoundError.

(** [shutil.rmtree(p)]: removes the directory [p] and everything below it.
    The class never calls it on the working directory, which cannot be
    removed. *)
Definition shutil_rmtree (p : list string) : M world unit :=
  w ← get;
  match p with
  | [] => raise OSError
  | _ =>
      match fs w !! p with
      | Some Dir => modify (set_fs (filter (λ kv, ¬ p `prefix_of` kv.1) (fs w)))
      | Some (File _) => raise NotADirectoryError
      | None => raise (missing_error (fs w) p)
      end
  end.

(** [os.mkdir(q)] for a missing component of [os.makedirs], which skips the
    components that are directories already. *)
Definition mkdir_missing (q : list string) : M world unit :=
  w ← get;
  match fs w !! q with
  | None => modify (set_fs (<[q := Dir]> (fs w)))
  | Some Dir => mret tt
  | Some (File _) => raise NotADirectoryError
  end.

(** [os.makedirs(p)]: creates [p] with its missing ancestors; raises when
    [p] exists. *)
Definition os_makedirs (p : list string) : M world unit :=
  ex ← os_path_exists p;
  if (ex : bool) then raise FileExistsError
  else for_each (ancestors_and_self p) mkdir_missing.

(** [with open(p, 'w') as f: f.write(content)], and [plt.savefig(p)]. *)
Definition write_file (p : list string) (content : string) : M world unit :=
  w ← get;
  if is_dir (fs w) p then raise IsADirectoryError
  else if is_dir (fs w) (removelast p)
       then modify (set_fs (<[p := File content]> (fs w)))
       else raise (missing_error (fs w) p).

(** The name [n] when [q] is the entry [p/n]. *)
Fixpoint child_of (p q : list string) : option string :=
  match p, q with
  | [], [n] => Some n
  | x :: p', y :: q' => if decide (x = y) then child_of p' q' else None
  | _, _ => None
  end.

(** [os.listdir(p)] *)
Definition os_listdir (p : list string) : M world (list string) :=
  w ← get;
  if is_dir (fs w) p
  then mret (omap (λ kv, child_of p kv.1) (map_to_list (fs w)))
  else match fs w !! p with
       | Some _ => raise NotADirectoryError
       | None => raise (missing_error (fs w) p)
       end.

(** [print(s)] *)
Definition print (s : string) : M world unit :=
  modify (λ w, {| fs := fs w; stdout := stdout w ++ [s]; shown := shown w |}).

(** [plt.show()] in the loop of a batch method, for the figure just drawn:
    [shown] records the figures that the loops hand to [plt.show()].  The
    figures that a caller left open by calling a plot method directly are
    not tracked. *)
Definition plt_show (fig : figure) : M world unit :=
  modify (λ w, {| fs := fs w; stdout := stdout w; shown := shown w ++ [fig] |}).

(** [plt.close()]: figures hold no resource in the model. *)
Definition plt_close : M world unit := mret tt.

(** ** Construction *)

(** [MetricsReport.__init__] *)
Definition __init__ (E : Externals) (y_true y_pred : list pynum) (threshold : pynum)
  : M world MetricsReport :=
  let task_type := _determine_task_type y_true in
  _ ← print ("Detecting " +:+ task_name task_type +:+ " task type");
  let y_true := np_array y_true in
  let y_pred := np_array y_pred in
  match task_type with
  | Classification =>
      let self :=
        {| task_type := task_type; y_true := y_true; y_pred := y_pred;
           threshold := threshold; metrics := []; target_info := [];
           y_pred_binary := Some (np_greater_int y_pred threshold);
           probas_reval := Some (zip (np_one_minus y_pred) (data y_pred));
           y_pred_nonnegative := None |} in
      m ← lift_outcome (_generate_classification_metrics E self);
      mret (set_metrics m self)
  | Regression =>
      let self :=
        {| task_type := task_type; y_true := y_true; y_pred := y_pred;
           threshold := threshold; metrics := []; target_info := [];
           y_pred_binary := None;
           probas_reval := None;
           y_pred_nonnegative := Some (np_maximum (data y_pred) 0) |} in
      m ← lift_outcome (_generate_regression_metrics E self);
      mret (set_metrics m self)
  end.

(** ** Methods *)

(** The state a method runs in: the object [self] and the world. *)
Record state := State { self_of : MetricsReport; world_of : world }.

Definition in_world {A} (m : M world A) : M state A := λ s,
  let '(o, w) := m (world_of s) in
  (o, {| self_of := self_of s; world_of := w |}).

Definition get_self : M state MetricsReport := λ s, (Ok (self_of s), s).

Definition set_self (r : MetricsReport) : M state unit := λ s,
  (Ok tt, {| self_of := r; world_of := world_of s |}).

Definition default_figsize : nat * nat := (12, 10)%nat.

(** *** Classification plots *)

(** [BinaryClassification(self.y_true, self.y_pred, labels=...)] followed by
    one of its plot methods. *)
Definition binary_classification_plot (E : Externals) (p : plot)
    (figsize : nat * nat) : M state figure :=
  self ← get_self;
  lift_outcome (ext (draw_bc E p figsize (data (y_true self)) (data (y_pred self)))).

(** [skplt.metrics.plot_xxx(self.y_true, self.probas_reval, figsize=figsize)] *)
Definition scikitplot_plot (E : Externals) (p : plot) (figsize : nat * nat)
  : M state figure :=
  self ← get_self;
  probas ← lift_outcome (getattr (probas_reval self));
  lift_outcome (ext (draw_skplt E p figsize (data (y_true self)) probas)).

Definition plot_roc_curve (E : Externals) (figsize : nat * nat) : M state figure :=
  binary_classification_plot E roc_curve figsize.

Definition plot_precision_recall_curve (E : Externals) (figsize : nat * nat)
  : M state figure :=
  binary_classification_plot E precision_recall_curve figsize.

Definition plot_confusion_matrix (E : Externals) (figsize : nat * nat)
  : M state figure :=
  binary_classification_plot E confusion_matrix_plot figsize.

Definition plot_class_distribution (E : Externals) (figsize : nat * nat)
  : M state figure :=
  binary_classification_plot E class_distribution figsize.

Definition plot_calibration_curve (E : Externals) (figsize : nat * nat)
  : M state figure :=
  scikitplot_plot E calibration_curve figsize.

Definition plot_lift_curve (E : Externals) (figsize : nat * nat) : M state figure :=
  scikitplot_plot E lift_curve figsize.

Definition plot_cumulative_gain (E : Externals) (figsize : nat * nat)
  : M state figure :=
  scikitplot_plot E cumulative_gain figsize.

Definition plot_ks_statistic (E : Externals) (figsize : nat * nat)
  : M state figure :=
  scikitplot_plot E ks_statistic figsize.

(** The body of the loop over [plots.items()], shared by both tasks. *)
Definition plot_loop_body (save : bool) (folder : list string)
    (item : string * M state figure) : M state unit :=
  plt ← item.2;
  _ ← (if save
       then in_world (write_file (folder ++ ["plots"; item.1 +:+ ".png"]) plt)
       else in_world (plt_show plt));
  in_world plt_close.

(** The guarded block [if save: ...] at the head of both batch methods.
    The components of [folder] being plain, [folder + '/plots'] is the
    entry [plots] of the folder. *)
Definition recreate_plots_dir (save : bool) (folder : list string) : M state unit :=
  when save (in_world (
    ex ← os_path_exists (folder ++ ["plots"]);
    _ ← when ex (shutil_rmtree (folder ++ ["plots"]));
    os_makedirs (folder ++ ["plots"]))).

(** [MetricsReport._classification_plots] *)
Definition _classification_plots (E : Externals) (save : bool)
    (folder : list string) : M state unit :=
  _ ← recreate_plots_dir save folder;
  let plots :=
    [ ("class_distribution", plot_class_distribution E default_figsize);
      ("confusion_matrix", plot_confusion_matrix E default_figsize);
      ("precision_recall_curve", plot_precision_recall_curve E default_figsize);
      ("roc_curve", plot_roc_curve E default_figsize);
      ("ks_statistic", plot_ks_statistic E default_figsize);
      ("calibration_curve", plot_calibration_curve E default_figsize);
      ("cumulative_gain", plot_cumulative_gain E default_figsize);
      ("lift_curve", plot_lift_curve E default_figsize) ] in
  for_each plots (plot_loop_body save folder).

(** *** Regression plots *)

(** [MetricsReport.plot_residual_plot] *)
Definition plot_residual_plot (E : Externals) (figsize : nat * nat)
  : M state figure :=
  self ← get_self;
  residuals ← lift_outcome (or_raise ValueError
    (np_subtract (y_true self) (y_pred self)));
  lift_outcome (ext (draw_scatter E residual_plot figsize (data (y_pred self)) residuals)).

(** [MetricsReport.plot_predicted_vs_actual] *)
Definition plot_predicted_vs_actual (E : Externals) (figsize : nat * nat)
  : M state figure :=
  self ← get_self;
  lift_outcome (ext (draw_scatter E predicted_vs_actual figsize
                       (data (y_pred self)) (Finite <$> data (y_true self)))).

(** [MetricsReport._regression_plots] *)
Definition _regression_plots (E : Externals) (save : bool)
    (folder : list string) : M state unit :=
  _ ← recreate_plots_dir save folder;
  let plots :=
    [ ("residual_plot", plot_residual_plot E default_figsize);
      ("predicted_vs_actual", plot_predicted_vs_actual E default_figsize) ] in
  for_each plots (plot_loop_body save folder).

(** *** Target summary *)

(** A numpy scalar taken from an array: integer or float after its dtype. *)
Definition np_scalar (int_dtype : bool) (q : Qc) : pyval :=
  if int_dtype then VInt (Qfloor q) else VFloat (Finite q).

Definition Qc_min (a b : Qc) : Qc := if decide (b < a) then b else a.

(** [np.min(a)] and [np.max(a)]; both raise on an empty array. *)
Definition np_min (a : list Qc) : outcome Qc :=
  match a with
  | [] => Raise ValueError
  | x :: l => Ok (foldr Qc_min x l)
  end.

Definition np_max (a : list Qc) : outcome Qc :=
  match a with
  | [] => Raise ValueError
  | x :: l => Ok (foldr Qc_max x l)
  end.

(** [sum(self.y_true)]: Python's [sum] starts from the int [0] and adds
    the elements from left to right, integers exactly, floats in float64. *)
Definition py_sum (a : ndarray) : pyval :=
  match data a with
  | [] => VInt 0
  | _ => if is_int a then VInt (Qfloor (Qc_sum (data a)))
         else VFloat (float_sum (Finite <$> data a))
  end.

(** [len(self.y_true) - sum(self.y_true)] *)
Definition len_minus_sum (a : ndarray) : pyval :=
  let n := Qc_of_Z (Z.of_nat (length (data a))) in
  match data a with
  | [] => VInt 0
  | _ => if is_int a then VInt (Qfloor (n - Qc_sum (data a))%Qc)
         else VFloat (float_sub (Finite (float64 n)) (float_sum (Finite <$> data a)))
  end.

(** [(sum(self.y_true) / len(self.y_true)) * 100]: the division is a true
    division, in float64. *)
Definition class_balance (a : ndarray) : outcome pyfloat :=
  let n := float64 (Qc_of_Z (Z.of_nat (length (data a)))) in
  match data a with
  | [] => Raise ZeroDivisionError
  | _ =>
      let total := if is_int a then Finite (float64 (Qc_sum (data a)))
                   else float_sum (Finite <$> data a) in
      Ok (float_mul (float_div total n) (Qc_of_Z 100))
  end.

(** [MetricsReport.__target_info] *)
Definition __target_info (E : Externals) : M state unit :=
  self ← get_self;
  let yt := y_true self in
  let n := VInt (Z.of_nat (length (data yt))) in
  info ← lift_outcome
    match task_type self with
    | Classification =>
        balance ← class_balance yt;
        Ok [ ("Count of samples", n);
             ("Count True class", py_sum yt);
             ("Count False class", len_minus_sum yt);
             ("Class balance %", np_rounded balance 1) ]
    | Regression =>
        lo ← np_min (data yt);
        hi ← np_max (data yt);
        Ok [ ("Count of samples", n);
             ("Mean of target",
              np_rounded (np_mean E (Finite <$> astype_float yt)) 2);
             ("Std of target", np_rounded (np_std E (data yt)) 2);
             ("Min of target", py_round (np_scalar (is_int yt) lo) 2);
             ("Max of target", py_round (np_scalar (is_int yt) hi) 2) ]
    end;
  set_self (set_target_info info self).

(** *** HTML report *)

Definition dq : string := String (Ascii.ascii_of_nat 34) EmptyString.
Definition nl : string := String (Ascii.ascii_of_nat 10) EmptyString.

(** [s.endswith(suffix)] *)
Definition endswith (s suffix : string) : bool :=
  bool_decide (String.list_ascii_of_string suffix
                 `suffix_of` String.list_ascii_of_string s).

(** [str(x)] for a number. *)
Definition str_num (E : Externals) (x : pynum) : string :=
  match x with
  | PyI z => pretty z
  | PyF q => str_float E (Finite q)
  end.

(** The literal assigned to [css] when [add_css] holds. *)
Definition css_text : string :=
"
        <style>
            body {
                font-family: Arial, sans-serif;
                font-size: 16px;
                line-height: 1.5;
            }

            h1, h2 {
                margin-top: 40px;
                margin-bottom: 20px;
            }

            table {
                border-collapse: collapse;
                margin-bottom: 40px;
            }

            th, td {
                border: 1px solid #ccc;
                padding: 8px;
            }

            th {
                background-color: #f2f2f2;
            }

            img {
                max-width: 100%;
                height: auto;
            }
        </style>
        ".

Definition html_part0 : string :=
"
        <!DOCTYPE html>
        <html>
            <head>
                ".

Definition html_part1 : string :=
"
            </head>
            <body>
                <h1>Metrics Report</h1>
                <h4>Type: ".

Definition html_part2 : string :=
"</h4>
                <h2>Data info</h2>
                <table>
                    <thead>
                        <tr>
                            <th>Info</th>
                            <th>Value</th>
                        </tr>
                    </thead>
                    <tbody>
                        ".

Definition html_part3 : string :=
"
                    </tbody>
                </table>
                <h2>Metrics</h2>
                <p><b>threshold: ".

Definition html_part4 : string :=
"</b></p>
                <table>
                    <thead>
                        <tr>
                            <th>Metric</th>
                            <th>Value</th>
                        </tr>
                    </thead>
                    <tbody>
                        ".

Definition html_part5 : string :=
"
                    </tbody>
                </table>
                <h2>Plots</h2>
                ".

Definition html_part6 : string :=
"
            </body>
        </html>
        ".

(** [MetricsReport.__generate_html_rows] *)
Definition __generate_html_rows (E : Externals) (data : list (string * pyval))
  : string :=
  foldl (λ rows item,
           rows +:+ "<tr><td>" +:+ item.1 +:+ "</td><td>" +:+
           match item.2 with
           | VFloat f => str_float E f
           | VInt z => pretty z
           end +:+ "</td></tr>" +:+ nl)
        "" data.

(** [MetricsReport.__add_plot_images_to_report] *)
Definition __add_plot_images_to_report (folder : list string) : M state string :=
  let directory := folder ++ ["plots"] in
  files ← in_world (os_listdir directory);
  let png_files := filter (λ file, endswith file ".png" = true) files in
  mret (foldl (λ images name,
                 images +:+ "<img src=" +:+ dq +:+ "./plots/" +:+ name +:+ dq
                        +:+ "></br>" +:+ nl)
              "" png_files).

(** [MetricsReport._generate_html_report] *)
Definition _generate_html_report (E : Externals) (folder : list string)
    (add_css : bool) : M state string :=
  self ← get_self;
  let css := if add_css then css_text else "" in
  let info_rows := __generate_html_rows E (target_info self) in
  let metric_rows := __generate_html_rows E (metrics self) in
  images ← __add_plot_images_to_report folder;
  mret (html_part0 +:+ css +:+
        html_part1 +:+ task_name (task_type self) +:+
        html_part2 +:+ info_rows +:+
        html_part3 +:+ str_num E (threshold self) +:+
        html_part4 +:+ metric_rows +:+
        html_part5 +:+ images +:+
        html_part6).

(** The path that a folder string denotes: ['.'] is the working directory. *)
Definition current_directory : list string := [].

(** The display form of a path, for messages. *)
Definition path_str (p : list string) : string :=
  match p with
  | [] => "."
  | x :: l => foldl (λ acc c, acc +:+ "/" +:+ c) x l
  end.

(** [MetricsReport.save_report], for a folder given by its plain components
    and a name that is one component: the test [folder != '.'] is the test
    against the empty path, and [f'{folder}/{name}.html'] is the entry
    [name.html] of the folder. *)
Definition save_report (E : Externals) (folder : list string) (name : string)
  : M state unit :=
  _ ← when (bool_decide (folder ≠ current_directory)) (in_world (
        ex ← os_path_exists folder;
        _ ← when ex (shutil_rmtree folder);
        os_makedirs folder));
  _ ← __target_info E;
  self ← get_self;
  _ ← match task_type self with
      | Classification => _classification_plots E true folder
      | Regression => _regression_plots E true folder
      end;
  html ← _generate_html_report E folder true;
  _ ← in_world (write_file (folder ++ [name +:+ ".html"]) html);
  html_plain ← _generate_html_report E folder false;
  let md := markdownify E html_plain in
  _ ← in_world (write_file (folder ++ [name +:+ ".md"]) md);
  in_world (print ("Report saved in folder: " +:+ path_str folder)).

(** *** Console *)

(** [MetricsReport.print_metrics] *)
Definition print_metrics (E : Externals) : M state unit :=
  self ← get_self;
  in_world (print (frame_to_string E (metrics self))).

(** [MetricsReport.plot_metrics] *)
Definition plot_metrics (E : Externals) : M state unit :=
  self ← get_self;
  match task_type self with
  | Classification => _classification_plots E false current_directory
  | Regression => _regression_plots E false current_directory
  end.

(** [MetricsReport.print_report] *)
Definition print_report (E : Externals) : M state unit :=
  self ← get_self;
  match task_type self with
  | Classification =>
      _ ← in_world (print ("threshold=" +:+ str_num E (threshold self)));
      _ ← in_world (print (nl +:+ "                  |  Classification Report | " +:+ nl));
      yb ← lift_outcome (getattr (y_pred_binary self));
      rep ← lift_outcome (ext (classification_report E (data (y_true self)) yb));
      _ ← in_world (print rep);
      _ ← in_world (print (nl +:+ "                  |  Metrics Report: | " +:+ nl));
      _ ← print_metrics E;
      _ ← in_world (print (nl +:+ "                  |  Lift: | " +:+ nl));
      l ← lift_outcome (ext (lift E (data (y_true self)) (data (y_pred self))));
      _ ← in_world (print l);
      _ ← in_world (print (nl +:+ "                  |  Plots: | " +:+ nl));
      plot_metrics E
  | Regression =>
      _ ← in_world (print (nl +:+ "                  |  Metrics Report: | " +:+ nl));
      _ ← print_metrics E;
      _ ← in_world (print (nl +:+ "                  |  Plots: | " +:+ nl));
      plot_metrics E
  end.

(** ** Dictionaries and calls *)

(** [d[k]] on a dictionary kept in insertion order. *)
Fixpoint dict_get (k : string) (d : list (string * pyval)) : option pyval :=
  match d with
  | [] => None
  | (k', v) :: d' => if decide (k' = k) then Some v else dict_get k d'
  end.

(** The methods of a report that a client can call once it is built. *)
Inductive call :=
| Call_save_report (folder : list string) (name : string)
| Call_print_metrics
| Call_plot_metrics
| Call_print_report
| Call_generate_html_report (folder : list string) (add_css : bool)
| Call_classification_plots (save : bool) (folder : list string)
| Call_regression_plots (save : bool) (folder : list string)
| Call_plot (p : plot) (figsize : nat * nat).

Definition plot_method (E : Externals) (p : plot) : nat * nat → M state figure :=
  match p with
  | class_distribution => plot_class_distribution E
  | confusion_matrix_plot => plot_confusion_matrix E
  | precision_recall_curve => plot_precision_recall_curve E
  | roc_curve => plot_roc_curve E
  | ks_statistic => plot_ks_statistic E
  | calibration_curve => plot_calibration_curve E
  | cumulative_gain => plot_cumulative_gain E
  | lift_curve => plot_lift_curve E
  | residual_plot => plot_residual_plot E
  | predicted_vs_actual => plot_predicted_vs_actual E
  end.

(** Runs one call and drops its result; an exception is caught by the
    client, the effects made before it stay. *)
Definition run_call (E : Externals) (c : call) (s : state) : state :=
  match c with
  | Call_save_report folder name => (save_report E folder name s).2
  | Call_print_metrics => (print_metrics E s).2
  | Call_plot_metrics => (plot_metrics E s).2
  | Call_print_report => (print_report E s).2
  | Call_generate_html_report folder add_css =>
      (_generate_html_report E folder add_css s).2
  | Call_classification_plots save folder => (_classification_plots E save folder s).2
  | Call_regression_plots save folder => (_regression_plots E save folder s).2
  | Call_plot p figsize => (plot_method E p figsize s).2
  end.

Definition run_calls (E : Externals) (cs : list call) (s : state) : state :=
  foldl (λ s c, run_call E c s) s cs.

(** ** A sample of collaborators, to run the model on concrete inputs *)

Definition same_length {A B} (a : list A) (b : list B) : bool :=
  bool_decide (length a = length b).

(** A mean in float64, the values added from left to right, as numpy adds
    fewer than eight of them. *)
Definition mean_of (l : list Qc) : pyfloat :=
  float_div (float_sum (Finite <$> l)) (float64 (Qc_of_Z (Z.of_nat (length l)))).

Definition metric_of (l : list Qc) : option scalar :=
  match l with
  | [] => None
  | _ => Some (PyFloat (mean_of l))
  end.

Definition half : scalar := NpFloat (Finite (qc 1 2)).

(** Means in float64 where the metric is one (accuracy, squared and
    absolute error) and the maximal error; the metrics that need a
    logarithm or a ranking are stood in for by a constant, with the input
    checks of scikit-learn that matter to the constructor: arrays of
    different lengths are rejected, one class only has no AUC, and the
    logarithmic error rejects the values that are not above -1. *)
Definition sample_env : Externals := {|
  check_targets := λ _ _, true;
  roc_auc_score := λ yt yp,
    if same_length yt yp && bool_decide (length (np_unique yt) = 2%nat)
    then Some half else None;
  log_loss := λ yt yp,
    if same_length yt yp then Some half else None;
  average_precision_score := λ yt yp,
    if same_length yt yp then Some half else None;
  accuracy_score := λ yt yb,
    if same_length yt yb
    then metric_of (zip_with (λ t b, if decide (t = Qc_of_Z b) then 1 else 0) yt yb)
    else None;
  precision_score_weighted := λ yt yb,
    if same_length yt yb then Some half else None;
  recall_score_weighted := λ yt yb,
    if same_length yt yb then Some half else None;
  f1_score_weighted := λ yt yb,
    if same_length yt yb then Some half else None;
  matthews_corrcoef := λ yt yb,
    if same_length yt yb then Some (PyFloat (Finite 0)) else None;
  classification_report := λ yt yb,
    if same_length yt yb then Some "classification report" else None;
  mean_squared_error := λ yt yp,
    if same_length yt yp
    then metric_of (zip_with (λ t p, float64 ((t - p) * (t - p))) yt yp) else None;
  mean_squared_log_error := λ yt yp,
    if same_length yt yp
       && forallb (λ v, bool_decide (-1 < v)) (yt ++ yp)
    then Some (PyFloat (Finite 0)) else None;
  mean_absolute_error := λ yt yp,
    if same_length yt yp
    then metric_of (zip_with (λ t p, float64 (Qc_abs (t - p))) yt yp) else None;
  r2_score := λ yt yp,
    if same_length yt yp then Some half else None;
  explained_variance_score := λ yt yp,
    if same_length yt yp then Some half else None;
  max_error := λ yt yp,
    if same_length yt yp
    then Some (PyFloat (Finite (foldr Qc_max 0
                 (zip_with (λ t p, float64 (Qc_abs (t - p))) yt yp))))
    else None;
  np_mean_finite := mean_of;
  np_std := λ _, Finite 0;
  draw_bc := λ p _ yt yp, if same_length yt yp then Some "bc figure" else None;
  draw_skplt := λ p _ yt pr, if same_length yt pr then Some "skplt figure" else None;
  draw_scatter := λ p _ x y, if same_length x y then Some "scatter figure" else None;
  str_float := λ f,
    match f with
    | Finite q => pretty (Qnum q) +:+ "/" +:+ pretty (Zpos (Qden q))
    | NonFinite => "nan"
    end;
  frame_to_string := λ d, foldr (λ kv acc, kv.1 +:+ nl +:+ acc) "" d;
  markdownify := λ html, html;
  lift := λ yt yp, if same_length yt yp then Some "lift" else None
|}.

Definition empty_world : world := {| fs := ∅; stdout := []; shown := [] |}.

(** The fixtures of [tests/test_metricsreport.py]. *)
Definition binary_classification_y_true : list pynum :=
  PyI <$> [0; 1; 1; 0; 1; 0; 0; 1; 0; 1; 0; 1; 0]%Z.

Definition binary_classification_y_pred : list pynum :=
  (λ n, PyF (qc n 10)) <$> [2; 8; 9; 1; 6; 3; 4; 7; 2; 9; 8; 4; 9]%Z.

Definition regression_y_true : list pynum := PyI <$> [1; 2; 3; 4; 5]%Z.

Definition regression_y_pred : list pynum :=
  (λ n, PyF (qc n 10)) <$> [11; 23; 34; 42; 48]%Z.

(** The result of a constructor run, whichever way it ended. *)
Definition result_type (o : outcome MetricsReport) : Type :=
  match o with
  | Ok _ => MetricsReport
  | Raise _ => exn
  end.

(** The object when the run returned, the exception when it raised. *)
Definition result_of (o : outcome MetricsReport) : result_type o :=
  match o with
  | Ok r => r
  | Raise e => e
  end.

(** The reports that the constructor builds from the fixtures. *)
Definition sample_classification_report : MetricsReport := Eval vm_compute in
  result_of (__init__ sample_env binary_classification_y_true
               binary_classification_y_pred (PyF (qc 1 2)) empty_world).1.

Definition sample_regression_report : MetricsReport := Eval vm_compute in
  result_of (__init__ sample_env regression_y_true regression_y_pred
               (PyF (qc 1 2)) empty_world).1.

(** A world in which an earlier report was saved under [report_metrics]. *)
Definition stale_world : world :=
  {| fs := {[ ["report_metrics"] := Dir;
              ["report_metrics"; "old.html"] := File "stale";
              ["report_metrics"; "plots"] := Dir;
              ["report_metrics"; "plots"; "old.png"] := File "stale" ]};
     stdout := []; shown := [] |}.

(** A world in which [report_metrics/plots] exists and is empty. *)
Definition bare_plots_world : world :=
  {| fs := {[ ["report_metrics"] := Dir; ["report_metrics"; "plots"] := Dir ]};
     stdout := []; shown := [] |}.

(** * Notions used to state the properties *)

(** The number of distinct values of a list of numbers. *)
Definition distinct_values (y_true : list pynum) : nat :=
  size (list_to_set (num_val <$> y_true) : gset Qc).

(** The values of a list as numpy stores them. *)
Definition stored (l : list pynum) : list Qc := data (np_array l).

(** numpy stores every value of the list as it is: no int is rounded by a
    conversion to float64. *)
Definition exactly_stored (l : list pynum) : Prop := stored l = num_val <$> l.

Global Instance exactly_stored_dec l : Decision (exactly_stored l).
Proof. unfold exactly_stored. apply _. Defined.

(** An int of at most 53 bits, which float64 holds exactly; any float. *)
Definition fits_float64 (x : pynum) : Prop :=
  match x with
  | PyI z => (Z.abs z < 2 ^ 53)%Z
  | PyF _ => True
  end.

(** An int in the range of [int64]; any float. *)
Definition numpy_int (x : pynum) : Prop :=
  match x with
  | PyI z => (- 2 ^ 63 ≤ z < 2 ^ 63)%Z
  | PyF _ => True
  end.

(** An int of at most 62 bits, so that the difference of two of them is in
    the range of [int64]; any float. *)
Definition small_int (x : pynum) : Prop :=
  match x with
  | PyI z => (Z.abs z < 2 ^ 62)%Z
  | PyF _ => True
  end.

(** A list that numpy stores without rounding: its ints are in the range of
    [int64] and, unless the list holds ints only, of at most 53 bits. *)
Definition exact_list (l : list pynum) : Prop :=
  Forall numpy_int l ∧
  (Forall (λ x, is_PyI x = true) l ∨ Forall fits_float64 l).

Global Instance fits_float64_dec x : Decision (fits_float64 x).
Proof. destruct x; simpl; apply _. Defined.
Global Instance numpy_int_dec x : Decision (numpy_int x).
Proof. destruct x; simpl; apply _. Defined.
Global Instance small_int_dec x : Decision (small_int x).
Proof. destruct x; simpl; apply _. Defined.
Global Instance exact_list_dec l : Decision (exact_list l).
Proof. unfold exact_list. apply _. Defined.

(** A threshold of the unit interval, the domain that the specification
    gives it. *)
Definition unit_threshold (t : pynum) : Prop := 0 ≤ num_val t ∧ num_val t ≤ 1.

(** A name that is one component of a path: it holds no ['/'] and no NUL. *)
Definition plain_name (s : string) : Prop :=
  Forall (λ c, c ≠ Ascii.ascii_of_nat 47 ∧ c ≠ Ascii.zero)
    (String.list_ascii_of_string s).

(** A component of a path as the model has them: a name, not empty and
    other than ['.'] and ['..'], which the system would resolve. *)
Definition plain_component (s : string) : Prop :=
  plain_name s ∧ s ≠ "" ∧ s ≠ "." ∧ s ≠ "..".

(** A folder given by plain components: the string that the source gets
    is their concatenation with ['/'], or ['.'] for the empty list. *)
Definition plain_path (p : list string) : Prop := Forall plain_component p.

Global Instance plain_name_dec s : Decision (plain_name s).
Proof. unfold plain_name. apply _. Defined.
Global Instance plain_component_dec s : Decision (plain_component s).
Proof. unfold plain_component. apply _. Defined.
Global Instance plain_path_dec p : Decision (plain_path p).
Proof. unfold plain_path. apply _. Defined.

(** The keys of a dictionary, in insertion order. *)
Definition keys (d : list (string * pyval)) : list string := d.*1.

(** The keys of the metrics of a classification report. *)
Definition classification_keys : list string :=
  [ "AUC"; "Log Loss"; "Average_Precision"; "Accuracy"; "Precision"; "Recall";
    "F1 Score"; "MCC"; "TN"; "FP"; "FN"; "TP" ].

(** The keys of the metrics of a regression report. *)
Definition regression_keys : list string :=
  [ "Mean Squared Error"; "Mean Squared Log Error"; "Mean Absolute Error";
    "R^2"; "Explained Variance Score"; "Max Error";
    "Mean Absolute Percentage Error" ].

(** The binary prediction that a score [p] gets under the threshold [t]. *)
Definition binary_prediction (t p : Qc) : Z :=
  if decide (t < p) then 1%Z else 0%Z.

(** A prediction floored at zero. *)
Definition floored (p : Qc) : Qc := if decide (p < 0) then 0 else p.

(** [m] never changes the observation [g] of the state, whether it returns
    or raises. *)
Definition preserves {S X A} (g : S → X) (m : M S A) : Prop :=
  ∀ s, g (m s).2 = g s.

(** The document that [_generate_html_report] returns when its plots
    section is [images]. *)
Definition html_document (E : Externals) (self : MetricsReport) (add_css : bool)
    (images : string) : string :=
  html_part0 +:+ (if add_css then css_text else "") +:+
  html_part1 +:+ task_name (task_type self) +:+
  html_part2 +:+ __generate_html_rows E (target_info self) +:+
  html_part3 +:+ str_num E (threshold self) +:+
  html_part4 +:+ __generate_html_rows E (metrics self) +:+
  html_part5 +:+ images +:+
  html_part6.

(** Every entry of a well-formed file system lies in a directory. *)
Definition fs_wf (m : gmap (list string) node) : Prop :=
  map_Forall (λ p _, removelast p = [] ∨ m !! removelast p = Some Dir) m.

Global Instance fs_wf_dec m : Decision (fs_wf m).
Proof. unfold fs_wf. apply _. Defined.

(** The plots of a task, in the order of the dictionary [plots]. *)
Definition task_plots (t : task) : list plot :=
  match t with
  | Classification =>
      [ class_distribution; confusion_matrix_plot; precision_recall_curve;
        roc_curve; ks_statistic; calibration_curve; cumulative_gain; lift_curve ]
  | Regression => [ residual_plot; predicted_vs_actual ]
  end.

(** The key of a plot in the dictionary [plots]. *)
Definition plot_key (p : plot) : string :=
  match p with
  | class_distribution => "class_distribution"
  | confusion_matrix_plot => "confusion_matrix"
  | precision_recall_curve => "precision_recall_curve"
  | roc_curve => "roc_curve"
  | ks_statistic => "ks_statistic"
  | calibration_curve => "calibration_curve"
  | cumulative_gain => "cumulative_gain"
  | lift_curve => "lift_curve"
  | residual_plot => "residual_plot"
  | predicted_vs_actual => "predicted_vs_actual"
  end.

(** [f'{folder}/plots/{plot_name}.png'] *)
Definition png_path (folder : list string) (p : plot) : list string :=
  folder ++ ["plots"; plot_key p +:+ ".png"].

(** The figure that the plot method [p] of the report [r] draws, when the
    collaborator it calls returns one. *)
Definition figure_of (E : Externals) (r : MetricsReport) (p : plot)
  : option figure :=
  match p with
  | class_distribution | confusion_matrix_plot | precision_recall_curve
  | roc_curve =>
      draw_bc E p default_figsize (data (y_true r)) (data (y_pred r))
  | ks_statistic | calibration_curve | cumulative_gain | lift_curve =>
      probas ← probas_reval r;
      draw_skplt E p default_figsize (data (y_true r)) probas
  | residual_plot =>
      residuals ← np_subtract (y_true r) (y_pred r);
      draw_scatter E p default_figsize (data (y_pred r)) residuals
  | predicted_vs_actual =>
      draw_scatter E p default_figsize (data (y_pred r)) (Finite <$> data (y_true r))
  end.

(** The paths that a saved report occupies: its folder, the plots
    directory, the two report files and one PNG file per plot of the task. *)
Definition report_paths (folder : list string) (name : string) (t : task)
  : list (list string) :=
  [ folder; folder ++ ["plots"];
    folder ++ [name +:+ ".html"]; folder ++ [name +:+ ".md"] ]
  ++ (png_path folder <$> task_plots t).

(** What [save_report] leaves under [folder]. *)
Definition saved_tree (folder : list string) (name : string) (t : task)
    (m : gmap (list string) node) : Prop :=
  (∀ p, folder `prefix_of` p → is_Some (m !! p) ↔ p ∈ report_paths folder name t) ∧
  (∀ q, q ≠ [] → q `prefix_of` folder → m !! q = Some Dir) ∧
  m !! (folder ++ ["plots"]) = Some Dir ∧
  (∃ html, m !! (folder ++ [name +:+ ".html"]) = Some (File html)) ∧
  (∃ md, m !! (folder ++ [name +:+ ".md"]) = Some (File md)) ∧
  (∀ p, p ∈ task_plots t → ∃ fig, m !! png_path folder p = Some (File fig)).





(** Three ints around [2 ** 53] and a float: in a float64 array the first
    two are the same number. *)
Definition mixed_large_targets : list pynum :=
  [ PyI (2 ^ 53); PyI (2 ^ 53 + 1); PyF (qc 1 2) ].

(** Predictions with negative values among them, for the regression
    fixture. *)
Definition signed_regression_y_pred : list pynum :=
  (λ n, PyF (qc n 10)) <$> [-5; 23; 34; -8; 48]%Z.

(** ** Notions for the further properties *)

(** The world after the message of the constructor. *)
Definition greeted (t : task) (w : world) : world :=
  {| fs := fs w;
     stdout := stdout w ++ ["Detecting " +:+ task_name t +:+ " task type"];
     shown := shown w |}.

(** Number of occurrences of the value [a] in [l]. *)
Definition count_eq (a : Qc) (l : list Qc) : Z :=
  Z.of_nat (length (filter (λ v, v = a) l)).

(** The keys of the target summary of each task. *)
Definition target_info_keys (t : task) : list string :=
  match t with
  | Classification =>
      [ "Count of samples"; "Count True class"; "Count False class";
        "Class balance %" ]
  | Regression =>
      [ "Count of samples"; "Mean of target"; "Std of target"; "Min of target";
        "Max of target" ]
  end.

(** Targets with a zero among them, and predictions for them. *)
Definition zero_target_y_true : list pynum := PyI <$> [0; 1; 2]%Z.

Definition zero_target_y_pred : list pynum :=
  (λ n, PyF (qc n 10)) <$> [5; 10; 20]%Z.

(** The plots drawn by scikit-plot from [self.probas_reval]. *)
Definition scikitplot_plots : list plot :=
  [ ks_statistic; calibration_curve; cumulative_gain; lift_curve ].

(** The batch plot method of a task. *)
Definition batch_plots (E : Externals) (t : task) (save : bool)
    (folder : list string) : M state unit :=
  match t with
  | Classification => _classification_plots E save folder
  | Regression => _regression_plots E save folder
  end.

(** A world in which a regular file has the name of the report folder. *)
Definition blocked_world : world :=
  {| fs := {[ ["report_metrics"] := File "notes" ]}; stdout := []; shown := [] |}.

(** A working directory with files of its own and plots of an earlier run. *)
Definition home_world : world :=
  {| fs := {[ ["notes.txt"] := File "notes";
              ["plots"] := Dir;
              ["plots"; "old.png"] := File "stale";
              ["data"] := Dir;
              ["data"; "train.csv"] := File "rows" ]};
     stdout := []; shown := [] |}.

(** * Properties *)

(** Settles a decidable closed proposition by evaluation. *)
Ltac by_compute := apply (bool_decide_unpack _); vm_compute; exact I.

(** ** The monad *)

Lemma bind_ok {S A B} (m : M S A) (f : A → M S B) s a s' :
  m s = (Ok a, s') → (m ≫= f) s = f a s'.
Proof. intros H. unfold mbind, M_bind. by rewrite H. Qed.

Lemma bind_raise {S A B} (m : M S A) (f : A → M S B) s e s' :
  m s = (Raise e, s') → (m ≫= f) s = (Raise e, s').
Proof. intros H. unfold mbind, M_bind. by rewrite H. Qed.

Lemma bind_ok_inv {S A B} (m : M S A) (f : A → M S B) s b s'' :
  (m ≫= f) s = (Ok b, s'') → ∃ a s', m s = (Ok a, s') ∧ f a s' = (Ok b, s'').
Proof.
  unfold mbind, M_bind. destruct (m s) as [[a|e] s'] eqn:Hm; [|done].
  intros Hf. by exists a, s'.
Qed.

Lemma outcome_bind_ok_inv {A B} (m : outcome A) (f : A → outcome B) b :
  m ≫= f = Ok b → ∃ a, m = Ok a ∧ f a = Ok b.
Proof. destruct m as [a|e]; [|done]. intros Hf. by exists a. Qed.

Lemma ext_ok_inv {A} (o : option A) a : ext o = Ok a → o = Some a.
Proof. destruct o; simpl; congruence. Qed.

Lemma getattr_ok_inv {A} (o : option A) a : getattr o = Ok a → o = Some a.
Proof. destruct o; simpl; congruence. Qed.

Lemma or_raise_ok_inv {A} e (o : option A) a : or_raise e o = Ok a → o = Some a.
Proof. destruct o; simpl; congruence. Qed.

(** ** Binary64 *)

Lemma Qc_of_Z_pos (k : Z) : (0 < k)%Z → 0 < Qc_of_Z k.
Proof. intros H. rewrite <-Z2Qc_inj_0. by apply (proj1 (Z2Qc_inj_lt 0 k)). Qed.

Lemma pow2_pos (e : Z) : 0 < pow2 e.
Proof.
  unfold pow2. case_decide.
  - apply Qc_of_Z_pos. by apply Z.pow_pos_nonneg.
  - apply Qcinv_pos, Qc_of_Z_pos. apply Z.pow_pos_nonneg; lia.
Qed.

Lemma pow2_ne_0 (e : Z) : pow2 e ≠ 0.
Proof. intros H. pose proof (pow2_pos e) as Hp. rewrite H in Hp. by apply Qclt_not_eq in Hp. Qed.

Lemma Qfloor_Qc_of_Z (z : Z) : Qfloor (Qc_of_Z z) = z.
Proof. exact (Qfloor_Z z). Qed.

Lemma round_half_even_Z (k : Z) : round_half_even (Qc_of_Z k) = k.
Proof.
  unfold round_half_even. rewrite Qfloor_Qc_of_Z.
  rewrite decide_True; [done|].
  replace (Qc_of_Z k - Qc_of_Z k) with (0 : Qc) by ring. by_compute.
Qed.

Lemma round_half_even_floor (x : Qc) :
  (Qfloor x ≤ round_half_even x ≤ Qfloor x + 1)%Z.
Proof. unfold round_half_even. repeat case_decide; try destruct (Z.even _); lia. Qed.

(** Turns a goal on canonical rationals into one on plain rationals. *)
Ltac to_Q :=
  unfold Qc_abs, Qcle, Qclt, Qcminus, Qcplus, Qcopp, Qcmult, qc, Q2Qc in *;
  simpl this in *; rewrite ?Qred_correct in *;
  rewrite ?inject_Z_plus in *; change (inject_Z 1) with 1%Q in *.

(** Rounding to the nearest integer moves a number by a half at most. *)
Lemma round_half_even_near (q : Qc) :
  Qc_abs (Qc_of_Z (round_half_even q) - q) ≤ qc 1 2.
Proof.
  unfold round_half_even.
  pose proof (Qfloor_le q) as Hlo. pose proof (Qlt_floor q) as Hhi.
  set (f := Qfloor q) in *.
  destruct (Z.even f);
    repeat case_decide; unfold Qc_abs; repeat case_decide; to_Q; lra.
Qed.

(** The integer within less than a half of [x] is its rounding. *)
Lemma round_half_even_unique (x : Qc) (k : Z) :
  Qc_abs (Qc_of_Z k - x) < qc 1 2 → round_half_even x = k.
Proof.
  intros Hk. unfold round_half_even.
  pose proof (Qfloor_le x) as Hlo. pose proof (Qlt_floor x) as Hhi.
  set (f := Qfloor x) in *.
  assert (f ≤ k ≤ f + 1)%Z as Hfk.
  { split.
    - apply Z.lt_succ_r. unfold Z.succ. rewrite Zlt_Qlt.
      unfold Qc_abs in Hk. case_decide; to_Q; lra.
    - apply Z.lt_succ_r. unfold Z.succ. rewrite Zlt_Qlt.
      unfold Qc_abs in Hk. case_decide; to_Q; lra. }
  assert (k = f ∨ k = (f + 1)%Z) as [-> | ->] by lia.
  - rewrite decide_True; [done|]. unfold Qc_abs in Hk. case_decide; to_Q; lra.
  - rewrite decide_False.
    + rewrite decide_True; [done|]. unfold Qc_abs in Hk. case_decide; to_Q; lra.
    + unfold Qc_abs in Hk. case_decide; to_Q; lra.
Qed.

(** At a tie the rounding is the even neighbour. *)
Lemma round_half_even_tie (x : Qc) (k : Z) :
  Qc_abs (Qc_of_Z k - x) = qc 1 2 → Z.even k = true → round_half_even x = k.
Proof.
  intros Hk Heven. unfold round_half_even.
  pose proof (Qfloor_le x) as Hlo. pose proof (Qlt_floor x) as Hhi.
  set (f := Qfloor x) in *.
  assert (Qc_abs (Qc_of_Z k - x) ≤ qc 1 2 ∧ qc 1 2 ≤ Qc_abs (Qc_of_Z k - x))
    as [Hle Hge] by (rewrite Hk; split; apply Qcle_refl).
  clear Hk.
  assert (f ≤ k ≤ f + 1)%Z as Hfk.
  { split.
    - apply Z.lt_succ_r. unfold Z.succ. rewrite Zlt_Qlt.
      unfold Qc_abs in Hle. case_decide; to_Q; lra.
    - apply Z.lt_succ_r. unfold Z.succ. rewrite Zlt_Qlt.
      unfold Qc_abs in Hle. case_decide; to_Q; lra. }
  assert (k = f ∨ k = (f + 1)%Z) as [-> | ->] by lia.
  - rewrite decide_False.
    + rewrite decide_False; [by rewrite Heven|].
      unfold Qc_abs in Hle, Hge. case_decide; to_Q; lra.
    + unfold Qc_abs in Hle, Hge. case_decide; to_Q; lra.
  - rewrite decide_False.
    + rewrite decide_False.
      * rewrite Z.even_add in Heven. simpl in Heven.
        destruct (Z.even f); [done|done].
      * unfold Qc_abs in Hle, Hge. case_decide; to_Q; lra.
    + unfold Qc_abs in Hle, Hge. case_decide; to_Q; lra.
Qed.

Lemma round_half_even_tie_even (x : Qc) :
  Qc_abs (Qc_of_Z (round_half_even x) - x) = qc 1 2 →
  Z.even (round_half_even x) = true.
Proof.
  unfold round_half_even.
  pose proof (Qfloor_le x) as Hlo. pose proof (Qlt_floor x) as Hhi.
  set (f := Qfloor x) in *. intros Hk.
  assert (Qc_abs (Qc_of_Z (if decide (x - Qc_of_Z f < qc 1 2) then f
            else if decide (qc 1 2 < x - Qc_of_Z f) then (f + 1)%Z
            else if Z.even f then f else (f + 1)%Z) - x) ≤ qc 1 2 ∧
          qc 1 2 ≤ Qc_abs (Qc_of_Z (if decide (x - Qc_of_Z f < qc 1 2) then f
            else if decide (qc 1 2 < x - Qc_of_Z f) then (f + 1)%Z
            else if Z.even f then f else (f + 1)%Z) - x))
    as [Hle Hge] by (rewrite Hk; split; apply Qcle_refl).
  clear Hk. revert Hle Hge.
  destruct (decide (x - Qc_of_Z f < qc 1 2)) as [H1|H1].
  { intros Hle Hge. exfalso. unfold Qc_abs in Hle, Hge. case_decide; to_Q; lra. }
  destruct (decide (qc 1 2 < x - Qc_of_Z f)) as [H2|H2].
  { intros Hle Hge. exfalso. unfold Qc_abs in Hle, Hge. case_decide; to_Q; lra. }
  intros _ _. destruct (Z.even f) eqn:He; [done|].
  rewrite Z.even_add, He. done.
Qed.

Lemma Qc_abs_opp_sub (a b : Qc) : Qc_abs (- a - - b) = Qc_abs (a - b).
Proof. unfold Qc_abs. repeat case_decide; to_Q; try lra; apply Qc_is_canon; to_Q; lra. Qed.

Lemma round_half_even_opp (x : Qc) :
  round_half_even (- x) = (- round_half_even x)%Z.
Proof.
  pose proof (round_half_even_near x) as Hnear.
  apply Qcle_lt_or_eq in Hnear as [Hlt|Heq].
  - apply round_half_even_unique.
    by rewrite Z2Qc_inj_opp, Qc_abs_opp_sub.
  - apply round_half_even_tie.
    + by rewrite Z2Qc_inj_opp, Qc_abs_opp_sub.
    + rewrite Z.even_opp. by apply round_half_even_tie_even.
Qed.

Lemma this_opp (q : Qc) : this (- q) = Qopp (this q).
Proof.
  unfold Qcopp, Q2Qc. simpl this. rewrite Qred_opp. f_equal.
  destruct q as [q Hq]. exact Hq.
Qed.

Lemma Qc_abs_opp (q : Qc) : Qc_abs (- q) = Qc_abs q.
Proof. unfold Qc_abs. repeat case_decide; to_Q; try lra; apply Qc_is_canon; to_Q; lra. Qed.

Lemma floor_log2_opp (q : Qc) : floor_log2 (- q) = floor_log2 q.
Proof.
  unfold floor_log2. rewrite this_opp, Qc_abs_opp.
  destruct (this q) as [n d]. simpl. by rewrite Z.abs_opp.
Qed.

Lemma Qc_opp_eq_0 (q : Qc) : - q = 0 ↔ q = 0.
Proof.
  split; intros H.
  - rewrite <-(Qcopp_involutive q), H. by_compute.
  - rewrite H. by_compute.
Qed.

(** Rounding to binary64 is symmetric. *)
Lemma float64_opp (q : Qc) : float64 (- q) = - float64 q.
Proof.
  unfold float64. destruct (decide (q = 0)) as [->|Hq].
  - rewrite decide_True by by_compute. by_compute.
  - rewrite decide_False by (by rewrite Qc_opp_eq_0).
    rewrite floor_log2_opp.
    set (e := Z.max (floor_log2 q - 52) (-1074)).
    replace (- q / pow2 e) with (- (q / pow2 e)).
    + rewrite round_half_even_opp, Z2Qc_inj_opp. ring.
    + field. apply pow2_ne_0.
Qed.

Lemma round_half_even_nonneg (x : Qc) : 0 ≤ x → (0 ≤ round_half_even x)%Z.
Proof.
  intros Hx. pose proof (round_half_even_floor x) as [Hf _].
  assert (0 ≤ Qfloor x)%Z; [|lia].
  change 0%Z with (Qfloor 0). apply Qfloor_resp_le. exact Hx.
Qed.

Lemma Qc_of_Z_nonneg (k : Z) : (0 ≤ k)%Z → 0 ≤ Qc_of_Z k.
Proof. intros H. rewrite <-Z2Qc_inj_0. by apply (proj1 (Z2Qc_inj_le 0 k)). Qed.

Lemma Qcdiv_nonneg (x y : Qc) : 0 ≤ x → 0 < y → 0 ≤ x / y.
Proof.
  intros Hx Hy. unfold Qcdiv. apply Qcmult_nonneg_nonneg; [done|].
  apply Qclt_le_weak. by apply Qcinv_pos.
Qed.

(** Rounding to binary64 keeps the sign. *)
Lemma float64_nonneg (q : Qc) : 0 ≤ q → 0 ≤ float64 q.
Proof.
  intros Hq. unfold float64. case_decide; [apply Qcle_refl|].
  set (e := Z.max (floor_log2 q - 52) (-1074)).
  pose proof (pow2_pos e) as Hp.
  apply Qcmult_nonneg_nonneg; [|by apply Qclt_le_weak].
  apply Qc_of_Z_nonneg, round_half_even_nonneg. by apply Qcdiv_nonneg.
Qed.

Lemma float64_nonpos (q : Qc) : q ≤ 0 → float64 q ≤ 0.
Proof.
  intros Hq. assert (0 ≤ - q) as H by (to_Q; lra).
  apply float64_nonneg in H. rewrite float64_opp in H. to_Q. lra.
Qed.

Lemma float64_0 : float64 0 = 0.
Proof. unfold float64. by rewrite decide_True. Qed.

(** *** Integers *)

Lemma floor_log2_Z (k : Z) :
  k ≠ 0%Z → floor_log2 (Qc_of_Z k) = Z.log2 (Z.abs k).
Proof.
  intros Hk. unfold floor_log2. simpl Qnum. simpl Qden.
  change (Z.log2 1) with 0%Z. rewrite Z.sub_0_r.
  rewrite decide_False; [done|].
  assert (0 < Z.abs k)%Z as Hpos by lia.
  pose proof (Z.log2_spec _ Hpos) as [Hlo _].
  set (L := Z.log2 (Z.abs k)) in *.
  assert (0 ≤ L)%Z as HL by apply Z.log2_nonneg.
  unfold pow2. rewrite decide_True by done.
  assert (Qc_abs (Qc_of_Z k) = Qc_of_Z (Z.abs k)) as ->.
  { unfold Qc_abs. case_decide as Hneg.
    - rewrite <-Z2Qc_inj_opp. f_equal.
      rewrite <-Z2Qc_inj_0 in Hneg. apply Z2Qc_inj_lt in Hneg. lia.
    - f_equal. rewrite <-Z2Qc_inj_0 in Hneg.
      assert (¬ (k < 0)%Z) by (by intros ?%Z2Qc_inj_lt). lia. }
  intros Hlt%Z2Qc_inj_lt. apply Z.lt_nge in Hlt. by apply Hlt.
Qed.

Lemma pow2_add (a b : Z) : pow2 (a + b) = pow2 a * pow2 b.
Proof.
  assert (∀ n : Z, (0 ≤ n)%Z → Qc_of_Z (2 ^ n) ≠ 0) as Hne.
  { intros n Hn H. pose proof (Qc_of_Z_pos (2 ^ n)) as Hp.
    rewrite H in Hp. apply (Qclt_not_eq 0 0); [|done].
    apply Hp. by apply Z.pow_pos_nonneg. }
  assert (∀ n m : Z, (0 ≤ n)%Z → (0 ≤ m)%Z →
            Qc_of_Z (2 ^ (n + m)) = Qc_of_Z (2 ^ n) * Qc_of_Z (2 ^ m)) as Hadd.
  { intros n m Hn Hm. rewrite Z.pow_add_r by done. apply Z2Qc_inj_mul. }
  unfold pow2.
  destruct (decide (0 ≤ a + b)%Z), (decide (0 ≤ a)%Z), (decide (0 ≤ b)%Z);
    try lia.
  - by apply Hadd.
  - pose proof (Hadd (a + b) (- b))%Z as H.
    replace (a + b + - b)%Z with a in H by lia. rewrite H by lia.
    field. apply Hne. lia.
  - pose proof (Hadd (a + b) (- a))%Z as H.
    replace (a + b + - a)%Z with b in H by lia. rewrite H by lia.
    field. apply Hne. lia.
  - pose proof (Hadd (- (a + b)) a)%Z as H.
    replace (- (a + b) + a)%Z with (- b)%Z in H by lia. rewrite H by lia.
    field. split; apply Hne; lia.
  - pose proof (Hadd (- (a + b)) b)%Z as H.
    replace (- (a + b) + b)%Z with (- a)%Z in H by lia. rewrite H by lia.
    field. split; apply Hne; lia.
  - replace (- (a + b))%Z with (- a + - b)%Z by lia.
    rewrite Hadd by lia. field. split; apply Hne; lia.
Qed.

Lemma pow2_nonneg_Z (n : Z) : (0 ≤ n)%Z → pow2 n = Qc_of_Z (2 ^ n).
Proof. intros Hn. unfold pow2. by rewrite decide_True. Qed.

Lemma pow2_0 : pow2 0 = 1.
Proof. by_compute. Qed.

(** An integer of at most 53 bits is a binary64 number. *)
Lemma float64_small_int (z : Z) :
  (Z.abs z < 2 ^ 53)%Z → float64 (Qc_of_Z z) = Qc_of_Z z.
Proof.
  intros Hz. unfold float64. case_decide as H0; [by rewrite H0|].
  assert (z ≠ 0%Z) as Hz0 by (intros ->; exact (H0 Z2Qc_inj_0)).
  rewrite floor_log2_Z by done.
  assert (0 < Z.abs z)%Z as Hpos by lia.
  pose proof (Z.log2_spec _ Hpos) as [Hlo Hhi].
  set (L := Z.log2 (Z.abs z)) in *.
  assert (0 ≤ L)%Z as HL by apply Z.log2_nonneg.
  assert (L < 53)%Z as HL53.
  { apply (Z.pow_lt_mono_r_iff 2); lia. }
  rewrite Z.max_l by lia.
  set (n := (52 - L)%Z).
  replace (L - 52)%Z with (- n)%Z by lia.
  assert (pow2 n * pow2 (- n) = 1) as Hinv.
  { rewrite <-pow2_add. replace (n + - n)%Z with 0%Z by lia. apply pow2_0. }
  assert (Qc_of_Z z / pow2 (- n) = Qc_of_Z (z * 2 ^ n)) as ->.
  { rewrite Z2Qc_inj_mul, <-pow2_nonneg_Z by lia.
    rewrite <-(Qcmult_1_r (Qc_of_Z z)) at 1. rewrite <-Hinv. field.
    apply pow2_ne_0. }
  rewrite round_half_even_Z, Z2Qc_inj_mul, <-pow2_nonneg_Z by lia.
  rewrite <-Qcmult_assoc, Hinv. ring.
Qed.

(** A large integer stays large when it is rounded. *)
Lemma float64_big_int (z : Z) :
  (2 ^ 53 ≤ z)%Z → Qc_of_Z (2 ^ 52) ≤ float64 (Qc_of_Z z).
Proof.
  intros Hz. unfold float64.
  assert (0 < 2 ^ 53)%Z as H53 by done.
  assert (z ≠ 0%Z) as Hz0 by lia.
  rewrite decide_False by (intros H; rewrite <-Z2Qc_inj_0 in H; by apply Z2Qc_inj in H).
  rewrite floor_log2_Z by done. rewrite Z.abs_eq by lia.
  assert (0 < z)%Z as Hpos by lia.
  pose proof (Z.log2_spec _ Hpos) as [Hlo Hhi].
  assert (53 ≤ Z.log2 z)%Z as HL.
  { change 53%Z with (Z.log2 (2 ^ 53)). by apply Z.log2_le_mono. }
  set (L := Z.log2 z) in *.
  rewrite Z.max_l by lia.
  set (e := (L - 52)%Z).
  assert (0 ≤ e)%Z as He by (unfold e; lia).
  pose proof (pow2_pos e) as Hp.
  assert (Qc_of_Z (2 ^ 52) ≤ Qc_of_Z z / pow2 e) as Hx.
  { apply (Qcmult_le_mono_pos_r _ _ (pow2 e) Hp).
    replace (Qc_of_Z z / pow2 e * pow2 e) with (Qc_of_Z z)
      by (field; apply pow2_ne_0).
    rewrite pow2_nonneg_Z by done. rewrite <-Z2Qc_inj_mul.
    apply (proj1 (Z2Qc_inj_le _ _)). rewrite <-Z.pow_add_r by lia.
    replace (52 + e)%Z with L by (unfold e; lia). done. }
  assert (2 ^ 52 ≤ round_half_even (Qc_of_Z z / pow2 e))%Z as Hk.
  { pose proof (round_half_even_floor (Qc_of_Z z / pow2 e)) as [Hf _].
    etrans; [|exact Hf]. rewrite <-(Qfloor_Qc_of_Z (2 ^ 52)).
    apply Qfloor_resp_le. exact Hx. }
  set (k := round_half_even (Qc_of_Z z / pow2 e)) in *.
  assert (1 ≤ pow2 e) as Hp1.
  { rewrite pow2_nonneg_Z by done. rewrite <-Z2Qc_inj_1.
    apply (proj1 (Z2Qc_inj_le _ _)).
    pose proof (Z.pow_pos_nonneg 2 e). lia. }
  assert (Qc_of_Z (2 ^ 52) ≤ Qc_of_Z k) as Hk' by (by apply (proj1 (Z2Qc_inj_le _ _))).
  assert (0 ≤ Qc_of_Z k) as Hk0.
  { apply Qc_of_Z_nonneg. pose proof (Z.pow_pos_nonneg 2 52). lia. }
  etrans; [exact Hk'|].
  rewrite <-(Qcmult_1_r (Qc_of_Z k)) at 1.
  by apply Qcmult_le_mono_nonneg_l.
Qed.

(** Against a threshold of the unit interval an integer compares the same
    before and after its conversion to float64. *)
Lemma float64_int_above_unit (t : Qc) (k : Z) :
  0 ≤ t → t ≤ 1 → (t < float64 (Qc_of_Z k) ↔ t < Qc_of_Z k).
Proof.
  intros Ht0 Ht1.
  destruct (decide (Z.abs k < 2 ^ 53)%Z) as [Hsmall|Hbig].
  { by rewrite float64_small_int. }
  destruct (decide (0 ≤ k)%Z) as [Hk|Hk].
  - assert (2 ^ 53 ≤ k)%Z as Hk53 by lia.
    pose proof (float64_big_int k Hk53) as Hf.
    assert ((1 : Qc) < Qc_of_Z (2 ^ 52)) as H1 by by_compute.
    assert (Qc_of_Z (2 ^ 52) ≤ Qc_of_Z k) as Hk'.
    { apply (proj1 (Z2Qc_inj_le _ _)). lia. }
    split; intros _.
    + eapply Qcle_lt_trans; [exact Ht1|]. eapply Qclt_le_trans; [exact H1|done].
    + eapply Qcle_lt_trans; [exact Ht1|]. eapply Qclt_le_trans; [exact H1|done].
  - assert (Qc_of_Z k ≤ 0) as Hk0.
    { rewrite <-Z2Qc_inj_0. apply (proj1 (Z2Qc_inj_le _ _)). lia. }
    pose proof (float64_nonpos _ Hk0) as Hf.
    split; intros Hlt; exfalso.
    + apply (Qclt_not_le _ _ Hlt). by etrans.
    + apply (Qclt_not_le _ _ Hlt). by etrans.
Qed.

(** ** [np.unique] *)

Lemma drop_repeats_elem prev l x : x ∈ drop_repeats prev l → x ∈ l.
Proof.
  revert prev. induction l as [|y l IH]; intros prev; simpl; [done|].
  case_decide.
  - intros Hx. right. by eapply IH.
  - intros [->|Hx]%elem_of_cons; [left|right; by eapply IH].
Qed.

Lemma elem_drop_repeats prev l x :
  x ∈ l → x = prev ∨ x ∈ drop_repeats prev l.
Proof.
  revert prev. induction l as [|y l IH]; intros prev; simpl.
  - by intros ?%elem_of_nil.
  - intros [->|Hx]%elem_of_cons; case_decide; subst.
    + by left.
    + right. left.
    + by apply IH.
    + right. destruct (IH y Hx) as [->|?]; [left|by right].
Qed.

Lemma drop_repeats_above prev l x :
  StronglySorted Qcle (prev :: l) → x ∈ drop_repeats prev l → prev < x.
Proof.
  revert prev. induction l as [|y l IH]; intros prev Hs; simpl.
  - by intros ?%elem_of_nil.
  - apply StronglySorted_inv in Hs as [Hs Hall].
    apply StronglySorted_inv in Hs as [Hs Hally].
    apply Forall_cons in Hall as [Hpy Hall].
    case_decide as Heq.
    + subst y. apply IH. by constructor.
    + assert (prev < y) as Hlt.
      { destruct (Qcle_lt_or_eq _ _ Hpy) as [?|?]; [done|]. by subst. }
      intros [->|Hx]%elem_of_cons; [done|].
      eapply Qclt_trans; [exact Hlt|]. apply IH; [|done]. by constructor.
Qed.

Lemma NoDup_drop_repeats prev l :
  StronglySorted Qcle (prev :: l) → NoDup (prev :: drop_repeats prev l).
Proof.
  revert prev. induction l as [|y l IH]; intros prev Hs; simpl.
  - apply NoDup_singleton.
  - pose proof Hs as Hs0.
    apply StronglySorted_inv in Hs as [Hs Hall].
    pose proof Hs as Hsy.
    apply StronglySorted_inv in Hs as [Hs Hally].
    apply Forall_cons in Hall as [Hpy Hall].
    case_decide as Heq.
    + subst y. apply IH. by constructor.
    + apply NoDup_cons. split; [|by apply IH].
      intros Hin. assert (prev < prev) as Hlt; [|by apply Qclt_not_eq in Hlt].
      apply (drop_repeats_above prev (y :: l) prev Hs0).
      simpl. by rewrite decide_False.
Qed.

Lemma NoDup_np_unique ar : NoDup (np_unique ar).
Proof.
  unfold np_unique.
  pose proof (StronglySorted_merge_sort Qcle ar) as Hs.
  destruct (merge_sort Qcle ar) as [|x l]; [constructor|].
  by apply NoDup_drop_repeats.
Qed.

Lemma elem_of_np_unique ar x : x ∈ np_unique ar ↔ x ∈ ar.
Proof.
  rewrite <-(merge_sort_Permutation Qcle ar) at 2. unfold np_unique.
  destruct (merge_sort Qcle ar) as [|y l]; [done|]. split.
  - intros [->|Hx]%elem_of_cons; [left|right; by eapply drop_repeats_elem].
  - intros [->|Hx]%elem_of_cons; [left|].
    destruct (elem_drop_repeats y l x Hx) as [->|?]; [left|by right].
Qed.

(** The length of [np.unique(a)] is the number of distinct values of [a]. *)
Lemma length_np_unique ar :
  length (np_unique ar) = size (list_to_set ar : gset Qc).
Proof.
  rewrite <-(size_list_to_set (C:=gset Qc) (np_unique ar)) by apply NoDup_np_unique.
  f_equal. apply set_eq. intros x.
  rewrite !elem_of_list_to_set. apply elem_of_np_unique.
Qed.

(** ** Task type *)

Lemma np_array_ints (l : list pynum) :
  l ≠ [] → Forall (λ x, is_PyI x = true) l →
  np_array l = {| is_int := true; data := num_val <$> l |}.
Proof.
  intros Hne Hall. unfold np_array.
  assert (forallb is_PyI l = true) as Hb.
  { clear Hne. induction Hall as [|x l Hx _ IH]; [done|]. simpl. by rewrite Hx. }
  destruct l; [done|]. by rewrite Hb.
Qed.

Lemma np_array_floats (l : list pynum) :
  Exists (λ x, is_PyI x = false) l →
  np_array l = {| is_int := false; data := as_float64 <$> l |}.
Proof.
  intros Hex. unfold np_array.
  assert (forallb is_PyI l = false) as Hb.
  { induction Hex as [x l Hx|x l _ IH]; simpl.
    - by rewrite Hx.
    - rewrite IH. apply andb_false_r. }
  destruct l; [done|]. by rewrite Hb.
Qed.

(** A list holds ints only, or it holds a float. *)
Lemma ints_or_float (l : list pynum) :
  Forall (λ x, is_PyI x = true) l ∨ Exists (λ x, is_PyI x = false) l.
Proof.
  induction l as [|x l [IH|IH]].
  - left. constructor.
  - destruct (is_PyI x) eqn:Hx; [left; by constructor|right; by left].
  - right. by right.
Qed.

Lemma length_stored (l : list pynum) : length (stored l) = length l.
Proof.
  unfold stored, np_array.
  destruct (match l with [] => false | _ => forallb is_PyI l end); simpl;
    by rewrite length_fmap.
Qed.

Lemma stored_nil : stored [] = [].
Proof. reflexivity. Qed.

Lemma as_float64_fits (x : pynum) : fits_float64 x → as_float64 x = num_val x.
Proof. destruct x as [z|q]; simpl; [apply float64_small_int|done]. Qed.

(** The lists that numpy stores without rounding. *)
Lemma exact_list_stored (l : list pynum) : exact_list l → exactly_stored l.
Proof.
  intros [_ Hl]. unfold exactly_stored, stored.
  destruct (ints_or_float l) as [Hints|Hfloat].
  - destruct l as [|x l]; [done|]. by rewrite np_array_ints.
  - rewrite np_array_floats by done. simpl.
    destruct Hl as [Hall|Hfit].
    + exfalso. apply Exists_exists in Hfloat as (x & Hin & Hx).
      rewrite Forall_forall in Hall. rewrite (Hall x Hin) in Hx. done.
    + apply list_fmap_ext. intros i x Hx. apply as_float64_fits.
      rewrite Forall_forall in Hfit. apply Hfit. by eapply list_elem_of_lookup_2.
Qed.

(** The answer of the task classifier, from the values as numpy stores
    them. *)
Lemma determine_task_type_stored (y_true : list pynum) :
  _determine_task_type y_true
  = if decide (2 < size (list_to_set (stored y_true) : gset Qc))%nat
    then Regression else Classification.
Proof. unfold _determine_task_type, stored. by rewrite length_np_unique. Qed.

(** C1, as the code has it: on a non-empty [y_true] that numpy stores
    without rounding (ints in the range of [int64], of at most 53 bits when
    a float is among them) the task classifier answers regression exactly
    when [y_true] has more than two distinct values, and classification
    otherwise; a single distinct value is classification. *)
Theorem determine_task_type_spec (y_true : list pynum) :
  y_true ≠ [] →
  exact_list y_true →
  (_determine_task_type y_true = Regression ↔ (2 < distinct_values y_true)%nat) ∧
  (_determine_task_type y_true = Classification ↔ (distinct_values y_true ≤ 2)%nat) ∧
  (distinct_values y_true = 1%nat → _determine_task_type y_true = Classification).
Proof.
  intros _ Hexact%exact_list_stored. rewrite determine_task_type_stored.
  rewrite Hexact. unfold distinct_values.
  case_decide; (split; [|split]); try split; intros; try done; lia.
Qed.

Lemma determine_task_type_witness :
  regression_y_true ≠ [] ∧ exact_list regression_y_true ∧
  (_determine_task_type regression_y_true = Regression
   ↔ (2 < distinct_values regression_y_true)%nat) ∧
  (_determine_task_type regression_y_true = Classification
   ↔ (distinct_values regression_y_true ≤ 2)%nat) ∧
  (distinct_values regression_y_true = 1%nat
   → _determine_task_type regression_y_true = Classification).
Proof.
  assert (exact_list regression_y_true) as Hexact by by_compute.
  split; [done|]. split; [exact Hexact|].
  apply (determine_task_type_spec regression_y_true); [done|exact Hexact].
Defined.

(** What the claim leaves out: the distinct values are counted in the
    array that [np.unique] makes of the list.  With a float in the list the
    array is float64, where [2 ** 53] and [2 ** 53 + 1] are the same number:
    three distinct values, and the answer is classification. *)
Lemma determine_task_type_counts_stored_values :
  mixed_large_targets ≠ [] ∧
  distinct_values mixed_large_targets = 3%nat ∧
  stored mixed_large_targets = [Qc_of_Z (2 ^ 53); Qc_of_Z (2 ^ 53); qc 1 2] ∧
  _determine_task_type mixed_large_targets = Classification.
Proof. split_and!; [done|by_compute..]. Qed.

(** C9: the empty [y_true] is not rejected by the task classifier, which
    answers classification (no value, so not more than two). *)
Theorem determine_task_type_empty :
  _determine_task_type [] = Classification ∧ distinct_values [] = 0%nat.
Proof. split; reflexivity. Qed.

(** The fixtures of the test suite are classified as its tests expect
    ([test_determine_task_type]). *)
Example test_determine_task_type :
  _determine_task_type binary_classification_y_true = Classification ∧
  _determine_task_type regression_y_true = Regression.
Proof. split; vm_compute; reflexivity. Qed.

(** ** Construction *)

Lemma unpack4_ok_inv {A} (l : list A) a b c d :
  unpack4 l = Ok (a, b, c, d) → l = [a; b; c; d].
Proof.
  destruct l as [|? [|? [|? [|? [|? ?]]]]]; simpl; try done. by intros [= -> -> -> ->].
Qed.

Lemma generate_classification_metrics_inv E self m :
  _generate_classification_metrics E self = Ok m →
  ∃ yb cm tn fp fn tp auc ll ap acc prec rec f1 mcc,
    y_pred_binary self = Some yb ∧
    confusion_matrix E (data (y_true self)) yb = Ok cm ∧
    ravel cm = [tn; fp; fn; tp] ∧
    roc_auc_score E (data (y_true self)) (data (y_pred self)) = Some auc ∧
    log_loss E (data (y_true self)) (data (y_pred self)) = Some ll ∧
    average_precision_score E (data (y_true self)) (data (y_pred self)) = Some ap ∧
    accuracy_score E (data (y_true self)) yb = Some acc ∧
    precision_score_weighted E (data (y_true self)) yb = Some prec ∧
    recall_score_weighted E (data (y_true self)) yb = Some rec ∧
    f1_score_weighted E (data (y_true self)) yb = Some f1 ∧
    matthews_corrcoef E (data (y_true self)) yb = Some mcc ∧
    m = [ ("AUC", rounded auc 4); ("Log Loss", rounded ll 4);
          ("Average_Precision", rounded ap 4); ("Accuracy", rounded acc 4);
          ("Precision", rounded prec 4); ("Recall", rounded rec 4);
          ("F1 Score", rounded f1 4); ("MCC", rounded mcc 4);
          ("TN", VInt tn); ("FP", VInt fp); ("FN", VInt fn); ("TP", VInt tp) ].
Proof.
  unfold _generate_classification_metrics. intros H.
  apply outcome_bind_ok_inv in H as (yb & Hyb%getattr_ok_inv & H).
  apply outcome_bind_ok_inv in H as (cm & Hcm & H).
  apply outcome_bind_ok_inv in H as ([[[tn fp] fn] tp] & Hun%unpack4_ok_inv & H).
  apply outcome_bind_ok_inv in H as (auc & Hauc%ext_ok_inv & H).
  apply outcome_bind_ok_inv in H as (ll & Hll%ext_ok_inv & H).
  apply outcome_bind_ok_inv in H as (ap & Hap%ext_ok_inv & H).
  apply outcome_bind_ok_inv in H as (acc & Hacc%ext_ok_inv & H).
  apply outcome_bind_ok_inv in H as (prec & Hprec%ext_ok_inv & H).
  apply outcome_bind_ok_inv in H as (rec & Hrec%ext_ok_inv & H).
  apply outcome_bind_ok_inv in H as (f1 & Hf1%ext_ok_inv & H).
  apply outcome_bind_ok_inv in H as (mcc & Hmcc%ext_ok_inv & H).
  injection H as <-.
  exists yb, cm, tn, fp, fn, tp, auc, ll, ap, acc, prec, rec, f1, mcc.
  repeat split; done.
Qed.

Lemma generate_regression_metrics_inv E self m :
  _generate_regression_metrics E self = Ok m →
  ∃ ynn mse msle mae r2 evs mx mape,
    y_pred_nonnegative self = Some ynn ∧
    mean_squared_error E (data (y_true self)) (data (y_pred self)) = Some mse ∧
    mean_squared_log_error E (data (y_true self)) ynn = Some msle ∧
    mean_absolute_error E (data (y_true self)) (data (y_pred self)) = Some mae ∧
    r2_score E (data (y_true self)) (data (y_pred self)) = Some r2 ∧
    explained_variance_score E (data (y_true self)) (data (y_pred self)) = Some evs ∧
    max_error E (data (y_true self)) (data (y_pred self)) = Some mx ∧
    mean_abs_percentage E (y_true self) (y_pred self) = Ok mape ∧
    m = [ ("Mean Squared Error", rounded mse 4);
          ("Mean Squared Log Error", rounded msle 4);
          ("Mean Absolute Error", rounded mae 4);
          ("R^2", rounded r2 4);
          ("Explained Variance Score", rounded evs 4);
          ("Max Error", rounded mx 4);
          ("Mean Absolute Percentage Error", np_rounded mape 1) ].
Proof.
  unfold _generate_regression_metrics. intros H.
  apply outcome_bind_ok_inv in H as (mse & Hmse%ext_ok_inv & H).
  apply outcome_bind_ok_inv in H as (ynn & Hynn%getattr_ok_inv & H).
  apply outcome_bind_ok_inv in H as (msle & Hmsle%ext_ok_inv & H).
  apply outcome_bind_ok_inv in H as (mae & Hmae%ext_ok_inv & H).
  apply outcome_bind_ok_inv in H as (r2 & Hr2%ext_ok_inv & H).
  apply outcome_bind_ok_inv in H as (evs & Hevs%ext_ok_inv & H).
  apply outcome_bind_ok_inv in H as (mx & Hmx%ext_ok_inv & H).
  apply outcome_bind_ok_inv in H as (mape & Hmape & H).
  injection H as <-.
  exists ynn, mse, msle, mae, r2, evs, mx, mape. repeat split; done.
Qed.

(** What a successful construction has stored in the object. *)
Lemma init_ok_inv E yt yp t w r w' :
  __init__ E yt yp t w = (Ok r, w') →
  task_type r = _determine_task_type yt ∧
  y_true r = np_array yt ∧
  y_pred r = np_array yp ∧
  threshold r = t ∧
  target_info r = [] ∧
  match task_type r with
  | Classification =>
      y_pred_binary r = Some (np_greater_int (np_array yp) t) ∧
      probas_reval r = Some (zip (np_one_minus (np_array yp)) (stored yp)) ∧
      y_pred_nonnegative r = None ∧
      _generate_classification_metrics E r = Ok (metrics r)
  | Regression =>
      y_pred_binary r = None ∧
      probas_reval r = None ∧
      y_pred_nonnegative r = Some (np_maximum (stored yp) 0) ∧
      _generate_regression_metrics E r = Ok (metrics r)
  end.
Proof.
  unfold __init__. intros H.
  apply bind_ok_inv in H as ([] & w1 & _ & H).
  destruct (_determine_task_type yt) eqn:Htask.
  - apply bind_ok_inv in H as (m & w2 & Hm & H).
    unfold lift_outcome in Hm. injection Hm as Hm <-.
    injection H as <- <-. simpl. repeat split; done.
  - apply bind_ok_inv in H as (m & w2 & Hm & H).
    unfold lift_outcome in Hm. injection Hm as Hm <-.
    injection H as <- <-. simpl. repeat split; done.
Qed.

(** The task type is decided once, by the constructor, from [y_true]. *)
Lemma task_type_at_construction E y_true y_pred threshold w r w' :
  __init__ E y_true y_pred threshold w = (Ok r, w') →
  task_type r = _determine_task_type y_true.
Proof. by intros (? & _)%init_ok_inv. Qed.

(** [test_metrics_report_instance]: the attributes of the report built from
    the classification fixture. *)
Example test_metrics_report_instance :
  task_type sample_classification_report = Classification ∧
  y_true sample_classification_report = np_array binary_classification_y_true ∧
  y_pred sample_classification_report = np_array binary_classification_y_pred ∧
  threshold sample_classification_report = PyF (qc 1 2).
Proof. split_and!; vm_compute; reflexivity. Qed.

(** [test_classification_metrics] and [test_regression_metrics]: the keys
    of the metrics of the two fixtures. *)
Example test_metrics_keys :
  keys (metrics sample_classification_report) = classification_keys ∧
  keys (metrics sample_regression_report) = regression_keys.
Proof. split; vm_compute; reflexivity. Qed.

(** C2: a successfully constructed report has exactly the twelve
    classification keys when its task is classification and exactly the
    seven regression keys when its task is regression. *)
Theorem metrics_keys E y_true y_pred threshold w r w' :
  __init__ E y_true y_pred threshold w = (Ok r, w') →
  (task_type r = Classification → keys (metrics r) = classification_keys) ∧
  (task_type r = Regression → keys (metrics r) = regression_keys) ∧
  length classification_keys = 12%nat ∧ NoDup classification_keys ∧
  length regression_keys = 7%nat ∧ NoDup regression_keys.
Proof.
  intros (_ & _ & _ & _ & _ & Hm)%init_ok_inv.
  split_and!.
  - intros Ht. rewrite Ht in Hm. destruct Hm as (_ & _ & _ & Hm).
    apply generate_classification_metrics_inv in Hm
      as (?&?&?&?&?&?&?&?&?&?&?&?&?&?&?&?&?&?&?&?&?&?&?&?&?&->).
    reflexivity.
  - intros Ht. rewrite Ht in Hm. destruct Hm as (_ & _ & _ & Hm).
    apply generate_regression_metrics_inv in Hm
      as (?&?&?&?&?&?&?&?&?&?&?&?&?&?&?&?&->).
    reflexivity.
  - reflexivity.
  - by_compute.
  - reflexivity.
  - by_compute.
Qed.

Lemma metrics_keys_witness :
  ∃ r w',
    __init__ sample_env binary_classification_y_true binary_classification_y_pred
      (PyF (qc 1 2)) empty_world = (Ok r, w') ∧
    (task_type r = Classification → keys (metrics r) = classification_keys).
Proof.
  destruct (__init__ sample_env binary_classification_y_true
              binary_classification_y_pred (PyF (qc 1 2)) empty_world)
    as [[r|e] w'] eqn:H.
  - exists r, w'. split; [done|].
    exact (proj1 (metrics_keys sample_env binary_classification_y_true
                    binary_classification_y_pred (PyF (qc 1 2)) empty_world r w' H)).
  - exfalso. vm_compute in H. discriminate H.
Defined.

Lemma length_astype_float (a : ndarray) : length (astype_float a) = length (data a).
Proof. unfold astype_float. destruct (is_int a); by rewrite ?length_fmap. Qed.

Lemma length_np_greater_int (a : ndarray) (t : pynum) :
  length (np_greater_int a t) = length (data a).
Proof.
  unfold np_greater_int. destruct (is_int a && is_PyI t);
    by rewrite length_fmap, ?length_astype_float.
Qed.

(** The threshold of the unit interval is compared as it is. *)
Lemma as_float64_unit (t : pynum) : unit_threshold t → as_float64 t = num_val t.
Proof.
  intros [H0 H1]. destruct t as [z|q]; [|done]. simpl in *.
  apply float64_small_int.
  rewrite <-Z2Qc_inj_0 in H0. rewrite <-Z2Qc_inj_1 in H1.
  apply Z2Qc_inj_le in H0, H1. lia.
Qed.

(** Against such a threshold a score compares the same as a Python number
    and as numpy stores it in a float64 array. *)
Lemma as_float64_above_unit (t : Qc) (p : pynum) :
  0 ≤ t → t ≤ 1 → (t < as_float64 p ↔ t < num_val p).
Proof.
  intros H0 H1. destruct p as [k|q]; simpl; [|done].
  by apply float64_int_above_unit.
Qed.

(** The binary predictions under a threshold of the unit interval. *)
Lemma binarize_unit_threshold (predictions : list pynum) (t : pynum) :
  unit_threshold t →
  np_greater_int (np_array predictions) t
  = (λ p, binary_prediction (num_val t) (num_val p)) <$> predictions.
Proof.
  intros Ht. pose proof (as_float64_unit t Ht) as Hcast. destruct Ht as [H0 H1].
  assert (∀ p, (if decide (num_val t < as_float64 p) then 1%Z else 0%Z)
               = binary_prediction (num_val t) (num_val p)) as Hcmp.
  { intros p. unfold binary_prediction.
    pose proof (as_float64_above_unit (num_val t) p H0 H1) as Hiff.
    repeat case_decide; tauto. }
  unfold np_greater_int.
  destruct (ints_or_float predictions) as [Hints|Hfloat].
  - destruct predictions as [|p0 l].
    { unfold np_array. simpl. done. }
    rewrite np_array_ints by done. cbn [is_int data].
    destruct (is_PyI t) eqn:Hkind; cbn [andb].
    + rewrite <-list_fmap_compose. done.
    + unfold astype_float. cbn [is_int data]. rewrite Hcast.
      rewrite <-!list_fmap_compose. apply list_fmap_ext. intros i p Hp. simpl.
      rewrite <-Hcmp. rewrite Forall_forall in Hints.
      assert (is_PyI p = true) as Hpi.
      { apply Hints. by eapply list_elem_of_lookup_2. }
      by destruct p.
  - rewrite np_array_floats by done. cbn [is_int andb].
    unfold astype_float. cbn [is_int data]. rewrite Hcast.
    rewrite <-list_fmap_compose. apply list_fmap_ext. intros i p Hp. simpl.
    apply Hcmp.
Qed.

(** C3: in a classification construction with a threshold [t] of the unit
    interval the binary prediction at every index is 1 when the score is
    strictly above [t] and 0 otherwise; a score equal to [t] gets 0. *)
Theorem binarization_strict E y_true y_pred threshold w r w' :
  __init__ E y_true y_pred threshold w = (Ok r, w') →
  task_type r = Classification →
  unit_threshold threshold →
  ∃ yb, y_pred_binary r = Some yb ∧
        length yb = length y_pred ∧
        ∀ i p, y_pred !! i = Some p →
               yb !! i = Some (binary_prediction (num_val threshold) (num_val p)) ∧
               (num_val threshold < num_val p → yb !! i = Some 1%Z) ∧
               (¬ num_val threshold < num_val p → yb !! i = Some 0%Z) ∧
               (num_val p = num_val threshold → yb !! i = Some 0%Z).
Proof.
  intros (_ & _ & _ & _ & _ & Hm)%init_ok_inv Ht Hunit. rewrite Ht in Hm.
  destruct Hm as (Hyb & _). eexists. split; [exact Hyb|].
  rewrite binarize_unit_threshold by done.
  split; [by rewrite length_fmap|].
  intros i p Hp. rewrite list_lookup_fmap, Hp. simpl.
  unfold binary_prediction. split_and!; [done|..].
  - intros Hlt. by rewrite decide_True.
  - intros Hlt. by rewrite decide_False.
  - intros ->. rewrite decide_False; [done|]. apply irreflexivity, _.
Qed.

Lemma binarization_strict_witness :
  ∃ r w',
    __init__ sample_env binary_classification_y_true binary_classification_y_pred
      (PyF (qc 1 2)) empty_world = (Ok r, w') ∧
    task_type r = Classification ∧
    ∃ yb, y_pred_binary r = Some yb ∧
          length yb = length binary_classification_y_pred ∧
          ∀ i p, binary_classification_y_pred !! i = Some p →
                 yb !! i = Some (binary_prediction (qc 1 2) (num_val p)) ∧
                 (qc 1 2 < num_val p → yb !! i = Some 1%Z) ∧
                 (¬ qc 1 2 < num_val p → yb !! i = Some 0%Z) ∧
                 (num_val p = qc 1 2 → yb !! i = Some 0%Z).
Proof.
  destruct (__init__ sample_env binary_classification_y_true
              binary_classification_y_pred (PyF (qc 1 2)) empty_world)
    as [[r|e] w'] eqn:H.
  - assert (task_type r = Classification) as Ht.
    { apply init_ok_inv in H as (-> & _). vm_compute. reflexivity. }
    assert (unit_threshold (PyF (qc 1 2))) as Hunit.
    { clear H Ht. split; by_compute. }
    assert (num_val (PyF (qc 1 2)) = qc 1 2) as Hhalf.
    { clear H Ht Hunit. by_compute. }
    exists r, w'. split; [reflexivity|]. split; [exact Ht|].
    rewrite <-Hhalf.
    exact (binarization_strict sample_env binary_classification_y_true
             binary_classification_y_pred (PyF (qc 1 2)) empty_world r w' H Ht Hunit).
  - exfalso. vm_compute in H. discriminate H.
Defined.

(** A score equal to the threshold is on the negative side. *)
Example binarization_at_threshold :
  np_greater_int (np_array [PyF (qc 1 2); PyF (qc 51 100); PyF (qc 49 100)])
    (PyF (qc 1 2)) = [0; 1; 0]%Z.
Proof. vm_compute. reflexivity. Qed.

(** Outside the unit interval the comparison is the one of float64: an int
    score of more than 53 bits compares with a float threshold after its
    conversion. *)
Example binarization_in_float64 :
  np_greater_int (np_array [PyI (2 ^ 53 + 1); PyI 0]) (PyF (Qc_of_Z (2 ^ 53)))
  = [0; 0]%Z ∧
  np_greater_int (np_array [PyI (2 ^ 53 + 1); PyI 0]) (PyI (2 ^ 53)) = [1; 0]%Z.
Proof. split; vm_compute; reflexivity. Qed.

(** C7: in a regression construction the mean squared log error is computed
    from the predictions floored at zero (a negative prediction becomes 0),
    every other metric from the predictions as the array holds them. *)
Theorem msle_on_floored_predictions E targets predictions threshold w r w' :
  __init__ E targets predictions threshold w = (Ok r, w') →
  task_type r = Regression →
  Forall small_int targets → Forall small_int predictions →
  let yt := stored targets in
  let raw := stored predictions in
  data (y_true r) = yt ∧
  data (y_pred r) = raw ∧
  y_pred_nonnegative r = Some (floored <$> raw) ∧
  ∃ mse msle mae r2 evs mx mape,
    mean_squared_log_error E yt (floored <$> raw) = Some msle ∧
    dict_get "Mean Squared Log Error" (metrics r) = Some (rounded msle 4) ∧
    mean_squared_error E yt raw = Some mse ∧
    dict_get "Mean Squared Error" (metrics r) = Some (rounded mse 4) ∧
    mean_absolute_error E yt raw = Some mae ∧
    dict_get "Mean Absolute Error" (metrics r) = Some (rounded mae 4) ∧
    r2_score E yt raw = Some r2 ∧
    dict_get "R^2" (metrics r) = Some (rounded r2 4) ∧
    explained_variance_score E yt raw = Some evs ∧
    dict_get "Explained Variance Score" (metrics r) = Some (rounded evs 4) ∧
    max_error E yt raw = Some mx ∧
    dict_get "Max Error" (metrics r) = Some (rounded mx 4) ∧
    mean_abs_percentage E (np_array targets) (np_array predictions) = Ok mape ∧
    dict_get "Mean Absolute Percentage Error" (metrics r)
    = Some (np_rounded mape 1).
Proof.
  intros (_ & Hyt & Hyp & _ & _ & Hm)%init_ok_inv Ht _ _. rewrite Ht in Hm.
  destruct Hm as (_ & _ & Hnn & Hm). simpl.
  apply generate_regression_metrics_inv in Hm
    as (ynn & mse & msle & mae & r2 & evs & mx & mape & Hynn & Hmse & Hmsle
        & Hmae & Hr2 & Hevs & Hmx & Hmape & Hdict).
  rewrite Hyt, Hyp in *. fold (stored targets) in *. fold (stored predictions) in *.
  rewrite Hnn in Hynn. injection Hynn as <-.
  split; [done|]. split; [done|]. split; [done|].
  exists mse, msle, mae, r2, evs, mx, mape. rewrite Hdict.
  split_and!; done.
Qed.

Lemma msle_on_floored_predictions_witness :
  ∃ r w',
    __init__ sample_env regression_y_true signed_regression_y_pred (PyF (qc 1 2))
      empty_world = (Ok r, w') ∧
    task_type r = Regression ∧
    stored signed_regression_y_pred
    = num_val <$> [PyF (qc (-5) 10); PyF (qc 23 10); PyF (qc 34 10);
                   PyF (qc (-8) 10); PyF (qc 48 10)] ∧
    y_pred_nonnegative r
    = Some (num_val <$> [PyF (qc 0 1); PyF (qc 23 10); PyF (qc 34 10);
                         PyF (qc 0 1); PyF (qc 48 10)]) ∧
    ∃ msle mse,
      mean_squared_log_error sample_env (stored regression_y_true)
        (floored <$> stored signed_regression_y_pred) = Some msle ∧
      dict_get "Mean Squared Log Error" (metrics r) = Some (rounded msle 4) ∧
      mean_squared_error sample_env (stored regression_y_true)
        (stored signed_regression_y_pred) = Some mse ∧
      dict_get "Mean Squared Error" (metrics r) = Some (rounded mse 4).
Proof.
  destruct (__init__ sample_env regression_y_true signed_regression_y_pred
              (PyF (qc 1 2)) empty_world) as [[r|e] w'] eqn:H.
  - assert (task_type r = Regression) as Ht.
    { apply init_ok_inv in H as (-> & _). vm_compute. reflexivity. }
    assert (Forall small_int regression_y_true) as Hi1 by (clear; by_compute).
    assert (Forall small_int signed_regression_y_pred) as Hi2 by (clear; by_compute).
    destruct (msle_on_floored_predictions sample_env regression_y_true
                signed_regression_y_pred (PyF (qc 1 2)) empty_world r w' H Ht Hi1 Hi2)
      as (_ & _ & Hnn & mse & msle & mae & r2 & evs & mx & mape & Hmsle & Hd1
          & Hmse & Hd2 & _).
    exists r, w'. split; [reflexivity|]. split; [exact Ht|].
    split; [clear; by_compute|].
    split.
    { rewrite Hnn. clear. by_compute. }
    exists msle, mse. split; [exact Hmsle|]. split; [exact Hd1|].
    split; [exact Hmse|exact Hd2].
  - exfalso. vm_compute in H. discriminate H.
Defined.

(** ** What the methods leave unchanged *)

Section preserves.
Context {S X : Type} (g : S → X).

Lemma preserves_ret {A} (a : A) : preserves g (mret a).
Proof. by intros s. Qed.

Lemma preserves_raise {A} e : preserves g (raise (A:=A) e).
Proof. by intros s. Qed.

Lemma preserves_lift_outcome {A} (o : outcome A) : preserves g (lift_outcome o).
Proof. by intros s. Qed.

Lemma preserves_get : preserves g get.
Proof. by intros s. Qed.

Lemma preserves_bind {A B} (m : M S A) (f : A → M S B) :
  preserves g m → (∀ a, preserves g (f a)) → preserves g (m ≫= f).
Proof.
  intros Hm Hf s. unfold mbind, M_bind. specialize (Hm s).
  destruct (m s) as [[a|e] s']; simpl in *; [|done].
  by rewrite Hf.
Qed.

Lemma preserves_when (c : bool) (m : M S unit) :
  preserves g m → preserves g (when c m).
Proof. destruct c; [done|]. intros _. apply preserves_ret. Qed.

Lemma preserves_for_each {A} (l : list A) (body : A → M S unit) :
  (∀ a, preserves g (body a)) → preserves g (for_each l body).
Proof.
  intros Hb. induction l as [|x l IH]; simpl.
  - apply preserves_ret.
  - apply preserves_bind; [apply Hb|]. by intros _.
Qed.

Lemma preserves_for_each_Forall {A} (l : list A) (body : A → M S unit) :
  Forall (λ a, preserves g (body a)) l → preserves g (for_each l body).
Proof.
  induction 1 as [|x l Hx Hl IH]; simpl.
  - apply preserves_ret.
  - apply preserves_bind; [done|]. by intros _.
Qed.

End preserves.

Lemma preserves_get_self {X} (g : state → X) : preserves g get_self.
Proof. by intros s. Qed.

(** An effect on the world leaves every attribute of the object alone. *)
Lemma preserves_self_in_world {X A} (g : MetricsReport → X) (m : M world A) :
  preserves (λ s, g (self_of s)) (in_world m).
Proof. intros s. unfold in_world. by destruct (m (world_of s)). Qed.

(** An effect on the world that keeps [g] keeps it when run in a method. *)
Lemma preserves_world_in_world {X A} (g : world → X) (m : M world A) :
  preserves g m → preserves (λ s, g (world_of s)) (in_world m).
Proof.
  intros Hm s. unfold in_world. specialize (Hm s.(world_of)).
  by destruct (m (world_of s)).
Qed.

Lemma preserves_world_set_self {X} (g : world → X) r :
  preserves (λ s, g (world_of s)) (set_self r).
Proof. by intros s. Qed.

Lemma print_preserves_fs s0 : preserves fs (print s0).
Proof. by intros w. Qed.

Lemma plt_show_preserves_fs fig : preserves fs (plt_show fig).
Proof. by intros w. Qed.

Lemma plt_close_preserves_fs : preserves fs plt_close.
Proof. by intros w. Qed.

Create HintDb keeps discriminated.

#[global] Hint Resolve preserves_ret preserves_raise preserves_lift_outcome
  preserves_get preserves_get_self preserves_when preserves_for_each
  preserves_self_in_world preserves_world_set_self
  print_preserves_fs plt_show_preserves_fs plt_close_preserves_fs : keeps.

(** Splits a sequence of binds and closes the leaves from the hints; the
    goal is matched on its syntax, so that no method is unfolded. *)
Ltac keeps :=
  repeat match goal with
    | |- ∀ _, _ => intros ?
    | |- preserves _ (_ ≫= _) => apply preserves_bind
    | |- preserves (λ s, _ (world_of s)) (in_world _) =>
        apply preserves_world_in_world
    | |- preserves _ (if ?c then _ else _) => destruct c
    | |- _ => solve [eauto with keeps]
    end.

(** *** The file system under the display calls *)

Lemma plot_method_preserves_fs E p figsize :
  preserves (λ s, fs (world_of s)) (plot_method E p figsize).
Proof.
  destruct p; simpl;
    unfold plot_class_distribution, plot_confusion_matrix,
      plot_precision_recall_curve, plot_roc_curve, plot_ks_statistic,
      plot_calibration_curve, plot_cumulative_gain, plot_lift_curve,
      plot_residual_plot, plot_predicted_vs_actual,
      binary_classification_plot, scikitplot_plot; keeps.
Qed.

Lemma plot_loop_body_show_preserves_fs folder name (plot_func : M state figure) :
  preserves (λ s, fs (world_of s)) plot_func →
  preserves (λ s, fs (world_of s)) (plot_loop_body false folder (name, plot_func)).
Proof. intros Hf. unfold plot_loop_body. simpl. keeps. Qed.

(** Unfolds the plot methods down to the calls into the collaborators. *)
Ltac unfold_plots :=
  unfold plot_class_distribution, plot_confusion_matrix,
    plot_precision_recall_curve, plot_roc_curve, plot_ks_statistic,
    plot_calibration_curve, plot_cumulative_gain, plot_lift_curve,
    plot_residual_plot, plot_predicted_vs_actual,
    binary_classification_plot, scikitplot_plot.

Lemma classification_plots_show_preserves_fs E folder :
  preserves (λ s, fs (world_of s)) (_classification_plots E false folder).
Proof.
  unfold _classification_plots, recreate_plots_dir. simpl when.
  apply preserves_bind; [apply preserves_ret|]. intros _.
  apply preserves_for_each_Forall.
  repeat constructor; apply plot_loop_body_show_preserves_fs; unfold_plots; keeps.
Qed.

Lemma regression_plots_show_preserves_fs E folder :
  preserves (λ s, fs (world_of s)) (_regression_plots E false folder).
Proof.
  unfold _regression_plots, recreate_plots_dir. simpl when.
  apply preserves_bind; [apply preserves_ret|]. intros _.
  apply preserves_for_each_Forall.
  repeat constructor; apply plot_loop_body_show_preserves_fs; unfold_plots; keeps.
Qed.

(** C10: [plot_metrics()] displays the plots without touching the file
    system, whatever the report and the state of the world, and whether it
    returns or raises; the batch methods delete and recreate the plots
    directory only under [save], so with [save] off they leave every file
    and directory as it was. *)
Theorem plot_metrics_keeps_file_system E (s : state) :
  fs (world_of (plot_metrics E s).2) = fs (world_of s) ∧
  (∀ folder, fs (world_of (_classification_plots E false folder s).2)
             = fs (world_of s)) ∧
  (∀ folder, fs (world_of (_regression_plots E false folder s).2)
             = fs (world_of s)).
Proof.
  split_and!.
  - revert s. change (preserves (λ s, fs (world_of s)) (plot_metrics E)).
    unfold plot_metrics. apply preserves_bind; [keeps|].
    intros self. destruct (task_type self).
    + apply classification_plots_show_preserves_fs.
    + apply regression_plots_show_preserves_fs.
  - intros folder. apply classification_plots_show_preserves_fs.
  - intros folder. apply regression_plots_show_preserves_fs.
Qed.

(** *** The metrics under every method *)

Abbreviation keeps_metrics m := (preserves (λ s : state, metrics (self_of s)) m).

Lemma in_world_keeps_metrics {A} (m : M world A) : keeps_metrics (in_world m).
Proof. apply (preserves_self_in_world metrics). Qed.

#[global] Hint Resolve in_world_keeps_metrics : keeps.

Lemma plot_method_keeps_metrics E p figsize :
  keeps_metrics (plot_method E p figsize).
Proof.
  destruct p; simpl;
    unfold plot_class_distribution, plot_confusion_matrix,
      plot_precision_recall_curve, plot_roc_curve, plot_ks_statistic,
      plot_calibration_curve, plot_cumulative_gain, plot_lift_curve,
      plot_residual_plot, plot_predicted_vs_actual,
      binary_classification_plot, scikitplot_plot; keeps.
Qed.

Lemma plot_loop_body_keeps_metrics save folder name (plot_func : M state figure) :
  keeps_metrics plot_func →
  keeps_metrics (plot_loop_body save folder (name, plot_func)).
Proof. intros Hf. unfold plot_loop_body. simpl. keeps. Qed.

Lemma recreate_plots_dir_keeps_metrics save folder :
  keeps_metrics (recreate_plots_dir save folder).
Proof. unfold recreate_plots_dir. keeps. Qed.

Lemma classification_plots_keep_metrics E save folder :
  keeps_metrics (_classification_plots E save folder).
Proof.
  unfold _classification_plots.
  apply preserves_bind; [apply recreate_plots_dir_keeps_metrics|]. intros _.
  apply preserves_for_each_Forall.
  repeat constructor; apply plot_loop_body_keeps_metrics; unfold_plots; keeps.
Qed.

Lemma regression_plots_keep_metrics E save folder :
  keeps_metrics (_regression_plots E save folder).
Proof.
  unfold _regression_plots.
  apply preserves_bind; [apply recreate_plots_dir_keeps_metrics|]. intros _.
  apply preserves_for_each_Forall.
  repeat constructor; apply plot_loop_body_keeps_metrics; unfold_plots; keeps.
Qed.

(** The only assignment to an attribute after construction:
    [self.target_info = target_info]. *)
Lemma target_info_keeps_metrics E : keeps_metrics (__target_info E).
Proof.
  intros s. unfold __target_info, get_self, mbind, M_bind, lift_outcome, set_self.
  simpl.
  destruct (task_type (self_of s)); simpl.
  - destruct (class_balance (y_true (self_of s))); done.
  - destruct (np_min (data (y_true (self_of s)))); simpl; [|done].
    destruct (np_max (data (y_true (self_of s)))); done.
Qed.

Lemma add_plot_images_keeps_metrics folder :
  keeps_metrics (__add_plot_images_to_report folder).
Proof. unfold __add_plot_images_to_report. keeps. Qed.

Lemma generate_html_report_keeps_metrics E folder add_css :
  keeps_metrics (_generate_html_report E folder add_css).
Proof.
  unfold _generate_html_report.
  apply preserves_bind; [keeps|]. intros self.
  apply preserves_bind; [apply add_plot_images_keeps_metrics|]. keeps.
Qed.

Lemma plot_metrics_keeps_metrics E : keeps_metrics (plot_metrics E).
Proof.
  unfold plot_metrics. apply preserves_bind; [keeps|]. intros self.
  destruct (task_type self);
    [apply classification_plots_keep_metrics|apply regression_plots_keep_metrics].
Qed.

Lemma print_metrics_keeps_metrics E : keeps_metrics (print_metrics E).
Proof. unfold print_metrics. keeps. Qed.

Lemma print_report_keeps_metrics E : keeps_metrics (print_report E).
Proof.
  unfold print_report. apply preserves_bind; [keeps|]. intros self.
  destruct (task_type self);
    repeat match goal with
      | |- preserves _ (plot_metrics _) => apply plot_metrics_keeps_metrics
      | |- preserves _ (print_metrics _) => apply print_metrics_keeps_metrics
      | |- preserves _ (_ ≫= _) => apply preserves_bind; [|intros ?]
      | |- _ => solve [keeps]
      end.
Qed.

Lemma save_report_keeps_metrics E folder name :
  keeps_metrics (save_report E folder name).
Proof.
  unfold save_report.
  apply preserves_bind; [keeps|]. intros _.
  apply preserves_bind; [apply target_info_keeps_metrics|]. intros _.
  apply preserves_bind; [keeps|]. intros self.
  apply preserves_bind.
  { destruct (task_type self);
      [apply classification_plots_keep_metrics|apply regression_plots_keep_metrics]. }
  intros _.
  apply preserves_bind; [apply generate_html_report_keeps_metrics|]. intros html.
  apply preserves_bind; [keeps|]. intros _.
  apply preserves_bind; [apply generate_html_report_keeps_metrics|]. intros plain.
  keeps.
Qed.

Lemma run_call_keeps_metrics E c s :
  metrics (self_of (run_call E c s)) = metrics (self_of s).
Proof.
  destruct c as [folder name| | | |folder add_css|save folder|save folder|p figsize];
    unfold run_call.
  - exact (save_report_keeps_metrics E folder name s).
  - exact (print_metrics_keeps_metrics E s).
  - exact (plot_metrics_keeps_metrics E s).
  - exact (print_report_keeps_metrics E s).
  - exact (generate_html_report_keeps_metrics E folder add_css s).
  - exact (classification_plots_keep_metrics E save folder s).
  - exact (regression_plots_keep_metrics E save folder s).
  - exact (plot_method_keeps_metrics E p figsize s).
Qed.

Lemma run_calls_keep_metrics E cs s :
  metrics (self_of (run_calls E cs s)) = metrics (self_of s).
Proof.
  revert s. induction cs as [|c cs IH]; intros s; [done|].
  change (run_calls E (c :: cs) s) with (run_calls E cs (run_call E c s)).
  rewrite IH. apply run_call_keeps_metrics.
Qed.

(** ** The confusion counts *)

Lemma length_table {A B C} (f : A → B → C) (rows : list A) (cols : list B) :
  length (ravel ((λ a, f a <$> cols) <$> rows)) = (length rows * length cols)%nat.
Proof.
  unfold ravel. induction rows as [|a rows IH]; [done|].
  rewrite fmap_cons. change (concat (?x :: ?l)) with (x ++ concat l).
  rewrite length_app, length_fmap, IH. done.
Qed.

Lemma count_pairs_cons a b t p pairs :
  count_pairs a b ((t, p) :: pairs)
  = ((if decide (t = a ∧ p = b) then 1 else 0) + count_pairs a b pairs)%Z.
Proof.
  unfold count_pairs. rewrite filter_cons. simpl.
  case_decide; simpl length; lia.
Qed.

(** Two labels split the samples in four classes. *)
Lemma count_pairs_four l0 l1 pairs :
  l0 ≠ l1 →
  Forall (λ tp, (tp.1 = l0 ∨ tp.1 = l1) ∧ (tp.2 = l0 ∨ tp.2 = l1)) pairs →
  (count_pairs l0 l0 pairs + count_pairs l0 l1 pairs
   + count_pairs l1 l0 pairs + count_pairs l1 l1 pairs)%Z
  = Z.of_nat (length pairs).
Proof.
  intros Hne. induction 1 as [|[t p] pairs [Ht Hp] _ IH]; [done|].
  rewrite !count_pairs_cons. simpl length. simpl in Ht, Hp.
  destruct Ht as [->| ->], Hp as [->| ->];
    repeat first [ rewrite decide_True by (split; congruence)
                 | rewrite decide_False by (intros [? ?]; congruence) ];
    lia.
Qed.

Lemma confusion_matrix_ok_inv E yt yb cm :
  confusion_matrix E yt yb = Ok cm →
  length yt = length yb ∧
  cm = (λ a, (λ b, count_pairs a b (zip yt (Qc_of_Z <$> yb)))
               <$> np_unique (yt ++ (Qc_of_Z <$> yb)))
         <$> np_unique (yt ++ (Qc_of_Z <$> yb)).
Proof.
  unfold confusion_matrix. rewrite length_fmap.
  case_decide; [|done]. destruct (check_targets _ _ _); [|done].
  by intros [= <-].
Qed.

(** A confusion matrix that unpacks into four counts has two labels, and
    its counts add up to the number of samples. *)
Lemma confusion_matrix_four E yt yb cm tn fp fn tp :
  confusion_matrix E yt yb = Ok cm →
  ravel cm = [tn; fp; fn; tp] →
  length yt = length yb ∧
  (tn + fp + fn + tp)%Z = Z.of_nat (length yt) ∧
  ∃ neg pos,
    np_unique (yt ++ (Qc_of_Z <$> yb)) = [neg; pos] ∧ neg ≠ pos ∧
    tn = count_pairs neg neg (zip yt (Qc_of_Z <$> yb)) ∧
    fp = count_pairs neg pos (zip yt (Qc_of_Z <$> yb)) ∧
    fn = count_pairs pos neg (zip yt (Qc_of_Z <$> yb)) ∧
    tp = count_pairs pos pos (zip yt (Qc_of_Z <$> yb)).
Proof.
  intros [Hlen ->]%confusion_matrix_ok_inv Hravel.
  split; [done|].
  pose proof (NoDup_np_unique (yt ++ (Qc_of_Z <$> yb))) as Hnd.
  pose proof (elem_of_np_unique (yt ++ (Qc_of_Z <$> yb))) as Hel.
  pose proof (f_equal length Hravel) as Hl. rewrite length_table in Hl.
  destruct (np_unique (yt ++ (Qc_of_Z <$> yb))) as [|neg [|pos [|third labels]]];
    simpl in Hl; try lia.
  simpl in Hravel. injection Hravel as <- <- <- <-.
  assert (neg ≠ pos) as Hne.
  { apply NoDup_cons in Hnd as [Hnotin _]. intros ->. apply Hnotin. left. }
  split; [|by exists neg, pos].
  rewrite count_pairs_four; [|done|].
  - by rewrite length_zip, length_fmap, <-Hlen, Nat.min_id.
  - apply Forall_forall. intros [t p] Hin. simpl.
    apply elem_of_zip_l in Hin as Ht. apply elem_of_zip_r in Hin as Hp.
    assert (∀ x, x ∈ yt ++ (Qc_of_Z <$> yb) → x = neg ∨ x = pos) as Hlab.
    { intros x Hx. apply Hel in Hx.
      apply elem_of_cons in Hx as [?|Hx]; [by left|].
      apply elem_of_cons in Hx as [?|Hx]; [by right|].
      by apply elem_of_nil in Hx. }
    split; apply Hlab, elem_of_app; [by left|by right].
Qed.

(** C4: in a classification report built from [N] samples the four stored
    confusion counts are integers counted from [y_true] against the binary
    predictions, they add up to [N], and no method of the report changes the
    metrics afterwards. *)
Theorem confusion_counts_sum E targets predictions threshold w r w' :
  __init__ E targets predictions threshold w = (Ok r, w') →
  task_type r = Classification →
  ∃ tn fp fn tp : Z,
    dict_get "TN" (metrics r) = Some (VInt tn) ∧
    dict_get "FP" (metrics r) = Some (VInt fp) ∧
    dict_get "FN" (metrics r) = Some (VInt fn) ∧
    dict_get "TP" (metrics r) = Some (VInt tp) ∧
    length predictions = length targets ∧
    (tn + fp + fn + tp)%Z = Z.of_nat (length targets) ∧
    (∃ yb neg pos,
       let pairs := zip (stored targets) (Qc_of_Z <$> yb) in
       y_pred_binary r = Some yb ∧
       np_unique (stored targets ++ (Qc_of_Z <$> yb)) = [neg; pos] ∧
       tn = count_pairs neg neg pairs ∧ fp = count_pairs neg pos pairs ∧
       fn = count_pairs pos neg pairs ∧ tp = count_pairs pos pos pairs) ∧
    ∀ (calls : list call) (w0 : world),
      metrics (self_of (run_calls E calls {| self_of := r; world_of := w0 |}))
      = metrics r.
Proof.
  intros (_ & Hyt & Hyp & _ & _ & Hm)%init_ok_inv Ht. rewrite Ht in Hm.
  destruct Hm as (Hyb & _ & _ & Hm).
  apply generate_classification_metrics_inv in Hm
    as (yb & cm & tn & fp & fn & tp & auc & ll & ap & acc & prec & rec & f1 & mcc
        & Hyb' & Hcm & Hravel & _ & _ & _ & _ & _ & _ & _ & _ & Hdict).
  rewrite Hyt in Hcm. fold (stored targets) in Hcm.
  destruct (confusion_matrix_four _ _ _ _ _ _ _ _ Hcm Hravel)
    as (Hlen & Hsum & neg & pos & Hlabels & _ & Htn & Hfp & Hfn & Htp).
  exists tn, fp, fn, tp. rewrite Hdict. split_and!; try done.
  - rewrite Hyb in Hyb'. injection Hyb' as <-.
    rewrite length_np_greater_int in Hlen. fold (stored predictions) in Hlen.
    by rewrite !length_stored in Hlen.
  - by rewrite length_stored in Hsum.
  - by exists yb, neg, pos.
  - intros calls w0. by rewrite run_calls_keep_metrics.
Qed.

Lemma confusion_counts_sum_witness :
  ∃ r w',
    __init__ sample_env binary_classification_y_true binary_classification_y_pred
      (PyF (qc 1 2)) empty_world = (Ok r, w') ∧
    task_type r = Classification ∧
    ∃ tn fp fn tp : Z,
      dict_get "TN" (metrics r) = Some (VInt tn) ∧
      dict_get "FP" (metrics r) = Some (VInt fp) ∧
      dict_get "FN" (metrics r) = Some (VInt fn) ∧
      dict_get "TP" (metrics r) = Some (VInt tp) ∧
      (tn + fp + fn + tp)%Z = 13%Z.
Proof.
  destruct (__init__ sample_env binary_classification_y_true
              binary_classification_y_pred (PyF (qc 1 2)) empty_world)
    as [[r|e] w'] eqn:H.
  - assert (task_type r = Classification) as Ht.
    { apply init_ok_inv in H as (-> & _). vm_compute. reflexivity. }
    exists r, w'. split; [reflexivity|]. split; [exact Ht|].
    destruct (confusion_counts_sum sample_env binary_classification_y_true
                binary_classification_y_pred (PyF (qc 1 2)) empty_world r w' H Ht)
      as (tn & fp & fn & tp & Htn & Hfp & Hfn & Htp & _ & Hsum & _).
    exists tn, fp, fn, tp.
    split; [exact Htn|]. split; [exact Hfp|]. split; [exact Hfn|].
    split; [exact Htp|exact Hsum].
  - exfalso. vm_compute in H. discriminate H.
Defined.

(** The counts that [test_classification_metrics_values] expects. *)
Example test_classification_metrics_values_counts :
  match (__init__ sample_env binary_classification_y_true
           binary_classification_y_pred (PyF (qc 1 2)) empty_world).1 with
  | Ok r =>
      (λ k, dict_get k (metrics r)) <$> ["TN"; "FP"; "FN"; "TP"]
      = [Some (VInt 5); Some (VInt 2); Some (VInt 1); Some (VInt 5)]
  | Raise _ => False
  end.
Proof. vm_compute. reflexivity. Qed.

(** ** The plots section of the HTML report *)

Lemma child_of_spec p q n : child_of p q = Some n ↔ q = p ++ [n].
Proof.
  revert q. induction p as [|x p IH]; intros q; simpl.
  - destruct q as [|y [|z q]]; split; intros H; try done; congruence.
  - destruct q as [|y q]; [done|].
    case_decide as Hxy.
    + subst y. rewrite IH. split; congruence.
    + split; [done|]. intros [= ? _]. by subst.
Qed.

Lemma filter_none {A} (P : A → Prop) `{!∀ x, Decision (P x)} (l : list A) :
  Forall (λ x, ¬ P x) l → filter P l = [].
Proof.
  induction 1 as [|x l Hx _ IH]; [done|].
  by rewrite filter_cons, decide_False.
Qed.

(** [os.listdir(p)] on a directory returns the names of its entries and
    leaves the world as it is. *)
Lemma os_listdir_dir p w :
  is_dir (fs w) p = true →
  ∃ names, os_listdir p w = (Ok names, w) ∧
           ∀ n, n ∈ names ↔ is_Some (fs w !! (p ++ [n])).
Proof.
  intros Hdir. unfold os_listdir, mbind, M_bind, get. rewrite Hdir.
  eexists. split; [reflexivity|]. intros n.
  rewrite list_elem_of_omap. split.
  - intros ([q v] & Hin & Hq). apply elem_of_map_to_list in Hin.
    apply child_of_spec in Hq. simpl in Hq. subst q. by exists v.
  - intros [v Hv]. exists (p ++ [n], v). split.
    + by apply elem_of_map_to_list.
    + by apply child_of_spec.
Qed.

(** [os.listdir(p)] raises when nothing is at [p]: [NotADirectoryError]
    when a regular file lies on the way, [FileNotFoundError] otherwise. *)
Lemma os_listdir_missing p w :
  p ≠ [] → fs w !! p = None →
  os_listdir p w = (Raise (missing_error (fs w) p), w).
Proof.
  intros Hp Hnone. unfold os_listdir, mbind, M_bind, get, is_dir.
  destruct p; [done|]. rewrite Hnone.
  rewrite bool_decide_eq_false_2 by done. done.
Qed.

(** [os.listdir(p)] raises on a regular file. *)
Lemma os_listdir_file p c w :
  p ≠ [] → fs w !! p = Some (File c) →
  os_listdir p w = (Raise NotADirectoryError, w).
Proof.
  intros Hp Hfile. unfold os_listdir, mbind, M_bind, get, is_dir.
  destruct p; [done|]. rewrite Hfile.
  rewrite bool_decide_eq_false_2 by done. done.
Qed.

Lemma add_plot_images_no_png folder s :
  is_dir (fs (world_of s)) (folder ++ ["plots"]) = true →
  (∀ n, is_Some (fs (world_of s) !! (folder ++ ["plots"; n])) →
        endswith n ".png" = false) →
  __add_plot_images_to_report folder s = (Ok "", s).
Proof.
  intros Hdir Hnone. unfold __add_plot_images_to_report.
  destruct (os_listdir_dir _ _ Hdir) as (names & Hls & Hnames).
  assert (in_world (os_listdir (folder ++ ["plots"])) s = (Ok names, s)) as Hw.
  { unfold in_world. rewrite Hls. by destruct s. }
  rewrite (bind_ok _ _ _ _ _ Hw).
  assert (filter (λ file, endswith file ".png" = true) names = []) as ->; [|done].
  apply filter_none, Forall_forall. intros n Hn.
  apply Hnames in Hn. rewrite <-(assoc_L (++)) in Hn. simpl in Hn.
  rewrite (Hnone n Hn). done.
Qed.

Lemma add_plot_images_raises folder e s :
  os_listdir (folder ++ ["plots"]) (world_of s) = (Raise e, world_of s) →
  __add_plot_images_to_report folder s = (Raise e, s).
Proof.
  intros Hls. unfold __add_plot_images_to_report.
  apply bind_raise. unfold in_world. rewrite Hls. by destruct s.
Qed.

Lemma generate_html_report_raises E folder add_css e s :
  __add_plot_images_to_report folder s = (Raise e, s) →
  _generate_html_report E folder add_css s = (Raise e, s).
Proof.
  intros Himg. unfold _generate_html_report.
  rewrite (bind_ok _ _ s (self_of s) s) by done.
  by apply bind_raise.
Qed.

Lemma plots_path_ne_nil (folder : list string) : folder ++ ["plots"] ≠ [].
Proof. by destruct folder. Qed.

(** C6, as the code has it: when [{folder}/plots] is a directory without
    PNG files the report is rendered with an empty plots section; when
    nothing is at [{folder}/plots] the listing of the plot images raises and
    no report is produced: [FileNotFoundError], or [NotADirectoryError] when
    a regular file lies on the way; when [{folder}/plots] is a regular file
    the listing raises [NotADirectoryError]. *)
Theorem html_report_without_plots E folder add_css s :
  plain_path folder →
  let w := world_of s in
  let plots := folder ++ ["plots"] in
  (fs w !! plots = Some Dir →
   (∀ n, is_Some (fs w !! (folder ++ ["plots"; n])) → endswith n ".png" = false) →
   __add_plot_images_to_report folder s = (Ok "", s) ∧
   _generate_html_report E folder add_css s
   = (Ok (html_document E (self_of s) add_css ""), s)) ∧
  (fs w !! plots = None →
   ∃ e, __add_plot_images_to_report folder s = (Raise e, s) ∧
        _generate_html_report E folder add_css s = (Raise e, s) ∧
        (file_on_path (fs w) plots = false → e = FileNotFoundError) ∧
        (file_on_path (fs w) plots = true → e = NotADirectoryError)) ∧
  (∀ c, fs w !! plots = Some (File c) →
        __add_plot_images_to_report folder s = (Raise NotADirectoryError, s) ∧
        _generate_html_report E folder add_css s = (Raise NotADirectoryError, s)).
Proof.
  intros _ w plots. subst w plots. split_and!.
  - intros Hdir Hnone.
    assert (is_dir (fs (world_of s)) (folder ++ ["plots"]) = true) as Hd.
    { unfold is_dir. destruct (folder ++ ["plots"]) eqn:Hp; [done|].
      by apply bool_decide_eq_true_2. }
    pose proof (add_plot_images_no_png folder s Hd Hnone) as Himg.
    split; [done|]. unfold _generate_html_report.
    rewrite (bind_ok _ _ s (self_of s) s) by done.
    rewrite (bind_ok _ _ _ _ _ Himg). done.
  - intros Hnone.
    pose proof (os_listdir_missing _ _ (plots_path_ne_nil folder) Hnone) as Hls.
    apply add_plot_images_raises in Hls.
    eexists. split; [exact Hls|].
    split; [by apply generate_html_report_raises|].
    unfold missing_error. split; intros ->; done.
  - intros c Hfile.
    pose proof (os_listdir_file _ _ _ (plots_path_ne_nil folder) Hfile) as Hls.
    apply add_plot_images_raises in Hls.
    split; [done|]. by apply generate_html_report_raises.
Qed.

Lemma html_report_without_plots_witness :
  plain_path ["report_metrics"] ∧
  _generate_html_report sample_env ["report_metrics"] true
    {| self_of := sample_regression_report; world_of := bare_plots_world |}
  = (Ok (html_document sample_env sample_regression_report true ""),
     {| self_of := sample_regression_report; world_of := bare_plots_world |}) ∧
  _generate_html_report sample_env ["report_metrics"] true
    {| self_of := sample_regression_report; world_of := empty_world |}
  = (Raise FileNotFoundError,
     {| self_of := sample_regression_report; world_of := empty_world |}) ∧
  _generate_html_report sample_env ["report_metrics"] true
    {| self_of := sample_regression_report; world_of := blocked_world |}
  = (Raise NotADirectoryError,
     {| self_of := sample_regression_report; world_of := blocked_world |}).
Proof.
  assert (plain_path ["report_metrics"]) as Hplain by by_compute.
  split; [exact Hplain|]. split_and!.
  - apply (proj1 (html_report_without_plots sample_env ["report_metrics"] true
                    {| self_of := sample_regression_report;
                       world_of := bare_plots_world |} Hplain)).
    + vm_compute. reflexivity.
    + intros n [v Hv]. exfalso. simpl in Hv.
      rewrite lookup_insert_ne in Hv by discriminate.
      rewrite lookup_singleton_ne in Hv by discriminate.
      discriminate Hv.
  - destruct (proj1 (proj2 (html_report_without_plots sample_env ["report_metrics"]
                              true {| self_of := sample_regression_report;
                                      world_of := empty_world |} Hplain)))
      as (e & _ & Hhtml & Hnotfound & _).
    + vm_compute. reflexivity.
    + rewrite Hhtml. rewrite Hnotfound; [reflexivity|]. vm_compute. reflexivity.
  - destruct (proj1 (proj2 (html_report_without_plots sample_env ["report_metrics"]
                              true {| self_of := sample_regression_report;
                                      world_of := blocked_world |} Hplain)))
      as (e & _ & Hhtml & _ & Hnotdir).
    + vm_compute. reflexivity.
    + rewrite Hhtml. rewrite Hnotdir; [reflexivity|]. vm_compute. reflexivity.
Defined.

(** With no [plots] directory the report is not rendered: the listing of
    the plot images raises. *)
Lemma html_report_missing_plots_dir_raises :
  let s := {| self_of := sample_regression_report; world_of := empty_world |} in
  fs (world_of s) !! ["report_metrics"; "plots"] = None ∧
  (_generate_html_report sample_env ["report_metrics"] true s).1
  = Raise FileNotFoundError ∧
  (__add_plot_images_to_report ["report_metrics"] s).1 = Raise FileNotFoundError.
Proof. split_and!; vm_compute; reflexivity. Qed.

(** ** The file system operations *)

Lemma nothing_below_missing (m : gmap (list string) node) (d p : list string) :
  fs_wf m → d ≠ [] → m !! d = None → d `prefix_of` p → m !! p = None.
Proof.
  intros Hwf Hne Hd [l ->]. induction l as [|x l IH] using rev_ind.
  - by rewrite app_nil_r.
  - destruct (m !! (d ++ l ++ [x])) as [v|] eqn:H; [|done]. exfalso.
    apply Hwf in H. simpl in H. rewrite app_assoc, removelast_last in H.
    destruct H as [He|Hdir].
    + by destruct d.
    + by rewrite IH in Hdir.
Qed.

Lemma lookup_rmtree (d : list string) (m : gmap (list string) node) (p : list string) :
  filter (λ kv, ¬ d `prefix_of` kv.1) m !! p
  = if decide (d `prefix_of` p) then None else m !! p.
Proof.
  rewrite map_lookup_filter. destruct (m !! p) as [v|]; simpl.
  - case_decide as Hpre.
    + by rewrite option_guard_False by (by intros Hn; apply Hn).
    + by rewrite option_guard_True.
  - by case_decide.
Qed.

Lemma shutil_rmtree_dir d w :
  d ≠ [] → fs w !! d = Some Dir →
  shutil_rmtree d w
  = (Ok tt, set_fs (filter (λ kv, ¬ d `prefix_of` kv.1) (fs w)) w).
Proof.
  intros Hne Hd. unfold shutil_rmtree, mbind, M_bind, get.
  destruct d; [done|]. by rewrite Hd.
Qed.

Lemma elem_of_ancestors_and_self d q :
  q ∈ ancestors_and_self d ↔ q ≠ [] ∧ q `prefix_of` d.
Proof.
  unfold ancestors_and_self. rewrite list_elem_of_fmap. split.
  - intros (n & -> & [Hn1 Hn2]%elem_of_seq). split; [|apply prefix_take].
    destruct d; simpl in *; [lia|]. destruct n; [lia|done].
  - intros [Hne [l ->]]. exists (length q). split.
    + by rewrite take_app_length.
    + apply elem_of_seq. rewrite length_app. destruct q; [done|simpl; lia].
Qed.

Lemma for_each_mkdir_missing (L : list (list string)) w :
  (∀ q, q ∈ L → fs w !! q = None ∨ fs w !! q = Some Dir) →
  ∃ w', for_each L mkdir_missing w = (Ok tt, w') ∧
        stdout w' = stdout w ∧ shown w' = shown w ∧
        ∀ q, fs w' !! q = if decide (q ∈ L) then Some Dir else fs w !! q.
Proof.
  revert w. induction L as [|x L IH]; intros w HL.
  - exists w. split_and!; done.
  - assert (∃ w1, mkdir_missing x w = (Ok tt, w1) ∧
                  stdout w1 = stdout w ∧ shown w1 = shown w ∧
                  ∀ q, fs w1 !! q = if decide (q = x) then Some Dir else fs w !! q)
      as (w1 & Hmk & Hout & Hshown & Hfs).
    { unfold mkdir_missing, mbind, M_bind, get.
      destruct (HL x) as [Hx|Hx]; [left| |]; rewrite Hx.
      - eexists. split; [reflexivity|]. split_and!; try done.
        intros q. simpl. case_decide; subst.
        + by rewrite lookup_insert_eq.
        + by rewrite lookup_insert_ne.
      - exists w. split_and!; try done. intros q. case_decide; by subst. }
    destruct (IH w1) as (w' & Hrest & Hout' & Hshown' & Hfs').
    { intros q Hq. rewrite Hfs. case_decide; [by right|]. apply HL. by right. }
    exists w'. split_and!.
    + simpl. by rewrite (bind_ok _ _ _ _ _ Hmk).
    + congruence.
    + congruence.
    + intros q. rewrite Hfs', Hfs.
      destruct (decide (q = x)) as [->|Hne].
      * rewrite (decide_True (P:=x ∈ x :: L)) by left. by case_decide.
      * destruct (decide (q ∈ L)) as [Hin|Hnin].
        -- rewrite decide_True; [done|by right].
        -- rewrite decide_False; [done|]. by intros [?|?]%elem_of_cons.
Qed.

Lemma os_makedirs_ok d w :
  d ≠ [] → fs w !! d = None →
  (∀ q, q ≠ [] → q `prefix_of` d → fs w !! q = None ∨ fs w !! q = Some Dir) →
  ∃ w', os_makedirs d w = (Ok tt, w') ∧
        stdout w' = stdout w ∧ shown w' = shown w ∧
        ∀ q, fs w' !! q
             = if decide (q ≠ [] ∧ q `prefix_of` d) then Some Dir else fs w !! q.
Proof.
  intros Hne Hd Hanc.
  destruct (for_each_mkdir_missing (ancestors_and_self d) w)
    as (w' & Hrun & Hout & Hshown & Hfs).
  { intros q [? ?]%elem_of_ancestors_and_self. by apply Hanc. }
  exists w'. split_and!; try done.
  - unfold os_makedirs, os_path_exists, mbind, M_bind, get, mret, M_ret.
    destruct d; [done|]. rewrite Hd.
    rewrite bool_decide_eq_false_2 by (by intros [? ?]). exact Hrun.
  - intros q. rewrite Hfs.
    destruct (decide (q ∈ ancestors_and_self d)) as [Hin|Hnin].
    + rewrite decide_True; [done|]. by apply elem_of_ancestors_and_self.
    + rewrite decide_False; [done|]. by rewrite <-elem_of_ancestors_and_self.
Qed.

(** The block [if os.path.exists(d): shutil.rmtree(d)] followed by
    [os.makedirs(d)]: afterwards [d] is an empty directory. *)
Lemma recreate_dir_ok d w :
  d ≠ [] →
  (∀ c, fs w !! d ≠ Some (File c)) →
  (fs w !! d = None → ∀ p, d `prefix_of` p → fs w !! p = None) →
  (∀ q, q ≠ [] → q `prefix_of` d → q ≠ d →
        fs w !! q = None ∨ fs w !! q = Some Dir) →
  ∃ w', (os_path_exists d ≫= λ ex : bool,
           when ex (shutil_rmtree d) ≫= λ _, os_makedirs d) w = (Ok tt, w') ∧
        stdout w' = stdout w ∧ shown w' = shown w ∧
        ∀ p, fs w' !! p
             = if decide (p ≠ [] ∧ p `prefix_of` d) then Some Dir
               else if decide (d `prefix_of` p) then None
               else fs w !! p.
Proof.
  intros Hne Hfile Horphan Hanc.
  destruct (fs w !! d) as [[|c]|] eqn:Hd.
  - pose proof (shutil_rmtree_dir d w Hne Hd) as Hrm.
    set (w1 := set_fs (filter (λ kv, ¬ d `prefix_of` kv.1) (fs w)) w) in *.
    destruct (os_makedirs_ok d w1) as (w' & Hmk & Hout & Hshown & Hfs).
    + done.
    + simpl. rewrite lookup_rmtree. by rewrite decide_True.
    + intros q Hq Hpre. simpl. rewrite lookup_rmtree.
      case_decide as Hdq; [by left|]. apply Hanc; [done..|].
      intros ->. by apply Hdq.
    + exists w'. split_and!; try done.
      * unfold os_path_exists at 1. unfold mbind at 1, M_bind at 1.
        unfold mbind at 1, M_bind at 1, get. simpl.
        destruct d; [done|]. rewrite Hd.
        rewrite bool_decide_eq_true_2 by done. simpl.
        unfold mbind, M_bind. fold w1. by rewrite Hrm.
      * intros p. rewrite Hfs. case_decide; [done|]. simpl.
        apply lookup_rmtree.
  - by destruct (Hfile c).
  - destruct (os_makedirs_ok d w) as (w' & Hmk & Hout & Hshown & Hfs).
    + done.
    + done.
    + intros q Hq Hpre. destruct (decide (q = d)) as [->|Hqd]; [by left|].
      by apply Hanc.
    + exists w'. split_and!; try done.
      * unfold os_path_exists at 1. unfold mbind at 1, M_bind at 1.
        unfold mbind at 1, M_bind at 1, get. simpl.
        destruct d; [done|]. rewrite Hd.
        rewrite bool_decide_eq_false_2 by (by intros [? ?]). simpl.
        unfold mbind, M_bind. simpl. exact Hmk.
      * intros p. rewrite Hfs. case_decide; [done|].
        case_decide as Hdp; [|done]. by apply Horphan.
Qed.

Lemma write_file_ok p content w :
  is_dir (fs w) p = false → is_dir (fs w) (removelast p) = true →
  write_file p content w = (Ok tt, set_fs (<[p := File content]> (fs w)) w).
Proof.
  intros Hp Hparent. unfold write_file, mbind, M_bind, get.
  by rewrite Hp, Hparent.
Qed.

(** ** Saving the plots *)

Lemma plot_method_run E p s fig :
  figure_of E (self_of s) p = Some fig →
  plot_method E p default_figsize s = (Ok fig, s).
Proof.
  destruct p; simpl; unfold_plots;
    unfold mbind, M_bind, get_self, lift_outcome; simpl; intros Hfig;
    try (by rewrite Hfig).
  all: try (destruct (probas_reval (self_of s)) as [probas|]; simpl in *;
            [by rewrite Hfig|done]).
  destruct (np_subtract _ _) as [res|]; simpl in *; [by rewrite Hfig|done].
Qed.

Lemma classification_plots_unfold E save folder :
  _classification_plots E save folder
  = (recreate_plots_dir save folder ≫= λ _,
       for_each ((λ p, (plot_key p, plot_method E p default_figsize))
                   <$> task_plots Classification)
                (plot_loop_body save folder)).
Proof. reflexivity. Qed.

Lemma regression_plots_unfold E save folder :
  _regression_plots E save folder
  = (recreate_plots_dir save folder ≫= λ _,
       for_each ((λ p, (plot_key p, plot_method E p default_figsize))
                   <$> task_plots Regression)
                (plot_loop_body save folder)).
Proof. reflexivity. Qed.

Lemma png_path_not_plots_dir folder p : png_path folder p ≠ folder ++ ["plots"].
Proof.
  unfold png_path. intros H. apply (f_equal length) in H.
  rewrite !length_app in H. simpl in H. lia.
Qed.

Lemma removelast_png_path folder p :
  removelast (png_path folder p) = folder ++ ["plots"].
Proof.
  unfold png_path.
  change ["plots"; plot_key p +:+ ".png"] with (["plots"] ++ [plot_key p +:+ ".png"]).
  by rewrite app_assoc, removelast_last.
Qed.

Lemma is_dir_Some_Dir (m : gmap (list string) node) (p : list string) :
  m !! p = Some Dir → is_dir m p = true.
Proof.
  intros H. unfold is_dir. destruct p; [done|]. by apply bool_decide_eq_true_2.
Qed.

Lemma is_dir_not_Dir (m : gmap (list string) node) (p : list string) :
  p ≠ [] → m !! p ≠ Some Dir → is_dir m p = false.
Proof.
  intros Hne H. unfold is_dir. destruct p; [done|]. by apply bool_decide_eq_false_2.
Qed.

(** The loop of the batch methods under [save]: one PNG file per plot, and
    nothing else changes. *)
Lemma save_plots_loop E folder (ps : list plot) s :
  (∀ p, p ∈ ps → is_Some (figure_of E (self_of s) p)) →
  fs (world_of s) !! (folder ++ ["plots"]) = Some Dir →
  (∀ p, fs (world_of s) !! png_path folder p ≠ Some Dir) →
  ∃ s', for_each ((λ p, (plot_key p, plot_method E p default_figsize)) <$> ps)
          (plot_loop_body true folder) s = (Ok tt, s') ∧
        self_of s' = self_of s ∧
        stdout (world_of s') = stdout (world_of s) ∧
        shown (world_of s') = shown (world_of s) ∧
        (∀ q, q ∉ png_path folder <$> ps →
              fs (world_of s') !! q = fs (world_of s) !! q) ∧
        (∀ p, p ∈ ps → ∃ fig, fs (world_of s') !! png_path folder p = Some (File fig)).
Proof.
  revert s. induction ps as [|p ps IH]; intros s Hfig Hdir Hnodir.
  - exists s. split_and!; try done. by intros p ?%elem_of_nil.
  - destruct (Hfig p) as [fig Hp]; [left|].
    set (s1 := {| self_of := self_of s;
                  world_of := set_fs (<[png_path folder p := File fig]>
                                        (fs (world_of s))) (world_of s) |}).
    assert (plot_loop_body true folder
              (plot_key p, plot_method E p default_figsize) s = (Ok tt, s1)) as Hbody.
    { unfold plot_loop_body. simpl.
      rewrite (bind_ok _ _ _ _ _ (plot_method_run E p s fig Hp)).
      unfold mbind, M_bind, in_world.
      change (folder ++ ["plots"; plot_key p +:+ ".png"]) with (png_path folder p).
      rewrite write_file_ok.
      - done.
      - apply is_dir_not_Dir; [|done]. unfold png_path. by destruct folder.
      - rewrite removelast_png_path. by apply is_dir_Some_Dir. }
    destruct (IH s1) as (s' & Hrest & Hself & Hout & Hshown & Hother & Hfiles).
    { intros p' Hp'. apply Hfig. by right. }
    { simpl. rewrite lookup_insert_ne; [done|]. apply png_path_not_plots_dir. }
    { intros p'. simpl. destruct (decide (png_path folder p = png_path folder p')) as [<-|Hne].
      - by rewrite lookup_insert_eq.
      - by rewrite lookup_insert_ne. }
    exists s'. split_and!.
    + rewrite fmap_cons. simpl for_each. by rewrite (bind_ok _ _ _ _ _ Hbody).
    + by rewrite Hself.
    + by rewrite Hout.
    + by rewrite Hshown.
    + intros q Hq. rewrite fmap_cons in Hq. apply not_elem_of_cons in Hq as [Hq1 Hq2].
      rewrite (Hother q Hq2). simpl. by rewrite lookup_insert_ne.
    + intros p' [->|Hp']%elem_of_cons; [|by apply Hfiles].
      destruct (decide (png_path folder p ∈ png_path folder <$> ps)) as [Hin|Hnin].
      * apply list_elem_of_fmap in Hin as (p'' & Heq & Hin). rewrite Heq.
        by apply Hfiles.
      * exists fig. rewrite (Hother _ Hnin). simpl. by rewrite lookup_insert_eq.
Qed.

Lemma target_info_ok E s :
  data (y_true (self_of s)) ≠ [] →
  ∃ info, __target_info E s
          = (Ok tt, {| self_of := set_target_info info (self_of s);
                       world_of := world_of s |}).
Proof.
  intros Hne. unfold __target_info, mbind, M_bind, get_self, lift_outcome, set_self.
  simpl. destruct (task_type (self_of s)); simpl.
  - unfold class_balance. destruct (data (y_true (self_of s))) eqn:Hd; [done|].
    simpl. by eexists.
  - destruct (data (y_true (self_of s))) eqn:Hd; [done|]. simpl. by eexists.
Qed.

Lemma generate_html_report_ok E folder add_css s :
  is_dir (fs (world_of s)) (folder ++ ["plots"]) = true →
  ∃ html, _generate_html_report E folder add_css s = (Ok html, s).
Proof.
  intros Hdir. destruct (os_listdir_dir _ _ Hdir) as (names & Hls & _).
  unfold _generate_html_report, __add_plot_images_to_report.
  unfold mbind, M_bind, get_self, in_world. simpl. rewrite Hls.
  destruct s. simpl. by eexists.
Qed.

(** ** Saving a report *)

Lemma string_length_app (a b : string) :
  String.length (a +:+ b) = (String.length a + String.length b)%nat.
Proof. induction a as [|c a IH]; simpl; [done|]. by rewrite IH. Qed.

Lemma html_name_not_plots name : name +:+ ".html" ≠ "plots".
Proof.
  intros H. pose proof (f_equal String.length H) as Hl.
  rewrite string_length_app in Hl. simpl in Hl.
  destruct name; [done|]. simpl in Hl. lia.
Qed.

Lemma md_name_not_plots name : name +:+ ".md" ≠ "plots".
Proof.
  intros H. pose proof (f_equal String.length H) as Hl.
  rewrite string_length_app in Hl. simpl in Hl.
  destruct name as [|a [|b [|c name]]]; simpl in *; try lia; discriminate.
Qed.

Lemma html_name_not_md name : name +:+ ".html" ≠ name +:+ ".md".
Proof. intros H. by apply String.app_inj in H. Qed.

Lemma prefix_between (folder p : list string) x :
  folder `prefix_of` p → p `prefix_of` folder ++ [x] →
  p = folder ∨ p = folder ++ [x].
Proof.
  intros [l ->] Hp. apply prefix_app_inv in Hp.
  destruct l as [|y l]; [left; by rewrite app_nil_r|right].
  destruct Hp as [k Hk]. simpl in Hk. injection Hk as -> Hk.
  destruct l; [done|discriminate].
Qed.

Lemma in_world_run {A} (m : M world A) r w o w' :
  m w = (o, w') →
  in_world m {| self_of := r; world_of := w |} = (o, {| self_of := r; world_of := w' |}).
Proof. intros H. unfold in_world. simpl. by rewrite H. Qed.

Lemma figure_of_set_target_info E info r p :
  figure_of E (set_target_info info r) p = figure_of E r p.
Proof. by destruct p. Qed.

Lemma length_png_path folder p : length (png_path folder p) = S (S (length folder)).
Proof. unfold png_path. rewrite length_app. simpl. lia. Qed.

Lemma child_not_png folder x (ps : list plot) : folder ++ [x] ∉ png_path folder <$> ps.
Proof.
  intros (p & Heq & _)%list_elem_of_fmap. apply (f_equal length) in Heq.
  rewrite length_png_path, length_app in Heq. simpl in Heq. lia.
Qed.

Lemma folder_not_png folder (ps : list plot) : folder ∉ png_path folder <$> ps.
Proof.
  intros (p & Heq & _)%list_elem_of_fmap. apply (f_equal length) in Heq.
  rewrite length_png_path in Heq. lia.
Qed.

Lemma save_report_run E folder name s :
  folder ≠ current_directory →
  data (y_true (self_of s)) ≠ [] →
  (∀ p, p ∈ task_plots (task_type (self_of s)) →
        is_Some (figure_of E (self_of s) p)) →
  (∀ q c, q ≠ [] → q `prefix_of` folder → fs (world_of s) !! q ≠ Some (File c)) →
  (fs (world_of s) !! folder = None →
   ∀ p, folder `prefix_of` p → fs (world_of s) !! p = None) →
  ∃ s', save_report E folder name s = (Ok tt, s') ∧
        (∃ info, self_of s' = set_target_info info (self_of s)) ∧
        saved_tree folder name (task_type (self_of s)) (fs (world_of s')) ∧
        (∀ p, ¬ folder `prefix_of` p → ¬ p `prefix_of` folder →
              fs (world_of s') !! p = fs (world_of s) !! p).
Proof.
  intros Hfolder Hdata Hfigs Hnofile Horphan.
  destruct s as [r w]. simpl in *.
  (* the folder *)
  destruct (recreate_dir_ok folder w) as (w1 & Hrec & Hout1 & Hshown1 & Hfs1).
  { done. }
  { intros c. by apply Hnofile. }
  { done. }
  { intros q Hq Hpre _. destruct (fs w !! q) as [[|c]|] eqn:Hq'; [by right| |by left].
    by destruct (Hnofile q c Hq Hpre). }
  (* the target summary *)
  destruct (target_info_ok E {| self_of := r; world_of := w1 |} Hdata) as (info & Hinfo).
  simpl in Hinfo. set (r' := set_target_info info r) in *.
  (* the plots directory *)
  destruct (recreate_dir_ok (folder ++ ["plots"]) w1)
    as (w2 & Hrec2 & Hout2 & Hshown2 & Hfs2).
  { by destruct folder. }
  { intros c. rewrite Hfs1. rewrite decide_False.
    - rewrite decide_True; [done|]. by apply prefix_app_r.
    - intros [_ Hpre]. apply prefix_length in Hpre. rewrite length_app in Hpre.
      simpl in Hpre. lia. }
  { intros _ p Hp. rewrite Hfs1. rewrite decide_False.
    - rewrite decide_True; [done|]. etrans; [|exact Hp]. by apply prefix_app_r.
    - intros [_ Hpre]. apply prefix_length in Hp, Hpre. rewrite length_app in Hp.
      simpl in Hp. lia. }
  { intros q Hq Hpre Hne. right. rewrite Hfs1. rewrite decide_True; [done|].
    split; [done|].
    destruct Hpre as [k Hk].
    destruct k as [|x k] using rev_ind; [by rewrite app_nil_r in Hk|].
    rewrite app_assoc in Hk. apply app_inj_tail in Hk as [-> _].
    by exists k. }
  assert (fs w2 !! folder = Some Dir) as Ffolder.
  { rewrite Hfs2. rewrite decide_True; [done|]. split; [done|]. by apply prefix_app_r. }
  assert (fs w2 !! (folder ++ ["plots"]) = Some Dir) as Fplots.
  { rewrite Hfs2. rewrite decide_True; [done|]. split; [by destruct folder|done]. }
  assert (∀ p, folder `prefix_of` p → p ≠ folder → p ≠ folder ++ ["plots"] →
               fs w2 !! p = None) as Funder.
  { intros p Hp Hn1 Hn2. rewrite Hfs2. rewrite decide_False.
    - case_decide; [done|]. rewrite Hfs1. rewrite decide_False.
      + by rewrite decide_True.
      + intros [_ Hpre]. apply Hn1. by apply (anti_symm prefix).
    - intros [_ Hpre]. by destruct (prefix_between folder p "plots" Hp Hpre). }
  assert (∀ q, q ≠ [] → q `prefix_of` folder → fs w2 !! q = Some Dir) as Fanc.
  { intros q Hq Hpre. rewrite Hfs2. rewrite decide_True; [done|]. split; [done|].
    by apply prefix_app_r. }
  assert (∀ p, ¬ folder `prefix_of` p → ¬ p `prefix_of` folder →
               fs w2 !! p = fs w !! p) as Fout.
  { intros p Hn1 Hn2. rewrite Hfs2. rewrite decide_False.
    - rewrite decide_False.
      + rewrite Hfs1. rewrite decide_False by (by intros [_ ?]).
        by rewrite decide_False.
      + intros Hpre. apply Hn1. etrans; [|exact Hpre]. by apply prefix_app_r.
    - intros [_ Hpre]. destruct Hpre as [k Hk].
      destruct k as [|x k _] using rev_ind.
      + rewrite app_nil_r in Hk. apply Hn1. rewrite <-Hk. by apply prefix_app_r.
      + rewrite app_assoc in Hk. apply app_inj_tail in Hk as [-> _].
        apply Hn2. by exists k. }
  (* the plots *)
  destruct (save_plots_loop E folder (task_plots (task_type r))
              {| self_of := r'; world_of := w2 |})
    as (s3 & Hloop & Hself3 & Hout3 & Hshown3 & Hother3 & Hpng3).
  { intros p Hp. simpl. unfold r'. rewrite figure_of_set_target_info. by apply Hfigs. }
  { done. }
  { intros p. simpl. rewrite Funder; [done| | |].
    - unfold png_path. by apply prefix_app_r.
    - intros Heq. apply (f_equal length) in Heq. rewrite length_png_path in Heq. lia.
    - apply png_path_not_plots_dir. }
  destruct s3 as [r3 w3]. simpl in *. subst r3.
  assert (fs w3 !! folder = Some Dir) as Gfolder.
  { rewrite Hother3; [done|]. apply folder_not_png. }
  assert (fs w3 !! (folder ++ ["plots"]) = Some Dir) as Gplots.
  { rewrite Hother3; [done|]. apply child_not_png. }
  assert (∀ x, x ≠ "plots" → fs w3 !! (folder ++ [x]) = None) as Gchild.
  { intros x Hx. rewrite Hother3 by apply child_not_png. apply Funder.
    - by apply prefix_app_r.
    - intros Heq. apply (f_equal length) in Heq. rewrite length_app in Heq.
      simpl in Heq. lia.
    - intros Heq. apply app_inv_head in Heq. congruence. }
  (* the HTML file *)
  destruct (generate_html_report_ok E folder true {| self_of := r'; world_of := w3 |})
    as (html & Hhtml).
  { by apply is_dir_Some_Dir. }
  set (w4 := set_fs (<[folder ++ [name +:+ ".html"] := File html]> (fs w3)) w3).
  assert (write_file (folder ++ [name +:+ ".html"]) html w3 = (Ok tt, w4)) as Hw4.
  { apply write_file_ok.
    - apply is_dir_not_Dir; [by destruct folder|].
      by rewrite Gchild by apply html_name_not_plots.
    - rewrite removelast_last. by apply is_dir_Some_Dir. }
  (* the Markdown file *)
  destruct (generate_html_report_ok E folder false {| self_of := r'; world_of := w4 |})
    as (plain & Hplain).
  { apply is_dir_Some_Dir. simpl. rewrite lookup_insert_ne; [done|].
    intros Heq. apply app_inv_head in Heq. injection Heq as Heq.
    by apply html_name_not_plots in Heq. }
  set (w5 := set_fs (<[folder ++ [name +:+ ".md"] := File (markdownify E plain)]>
                       (fs w4)) w4).
  assert (write_file (folder ++ [name +:+ ".md"]) (markdownify E plain) w4
          = (Ok tt, w5)) as Hw5.
  { apply write_file_ok.
    - apply is_dir_not_Dir; [by destruct folder|]. simpl.
      rewrite lookup_insert_ne.
      + by rewrite Gchild by apply md_name_not_plots.
      + intros Heq. apply app_inv_head in Heq. injection Heq as Heq.
        by apply html_name_not_md in Heq.
    - rewrite removelast_last. apply is_dir_Some_Dir. simpl.
      rewrite lookup_insert_ne; [done|].
      intros Heq. apply (f_equal length) in Heq. rewrite length_app in Heq.
      simpl in Heq. lia. }
  eexists. split.
  { unfold save_report.
    rewrite bool_decide_eq_true_2 by done. simpl when.
    rewrite (bind_ok _ _ _ _ _ (in_world_run _ r _ _ _ Hrec)).
    rewrite (bind_ok _ _ _ _ _ Hinfo).
    rewrite (bind_ok get_self _ {| self_of := r'; world_of := w1 |} r' _ eq_refl).
    assert (match task_type r' with
            | Classification => _classification_plots E true folder
            | Regression => _regression_plots E true folder
            end {| self_of := r'; world_of := w1 |}
            = (Ok tt, {| self_of := r'; world_of := w3 |})) as Hplots.
    { change (task_type r') with (task_type r).
      destruct (task_type r);
        [rewrite classification_plots_unfold|rewrite regression_plots_unfold];
        unfold recreate_plots_dir; simpl when;
        rewrite (bind_ok _ _ _ _ _ (in_world_run _ r' _ _ _ Hrec2));
        exact Hloop. }
    rewrite (bind_ok _ _ _ _ _ Hplots).
    rewrite (bind_ok _ _ _ _ _ Hhtml).
    rewrite (bind_ok _ _ _ _ _ (in_world_run _ r' _ _ _ Hw4)).
    rewrite (bind_ok _ _ _ _ _ Hplain).
    rewrite (bind_ok _ _ _ _ _ (in_world_run _ r' _ _ _ Hw5)).
    reflexivity. }
  simpl. split; [by exists info|].
  set (hp := folder ++ [name +:+ ".html"]) in *.
  set (mp := folder ++ [name +:+ ".md"]) in *.
  assert (hp ≠ mp) as Hhm.
  { intros Heq. apply app_inv_head in Heq. injection Heq as Heq.
    by apply html_name_not_md in Heq. }
  assert (∀ p, p ≠ hp → p ≠ mp →
               <[mp := File (markdownify E plain)]> (<[hp := File html]> (fs w3)) !! p
               = fs w3 !! p) as Hrest.
  { intros p Hp1 Hp2. by rewrite !lookup_insert_ne. }
  assert (∀ p, length p ≠ S (length folder) → p ≠ hp ∧ p ≠ mp) as Hlen.
  { intros p Hp. split; intros ->; apply Hp; unfold hp, mp;
      rewrite length_app; simpl; lia. }
  assert (∀ p, p ∈ png_path folder <$> task_plots (task_type r) →
               folder `prefix_of` p ∧ length p = S (S (length folder))) as Hpngs.
  { intros p (p0 & -> & _)%list_elem_of_fmap. split.
    - unfold png_path. by apply prefix_app_r.
    - apply length_png_path. }
  split; [split_and!|].
  - intros p Hpre. unfold report_paths.
    destruct (decide (p = mp)) as [->|Hmp].
    { rewrite lookup_insert_eq. split; [|by eexists]. intros _.
      apply elem_of_app. left. do 3 right. left. }
    destruct (decide (p = hp)) as [->|Hhp].
    { rewrite lookup_insert_ne by done. rewrite lookup_insert_eq.
      split; [|by eexists]. intros _. apply elem_of_app. left. do 2 right. left. }
    rewrite Hrest by done.
    destruct (decide (p ∈ png_path folder <$> task_plots (task_type r))) as [Hin|Hnin].
    { split; [intros _; apply elem_of_app; by right|]. intros _.
      apply list_elem_of_fmap in Hin as (p0 & -> & Hp0).
      destruct (Hpng3 p0 Hp0) as [fig ->]. by eexists. }
    rewrite Hother3 by done.
    destruct (decide (p = folder)) as [->|Hf].
    { rewrite Ffolder. split; [|by eexists]. intros _. apply elem_of_app. left. left. }
    destruct (decide (p = folder ++ ["plots"])) as [->|Hpl].
    { rewrite Fplots. split; [|by eexists]. intros _.
      apply elem_of_app. left. right. left. }
    rewrite Funder by done. split; [by intros [? ?]|].
    intros [Hin|Hin]%elem_of_app; [|done].
    repeat (apply elem_of_cons in Hin as [?|Hin]; [done|]).
    by apply elem_of_nil in Hin.
  - intros q Hq Hpre.
    destruct (Hlen q) as [? ?].
    { apply prefix_length in Hpre. lia. }
    rewrite Hrest by done. rewrite Hother3; [by apply Fanc|].
    intros [_ Hl]%Hpngs. apply prefix_length in Hpre. lia.
  - rewrite Hrest; [done|..].
    + intros Heq. apply app_inv_head in Heq. injection Heq as Heq.
      symmetry in Heq. by apply html_name_not_plots in Heq.
    + intros Heq. apply app_inv_head in Heq. injection Heq as Heq.
      symmetry in Heq. by apply md_name_not_plots in Heq.
  - exists html. rewrite lookup_insert_ne by done. by rewrite lookup_insert_eq.
  - eexists. by rewrite lookup_insert_eq.
  - intros p Hp. destruct (Hlen (png_path folder p)) as [? ?].
    { rewrite length_png_path. lia. }
    rewrite Hrest by done. by apply Hpng3.
  - intros p Hn1 Hn2.
    assert (p ≠ hp ∧ p ≠ mp) as [? ?].
    { split; intros ->; apply Hn1; by apply prefix_app_r. }
    rewrite Hrest by done. rewrite Hother3; [by apply Fout|].
    intros [Hpre _]%Hpngs. by apply Hn1.
Qed.

Lemma sample_regression_report_built :
  ∃ w', __init__ sample_env regression_y_true regression_y_pred (PyF (qc 1 2))
          empty_world = (Ok sample_regression_report, w').
Proof. eexists. vm_compute. reflexivity. Qed.

Lemma sample_classification_report_built :
  ∃ w', __init__ sample_env binary_classification_y_true
          binary_classification_y_pred (PyF (qc 1 2)) empty_world
        = (Ok sample_classification_report, w').
Proof. eexists. vm_compute. reflexivity. Qed.

(** A report that was built has at least one sample. *)
Lemma built_nonempty E targets predictions threshold w r w' :
  __init__ E targets predictions threshold w = (Ok r, w') →
  data (y_true r) ≠ [].
Proof.
  intros (Htask & Hyt & _ & _ & _ & Hm)%init_ok_inv.
  rewrite Hyt. simpl. intros Hnil.
  destruct (task_type r).
  - destruct Hm as (_ & _ & _ & Hm).
    apply generate_classification_metrics_inv in Hm
      as (yb & cm & tn & fp & fn & tp & auc & ll & ap & acc & prec & rec & f1 & mcc
          & _ & Hcm & Hravel & _).
    rewrite Hyt in Hcm. simpl in Hcm. rewrite Hnil in Hcm.
    destruct (confusion_matrix_four _ _ _ _ _ _ _ _ Hcm Hravel)
      as (Hlen & _ & neg & pos & Hlabels & _).
    destruct yb; [|done]. by vm_compute in Hlabels.
  - unfold _determine_task_type in Htask. rewrite Hnil in Htask.
    by vm_compute in Htask.
Qed.

(** C5, as the code has it: for a folder of plain components other than
    the current directory, whose path is not blocked by a regular file, for
    names without ['/'], and when the plots can be drawn,
    [save_report(folder, name)] destroys and recreates the folder and leaves
    in it the two report files, the [plots] directory and one PNG file per
    plot of the task, and nothing else; everything outside the folder is
    untouched.  Saving again, under any such name, leaves exactly the tree
    of the second report. *)
Theorem save_report_leaves_report_tree
    E targets predictions threshold w0 r w1 folder name name2 w :
  __init__ E targets predictions threshold w0 = (Ok r, w1) →
  plain_path folder → plain_name name → plain_name name2 →
  folder ≠ current_directory →
  fs_wf (fs w) →
  (∀ q c, q ≠ [] → q `prefix_of` folder → fs w !! q ≠ Some (File c)) →
  (∀ p, p ∈ task_plots (task_type r) → is_Some (figure_of E r p)) →
  ∃ s1 s2,
    save_report E folder name {| self_of := r; world_of := w |} = (Ok tt, s1) ∧
    saved_tree folder name (task_type r) (fs (world_of s1)) ∧
    (∀ p, ¬ folder `prefix_of` p → ¬ p `prefix_of` folder →
          fs (world_of s1) !! p = fs w !! p) ∧
    save_report E folder name2 s1 = (Ok tt, s2) ∧
    saved_tree folder name2 (task_type r) (fs (world_of s2)).
Proof.
  intros Hbuilt _ _ _ Hfolder Hwf Hnofile Hfigs.
  pose proof (built_nonempty _ _ _ _ _ _ _ Hbuilt) as Hdata.
  destruct (save_report_run E folder name {| self_of := r; world_of := w |})
    as (s1 & Hrun1 & (info & Hself1) & Htree1 & Hframe1); try done.
  { simpl. intros Hnone p Hp. by eapply nothing_below_missing. }
  destruct (save_report_run E folder name2 s1)
    as (s2 & Hrun2 & _ & Htree2 & _).
  - done.
  - by rewrite Hself1.
  - rewrite Hself1. intros p Hp. rewrite figure_of_set_target_info. by apply Hfigs.
  - intros q c Hq Hpre. destruct Htree1 as (_ & Hanc & _). by rewrite (Hanc q).
  - destruct Htree1 as (_ & Hanc & _). by rewrite (Hanc folder).
  - exists s1, s2. rewrite Hself1 in Htree2. by split_and!.
Qed.

Lemma save_report_leaves_report_tree_witness :
  plain_path ["report_metrics"] ∧ plain_name "report_metrics" ∧
  plain_name "second" ∧
  ∃ s1 s2,
    save_report sample_env ["report_metrics"] "report_metrics"
      {| self_of := sample_regression_report; world_of := stale_world |}
    = (Ok tt, s1) ∧
    saved_tree ["report_metrics"] "report_metrics"
      (task_type sample_regression_report) (fs (world_of s1)) ∧
    (∀ p, ¬ ["report_metrics"] `prefix_of` p → ¬ p `prefix_of` ["report_metrics"] →
          fs (world_of s1) !! p = fs stale_world !! p) ∧
    save_report sample_env ["report_metrics"] "second" s1 = (Ok tt, s2) ∧
    saved_tree ["report_metrics"] "second"
      (task_type sample_regression_report) (fs (world_of s2)).
Proof.
  assert (plain_path ["report_metrics"]) as Hfolder by by_compute.
  assert (plain_name "report_metrics") as Hname by by_compute.
  assert (plain_name "second") as Hname2 by by_compute.
  split; [exact Hfolder|]. split; [exact Hname|]. split; [exact Hname2|].
  destruct sample_regression_report_built as [w' Hbuilt].
  apply (save_report_leaves_report_tree sample_env regression_y_true
           regression_y_pred (PyF (qc 1 2)) empty_world sample_regression_report w'
           ["report_metrics"] "report_metrics" "second" stale_world Hbuilt
           Hfolder Hname Hname2).
  - discriminate.
  - clear. by_compute.
  - intros q c Hq [k Hk].
    destruct q as [|x [|y q]]; [done| |done].
    injection Hk as <- _. vm_compute. discriminate.
  - intros p Hp.
    change (task_plots (task_type sample_regression_report))
      with [residual_plot; predicted_vs_actual] in Hp.
    apply elem_of_cons in Hp as [->|Hp]; [vm_compute; by eexists|].
    apply elem_of_cons in Hp as [->|Hp]; [vm_compute; by eexists|].
    exact (False_ind _ (proj1 (elem_of_nil p) Hp)).
Defined.

(** What the claim leaves out: [save_report] also writes the plot images,
    and in the current directory the files of an earlier run under another
    name stay where they are. *)
Lemma save_report_more_than_two_files :
  let fresh := {| self_of := sample_regression_report; world_of := empty_world |} in
  let saved := save_report sample_env ["report_metrics"] "report_metrics" fresh in
  let twice :=
    run_calls sample_env
      [ Call_save_report current_directory "first";
        Call_save_report current_directory "second" ] fresh in
  saved.1 = Ok tt ∧
  fs (world_of saved.2) !! ["report_metrics"; "plots"; "residual_plot.png"]
  = Some (File "scatter figure") ∧
  (["report_metrics"; "plots"; "residual_plot.png"]
   ∉ [ ["report_metrics"; "report_metrics.html"];
       ["report_metrics"; "report_metrics.md"] ]) ∧
  is_Some (fs (world_of twice) !! ["second.html"]) ∧
  is_Some (fs (world_of twice) !! ["first.html"]) ∧
  is_Some (fs (world_of twice) !! ["first.md"]).
Proof.
  split_and!.
  - vm_compute. reflexivity.
  - vm_compute. reflexivity.
  - by_compute.
  - vm_compute. by eexists.
  - vm_compute. by eexists.
  - vm_compute. by eexists.
Qed.

(** ** Rounding *)

Lemma pow10_pos n : 0 < pow10 n.
Proof.
  unfold pow10. rewrite <-Z2Qc_inj_0.
  apply (proj1 (Z2Qc_inj_lt 0 (10 ^ Z.of_nat n))). apply Z.pow_pos_nonneg; lia.
Qed.



(** [round(x, n)] of Python on a float: the float64 nearest to [k / 10^n],
    for the integer [k] nearest to [x * 10^n]. *)
Lemma py_float_round_decimals (q : Qc) (n : nat) :
  ∃ k : Z,
    py_float_round (Finite q) n = to_float (Qc_of_Z k / pow10 n) ∧
    Qc_abs (Qc_of_Z k - q * pow10 n) ≤ qc 1 2.
Proof. eexists. split; [reflexivity|]. apply round_half_even_near. Qed.

(** Ties are rounded to the even digit. *)
Example np_float_round_ties :
  np_float_round (Finite (qc 1 4)) 1 = Finite (float64 (qc 1 5)) ∧
  np_float_round (Finite (qc 3 4)) 1 = Finite (float64 (qc 4 5)) ∧
  np_float_round (Finite (qc 19 2)) 1 = Finite (qc 19 2).
Proof. split_and!; by_compute. Qed.

(** ** The percentage error *)
















(** The value of the percentage error on the regression fixture: 9.5. *)
Example mape_regression_fixture :
  dict_get "Mean Absolute Percentage Error" (metrics sample_regression_report)
  = Some (VFloat (Finite (qc 19 2))).
Proof. by_compute. Qed.

(** The computation is the one of float64: on the targets [1, 2, 4] and the
    predictions [1.0045, 2, 4] the mean of the quotients times 100 is just
    below 0.15 and the metric is the float 0.1, where the exact value 0.15
    would be a tie. *)
Example mape_in_float64 :
  let yt := np_array [PyI 1; PyI 2; PyI 4] in
  let yp := np_array [PyF (qc 10045 10000); PyF (qc 2 1); PyF (qc 4 1)] in
  ∃ q, mean_abs_percentage sample_env yt yp = Ok (Finite q) ∧
       q < qc 15 100 ∧
       np_rounded (Finite q) 1 = VFloat (Finite (float64 (qc 1 10))).
Proof.
  eexists. split; [vm_compute; reflexivity|]. split; by_compute.
Qed.

(** * Further properties *)

(** ** Inputs that the constructor rejects *)

Lemma unpack4_length {A} (l : list A) :
  length l ≠ 4%nat → unpack4 l = Raise ValueError.
Proof. destruct l as [|? [|? [|? [|? [|? ?]]]]]; simpl; intros H; done. Qed.

(** Arrays of different lengths are refused by [confusion_matrix]. *)
Lemma init_classification_lengths E targets predictions threshold w :
  _determine_task_type targets = Classification →
  length targets ≠ length predictions →
  __init__ E targets predictions threshold w
  = (Raise ValueError, greeted Classification w).
Proof.
  intros Htask Hbad.
  assert (length (stored targets)
          ≠ length (np_greater_int (np_array predictions) threshold)) as Hbad'.
  { rewrite length_np_greater_int. fold (stored predictions).
    by rewrite !length_stored. }
  unfold __init__. rewrite Htask.
  set (yb := np_greater_int (np_array predictions) threshold) in *.
  rewrite (bind_ok _ _ w tt (greeted Classification w)) by done.
  apply bind_raise. unfold lift_outcome. f_equal.
  unfold _generate_classification_metrics. simpl.
  unfold confusion_matrix.
  case_decide as Hlen; [|done]. exfalso. apply Hbad'.
  by rewrite length_fmap in Hlen.
Qed.

(** A matrix over other than two labels does not unpack into four counts. *)
Lemma init_classification_labels E targets predictions threshold w :
  _determine_task_type targets = Classification →
  length (np_unique (stored targets ++
            (Qc_of_Z <$> np_greater_int (np_array predictions) threshold)))
  ≠ 2%nat →
  __init__ E targets predictions threshold w
  = (Raise ValueError, greeted Classification w).
Proof.
  intros Htask Hbad. unfold __init__. rewrite Htask.
  set (yb := np_greater_int (np_array predictions) threshold) in *.
  rewrite (bind_ok _ _ w tt (greeted Classification w)) by done.
  apply bind_raise. unfold lift_outcome. f_equal.
  unfold _generate_classification_metrics. simpl.
  unfold confusion_matrix.
  case_decide as Hlen; [|done].
  destruct (check_targets E _ _); [|done]. simpl.
  rewrite unpack4_length; [done|].
  rewrite length_table. intros Hsq. apply Hbad.
  destruct (length (np_unique _)) as [|[|[|n]]]; simpl in *; lia.
Qed.

(** X1: a classification task needs exactly two labels among the values of
    [y_true] and the binary predictions, and as many predictions as
    targets; otherwise the constructor raises [ValueError] (from
    [confusion_matrix] or from unpacking its result), whatever the metric
    functions would have returned, after it printed the detected type. *)
Theorem init_rejects_unless_two_labels E targets predictions threshold w :
  _determine_task_type targets = Classification →
  length targets ≠ length predictions ∨
  length (np_unique (stored targets ++
            (Qc_of_Z <$> np_greater_int (np_array predictions) threshold)))
  ≠ 2%nat →
  __init__ E targets predictions threshold w
  = (Raise ValueError, greeted Classification w).
Proof.
  intros Htask [Hlen|Hlabels].
  - by apply init_classification_lengths.
  - by apply init_classification_labels.
Qed.

Lemma init_rejects_unless_two_labels_witness :
  __init__ sample_env [PyI 1; PyI 1; PyI 1]
    [PyF (qc 9 10); PyF (qc 8 10); PyF (qc 7 10)] (PyF (qc 1 2)) empty_world
  = (Raise ValueError, greeted Classification empty_world).
Proof.
  apply init_rejects_unless_two_labels.
  - vm_compute. reflexivity.
  - right. vm_compute. discriminate.
Defined.

(** X2: an empty [y_true] is rejected: the constructor takes it for a
    classification task and raises [ValueError], whatever the predictions,
    the threshold and the metric functions. *)
Theorem init_rejects_empty_targets E predictions threshold w :
  __init__ E [] predictions threshold w
  = (Raise ValueError, greeted Classification w).
Proof.
  destruct predictions as [|p predictions].
  - apply init_classification_labels; [done|]. vm_compute. discriminate.
  - by apply init_classification_lengths.
Qed.

(** X3: whether it returns a report or raises, the constructor leaves the
    world as the print of one line leaves it: standard output gets the line
    with the detected task type, the file system and the record of the
    calls of [plt.show()] are as before.  The warnings that numpy and
    scikit-learn emit go to standard error, which the world does not
    record. *)
Theorem init_prints_one_line E targets predictions threshold w :
  (__init__ E targets predictions threshold w).2
  = greeted (_determine_task_type targets) w.
Proof.
  unfold __init__.
  rewrite (bind_ok _ _ w tt (greeted (_determine_task_type targets) w)) by done.
  destruct (_determine_task_type targets); unfold mbind, M_bind, lift_outcome.
  - by destruct (_generate_classification_metrics E _).
  - by destruct (_generate_regression_metrics E _).
Qed.

(** ** The task type and the order of the samples *)



Lemma as_float64_float (x : pynum) : is_PyI x = false → as_float64 x = num_val x.
Proof. by destruct x. Qed.







(** Where the condition fails: three ints around [2 ** 53] are a regression
    task, and a classification task once a float is among them. *)
Example task_type_after_conversion :
  let ints := [PyI (2 ^ 53); PyI (2 ^ 53 + 1); PyI (2 ^ 53 + 2)] in
  _determine_task_type ints = Regression ∧
  _determine_task_type (ints ++ [PyF (Qc_of_Z (2 ^ 53))]) = Classification.
Proof. split; vm_compute; reflexivity. Qed.

(** ** The threshold *)

(** X5: the binary predictions are 0 or 1, and raising the threshold within
    the unit interval can only turn a 1 into a 0: of two classification
    reports built from the same predictions, the one with the higher
    threshold predicts the positive class at no index where the other does
    not. *)
Theorem threshold_monotone E targets1 targets2 predictions t1 t2 w1 w2 r1 r2 w1' w2' :
  __init__ E targets1 predictions t1 w1 = (Ok r1, w1') →
  __init__ E targets2 predictions t2 w2 = (Ok r2, w2') →
  task_type r1 = Classification → task_type r2 = Classification →
  unit_threshold t1 → unit_threshold t2 →
  num_val t1 ≤ num_val t2 →
  ∃ yb1 yb2,
    y_pred_binary r1 = Some yb1 ∧ y_pred_binary r2 = Some yb2 ∧
    Forall (λ b, b = 0%Z ∨ b = 1%Z) yb1 ∧
    Forall (λ b, b = 0%Z ∨ b = 1%Z) yb2 ∧
    Forall2 (λ b1 b2, (b2 ≤ b1)%Z) yb1 yb2.
Proof.
  intros (_ & _ & _ & _ & _ & H1)%init_ok_inv (_ & _ & _ & _ & _ & H2)%init_ok_inv
    Ht1 Ht2 Hu1 Hu2 Hle.
  rewrite Ht1 in H1. rewrite Ht2 in H2.
  destruct H1 as (Hb1 & _). destruct H2 as (Hb2 & _).
  rewrite binarize_unit_threshold in Hb1, Hb2 by done.
  eexists _, _. split; [exact Hb1|]. split; [exact Hb2|].
  unfold binary_prediction. split_and!.
  - apply Forall_fmap, Forall_forall. intros p _. simpl. case_decide; auto.
  - apply Forall_fmap, Forall_forall. intros p _. simpl. case_decide; auto.
  - apply Forall2_fmap, Forall2_same_length_lookup_2; [done|].
    intros i p p' Hp Hp'. assert (p = p') as <- by congruence.
    repeat case_decide; try lia.
    exfalso. match goal with H : ¬ _ < _ |- _ => apply H end.
    eapply Qcle_lt_trans; [exact Hle|done].
Qed.

Lemma threshold_monotone_witness :
  unit_threshold (PyF (qc 1 2)) ∧ unit_threshold (PyF (qc 7 10)) ∧
  ∃ r2 w2' yb1 yb2,
    __init__ sample_env binary_classification_y_true binary_classification_y_pred
      (PyF (qc 7 10)) empty_world = (Ok r2, w2') ∧
    y_pred_binary sample_classification_report = Some yb1 ∧
    y_pred_binary r2 = Some yb2 ∧
    Forall2 (λ b1 b2, (b2 ≤ b1)%Z) yb1 yb2.
Proof.
  assert (unit_threshold (PyF (qc 1 2))) as Hu1 by (split; by_compute).
  assert (unit_threshold (PyF (qc 7 10))) as Hu2 by (split; by_compute).
  split; [exact Hu1|]. split; [exact Hu2|].
  destruct sample_classification_report_built as [w1' H1].
  destruct (__init__ sample_env binary_classification_y_true
              binary_classification_y_pred (PyF (qc 7 10)) empty_world)
    as [[r2|e] w2'] eqn:H2.
  - assert (task_type r2 = Classification) as Ht2.
    { apply init_ok_inv in H2 as (-> & _). vm_compute. reflexivity. }
    destruct (threshold_monotone sample_env binary_classification_y_true
                binary_classification_y_true binary_classification_y_pred
                (PyF (qc 1 2)) (PyF (qc 7 10)) empty_world empty_world
                sample_classification_report r2 w1' w2' H1 H2)
      as (yb1 & yb2 & Hb1 & Hb2 & _ & _ & Hmono).
    + vm_compute. reflexivity.
    + exact Ht2.
    + exact Hu1.
    + exact Hu2.
    + clear. by_compute.
    + exists r2, w2', yb1, yb2.
      split; [reflexivity|]. split; [exact Hb1|]. split; [exact Hb2|exact Hmono].
  - exfalso. vm_compute in H2. discriminate H2.
Defined.

(** ** The floored predictions *)

(** X6: in a regression report the floored predictions are never negative
    and never below the predictions that the array holds; a prediction
    that is not negative is kept and a negative one becomes 0; so when no
    prediction is negative the log error is computed from the predictions
    as the array holds them. *)
Theorem floored_predictions_bounds E targets predictions threshold w r w' :
  __init__ E targets predictions threshold w = (Ok r, w') →
  task_type r = Regression →
  Forall small_int predictions →
  ∃ ynn,
    y_pred_nonnegative r = Some ynn ∧
    Forall (λ p, 0 ≤ p) ynn ∧
    Forall2 (λ p q, p ≤ q ∧ (0 ≤ p → q = p) ∧ (p < 0 → q = 0))
      (stored predictions) ynn ∧
    (Forall (λ p, 0 ≤ p) (stored predictions) → ynn = stored predictions).
Proof.
  intros (_ & _ & _ & _ & _ & Hm)%init_ok_inv Ht _. rewrite Ht in Hm.
  destruct Hm as (_ & _ & Hnn & _). eexists. split; [exact Hnn|].
  unfold np_maximum, Qc_max. generalize (stored predictions). intros l.
  split_and!.
  - apply Forall_fmap, Forall_forall. intros p _. simpl.
    destruct (decide (p < 0)) as [Hp|Hp]; [apply Qcle_refl|].
    exact (Qcnot_lt_le _ _ Hp).
  - apply Forall2_fmap_r, Forall_Forall2_diag, Forall_forall. intros p _.
    simpl. destruct (decide (p < 0)) as [Hp|Hp].
    + split; [by apply Qclt_le_weak|]. split; [|done].
      intros Hge. by apply Qcle_not_lt in Hge.
    + split; [apply Qcle_refl|]. split; [done|]. intros Hlt. by destruct Hp.
  - intros Hall. induction Hall as [|p l Hp _ IH]; [done|].
    rewrite !fmap_cons. f_equal; [|exact IH].
    rewrite decide_False; [done|]. by apply Qcle_not_lt.
Qed.

Lemma floored_predictions_bounds_witness :
  Forall small_int signed_regression_y_pred ∧
  ∃ r w' ynn,
    __init__ sample_env regression_y_true signed_regression_y_pred (PyF (qc 1 2))
      empty_world = (Ok r, w') ∧
    y_pred_nonnegative r = Some ynn ∧
    Forall (λ p, 0 ≤ p) ynn ∧
    Forall2 (λ p q, p ≤ q ∧ (0 ≤ p → q = p) ∧ (p < 0 → q = 0))
      (stored signed_regression_y_pred) ynn ∧
    stored signed_regression_y_pred !! 0%nat = Some (float64 (qc (-5) 10)) ∧
    float64 (qc (-5) 10) < 0.
Proof.
  assert (Forall small_int signed_regression_y_pred) as Hsmall by by_compute.
  split; [exact Hsmall|].
  destruct (__init__ sample_env regression_y_true signed_regression_y_pred
              (PyF (qc 1 2)) empty_world) as [[r|e] w'] eqn:H.
  - assert (task_type r = Regression) as Ht.
    { apply init_ok_inv in H as (-> & _). vm_compute. reflexivity. }
    destruct (floored_predictions_bounds sample_env regression_y_true
                signed_regression_y_pred (PyF (qc 1 2)) empty_world r w' H Ht Hsmall)
      as (ynn & Hnn & Hpos & Hbounds & _).
    exists r, w', ynn. split; [reflexivity|]. split; [exact Hnn|].
    split; [exact Hpos|]. split; [exact Hbounds|]. clear. split; by_compute.
  - exfalso. vm_compute in H. discriminate H.
Defined.

(** ** Rows and columns of the confusion matrix *)

Lemma count_eq_cons a v l :
  count_eq a (v :: l) = ((if decide (v = a) then 1 else 0) + count_eq a l)%Z.
Proof.
  unfold count_eq. rewrite filter_cons. case_decide; simpl length; lia.
Qed.

Lemma count_pairs_row l0 l1 a (yt yp : list Qc) :
  l0 ≠ l1 → length yt = length yp →
  Forall (λ p, p = l0 ∨ p = l1) yp →
  (count_pairs a l0 (zip yt yp) + count_pairs a l1 (zip yt yp))%Z = count_eq a yt.
Proof.
  intros Hne. revert yp. induction yt as [|t yt IH]; intros [|p yp] Hlen Hall;
    try done.
  apply Forall_cons in Hall as [Hp Hall]. simpl zip.
  rewrite !count_pairs_cons, count_eq_cons.
  rewrite <-(IH yp) by (first [simpl in Hlen; lia|done]).
  destruct Hp as [-> | ->]; destruct (decide (t = a)) as [->|Hta];
    repeat first [ rewrite decide_True by (split; congruence)
                 | rewrite decide_False by (intros [? ?]; congruence) ];
    lia.
Qed.

Lemma count_pairs_column l0 l1 b (yt yp : list Qc) :
  l0 ≠ l1 → length yt = length yp →
  Forall (λ t, t = l0 ∨ t = l1) yt →
  (count_pairs l0 b (zip yt yp) + count_pairs l1 b (zip yt yp))%Z = count_eq b yp.
Proof.
  intros Hne. revert yp. induction yt as [|t yt IH]; intros [|p yp] Hlen Hall;
    try done.
  apply Forall_cons in Hall as [Ht Hall]. simpl zip.
  rewrite !count_pairs_cons, count_eq_cons.
  rewrite <-(IH yp) by (first [simpl in Hlen; lia|done]).
  destruct Ht as [-> | ->]; destruct (decide (p = b)) as [->|Hpb];
    repeat first [ rewrite decide_True by (split; congruence)
                 | rewrite decide_False by (intros [? ?]; congruence) ];
    lia.
Qed.

(** The two labels of [np.unique] come in increasing order. *)
Lemma np_unique_two_sorted ar neg pos : np_unique ar = [neg; pos] → neg < pos.
Proof.
  unfold np_unique.
  pose proof (StronglySorted_merge_sort Qcle ar) as Hs.
  destruct (merge_sort Qcle ar) as [|x l]; [done|].
  intros [= -> Hrest]. apply (drop_repeats_above neg l pos Hs).
  rewrite Hrest. left.
Qed.

(** The four counts of a two-label matrix, by rows and by columns. *)
Lemma confusion_counts_by_label E yt yb cm tn fp fn tp :
  confusion_matrix E yt yb = Ok cm →
  ravel cm = [tn; fp; fn; tp] →
  ∃ neg pos : Qc,
    neg < pos ∧
    (∀ v, v ∈ yt ++ (Qc_of_Z <$> yb) ↔ v = neg ∨ v = pos) ∧
    (tn + fp)%Z = count_eq neg yt ∧
    (fn + tp)%Z = count_eq pos yt ∧
    (tn + fn)%Z = count_eq neg (Qc_of_Z <$> yb) ∧
    (fp + tp)%Z = count_eq pos (Qc_of_Z <$> yb).
Proof.
  intros Hcm Hravel.
  destruct (confusion_matrix_four _ _ _ _ _ _ _ _ Hcm Hravel)
    as (Hlen & _ & neg & pos & Hlabels & Hne & -> & -> & -> & ->).
  assert (∀ v, v ∈ yt ++ (Qc_of_Z <$> yb) ↔ v = neg ∨ v = pos) as Hvals.
  { intros v. rewrite <-elem_of_np_unique, Hlabels.
    rewrite !elem_of_cons, elem_of_nil. tauto. }
  assert (Forall (λ t, t = neg ∨ t = pos) yt) as Hts.
  { apply Forall_forall. intros v Hv. apply Hvals, elem_of_app. by left. }
  assert (Forall (λ t, t = neg ∨ t = pos) (Qc_of_Z <$> yb)) as Hps.
  { apply Forall_forall. intros v Hv. apply Hvals, elem_of_app. by right. }
  assert (length yt = length (Qc_of_Z <$> yb)) as Hlen' by (by rewrite length_fmap).
  exists neg, pos. split_and!; try done.
  - by apply (np_unique_two_sorted _ _ _ Hlabels).
  - by apply count_pairs_row.
  - by apply count_pairs_row.
  - by apply count_pairs_column.
  - by apply count_pairs_column.
Qed.

(** X7: in a classification report the confusion counts add up by rows to
    the class sizes of [y_true] and by columns to the class sizes of the
    binary predictions: [TN + FP] and [FN + TP] are the numbers of samples
    of the lower and of the higher label, whatever the predictions. *)
Theorem confusion_rows_and_columns E targets predictions threshold w r w' :
  __init__ E targets predictions threshold w = (Ok r, w') →
  task_type r = Classification →
  ∃ (tn fp fn tp : Z) (neg pos : Qc) (yb : list Z),
    dict_get "TN" (metrics r) = Some (VInt tn) ∧
    dict_get "FP" (metrics r) = Some (VInt fp) ∧
    dict_get "FN" (metrics r) = Some (VInt fn) ∧
    dict_get "TP" (metrics r) = Some (VInt tp) ∧
    y_pred_binary r = Some yb ∧
    neg < pos ∧
    (∀ v, v ∈ stored targets ++ (Qc_of_Z <$> yb) ↔ v = neg ∨ v = pos) ∧
    (tn + fp)%Z = count_eq neg (stored targets) ∧
    (fn + tp)%Z = count_eq pos (stored targets) ∧
    (tn + fn)%Z = count_eq neg (Qc_of_Z <$> yb) ∧
    (fp + tp)%Z = count_eq pos (Qc_of_Z <$> yb).
Proof.
  intros (_ & Hyt & _ & _ & _ & Hm)%init_ok_inv Ht. rewrite Ht in Hm.
  destruct Hm as (_ & _ & _ & Hm).
  apply generate_classification_metrics_inv in Hm
    as (yb & cm & tn & fp & fn & tp & auc & ll & ap & acc & prec & rec & f1 & mcc
        & Hyb & Hcm & Hravel & _ & _ & _ & _ & _ & _ & _ & _ & Hdict).
  rewrite Hyt in Hcm. fold (stored targets) in Hcm.
  destruct (confusion_counts_by_label _ _ _ _ _ _ _ _ Hcm Hravel)
    as (neg & pos & Hlt & Hvals & Hr0 & Hr1 & Hc0 & Hc1).
  exists tn, fp, fn, tp, neg, pos, yb. rewrite Hdict. by split_and!.
Qed.

Lemma confusion_rows_and_columns_witness :
  ∃ (tn fp fn tp : Z),
    dict_get "TN" (metrics sample_classification_report) = Some (VInt tn) ∧
    dict_get "FP" (metrics sample_classification_report) = Some (VInt fp) ∧
    dict_get "FN" (metrics sample_classification_report) = Some (VInt fn) ∧
    dict_get "TP" (metrics sample_classification_report) = Some (VInt tp) ∧
    (tn + fp = 7)%Z ∧ (fn + tp = 6)%Z.
Proof.
  destruct sample_classification_report_built as [w' Hbuilt].
  destruct (confusion_rows_and_columns sample_env binary_classification_y_true
              binary_classification_y_pred (PyF (qc 1 2)) empty_world
              sample_classification_report w' Hbuilt)
    as (tn & fp & fn & tp & neg & pos & yb & Htn & Hfp & Hfn & Htp & _).
  { vm_compute. reflexivity. }
  clear Hbuilt. exists tn, fp, fn, tp.
  split; [exact Htn|]. split; [exact Hfp|]. split; [exact Hfn|]. split; [exact Htp|].
  vm_compute in Htn, Hfp, Hfn, Htp.
  injection Htn as <-. injection Hfp as <-. injection Hfn as <-. injection Htp as <-.
  split; reflexivity.
Defined.

(** ** The target summary *)

Lemma target_info_run E s :
  data (y_true (self_of s)) ≠ [] →
  ∃ info,
    __target_info E s
    = (Ok tt, {| self_of := set_target_info info (self_of s);
                 world_of := world_of s |}) ∧
    keys info = target_info_keys (task_type (self_of s)) ∧
    dict_get "Count of samples" info
    = Some (VInt (Z.of_nat (length (data (y_true (self_of s)))))) ∧
    (task_type (self_of s) = Classification →
     dict_get "Count True class" info = Some (py_sum (y_true (self_of s))) ∧
     dict_get "Count False class" info = Some (len_minus_sum (y_true (self_of s)))) ∧
    (task_type (self_of s) = Regression →
     ∃ lo hi, np_min (data (y_true (self_of s))) = Ok lo ∧
              np_max (data (y_true (self_of s))) = Ok hi ∧
              dict_get "Min of target" info
              = Some (py_round (np_scalar (is_int (y_true (self_of s))) lo) 2) ∧
              dict_get "Max of target" info
              = Some (py_round (np_scalar (is_int (y_true (self_of s))) hi) 2)).
Proof.
  intros Hne. unfold __target_info, mbind, M_bind, get_self, lift_outcome, set_self.
  simpl. destruct (task_type (self_of s)); simpl.
  - unfold class_balance. destruct (data (y_true (self_of s))) eqn:Hd; [done|].
    simpl. eexists. split; [reflexivity|]. split_and!; try done.
  - destruct (data (y_true (self_of s))) eqn:Hd; [done|]. simpl.
    eexists. split; [reflexivity|]. split_and!; try done.
    intros _. by eexists _, _.
Qed.

(** X8: on a report that was built, computing the target summary never
    raises; it stores a summary with exactly the keys of the task, whose
    sample count is the number of targets, and changes no other attribute
    and nothing in the world. *)
Theorem target_info_of_built E targets predictions threshold w r w' w0 :
  __init__ E targets predictions threshold w = (Ok r, w') →
  ∃ info,
    __target_info E {| self_of := r; world_of := w0 |}
    = (Ok tt, {| self_of := set_target_info info r; world_of := w0 |}) ∧
    keys info = target_info_keys (task_type r) ∧
    dict_get "Count of samples" info = Some (VInt (Z.of_nat (length targets))).
Proof.
  intros Hbuilt.
  pose proof (built_nonempty _ _ _ _ _ _ _ Hbuilt) as Hdata.
  apply init_ok_inv in Hbuilt as (_ & Hyt & _).
  destruct (target_info_run E {| self_of := r; world_of := w0 |} Hdata)
    as (info & Hrun & Hkeys & Hn & _).
  exists info. simpl in *. split_and!; try done.
  rewrite Hn, Hyt. fold (stored targets). by rewrite length_stored.
Qed.

Lemma target_info_of_built_witness :
  ∃ info,
    __target_info sample_env
      {| self_of := sample_regression_report; world_of := stale_world |}
    = (Ok tt, {| self_of := set_target_info info sample_regression_report;
                 world_of := stale_world |}) ∧
    keys info = target_info_keys (task_type sample_regression_report) ∧
    dict_get "Count of samples" info
    = Some (VInt (Z.of_nat (length regression_y_true))).
Proof.
  destruct sample_regression_report_built as [w' Hbuilt].
  exact (target_info_of_built sample_env regression_y_true regression_y_pred
           (PyF (qc 1 2)) empty_world sample_regression_report w' stale_world Hbuilt).
Defined.

Lemma Qc_sum_zero_one (zs : list pynum) :
  Forall (λ t, t = PyI 0 ∨ t = PyI 1) zs →
  Qc_sum (num_val <$> zs) = Qc_of_Z (count_eq 1 (num_val <$> zs)) ∧
  Qc_of_Z (Z.of_nat (length (num_val <$> zs))) - Qc_sum (num_val <$> zs)
  = Qc_of_Z (count_eq 0 (num_val <$> zs)).
Proof.
  induction 1 as [|t zs Ht _ [IH1 IH2]].
  - split; apply Qc_is_canon; reflexivity.
  - rewrite fmap_cons, !count_eq_cons. unfold Qc_sum in *. simpl foldr.
    simpl length. rewrite Nat2Z.inj_succ, <-Z.add_1_l, !Z2Qc_inj_add.
    rewrite <-IH2. rewrite IH1.
    assert (Qc_of_Z 0 = 0) as E0 by (apply Qc_is_canon; reflexivity).
    assert (Qc_of_Z 1 = 1) as E1 by (apply Qc_is_canon; reflexivity).
    assert ((0 : Qc) ≠ 1) as N01 by (intros H'; inversion H').
    assert ((1 : Qc) ≠ 0) as N10 by (intros H'; inversion H').
    destruct Ht as [-> | ->]; simpl num_val; rewrite ?E0, ?E1.
    + rewrite (decide_False (P := (0 : Qc) = 1)) by exact N01.
      rewrite (decide_True (P := (0 : Qc) = 0)) by reflexivity.
      rewrite E0, E1. split; ring.
    + rewrite (decide_True (P := (1 : Qc) = 1)) by reflexivity.
      rewrite (decide_False (P := (1 : Qc) = 0)) by exact N10.
      rewrite E0, E1. split; ring.
Qed.

Lemma class_counts_zero_one (targets : list pynum) :
  targets ≠ [] →
  Forall (λ t, t = PyI 0 ∨ t = PyI 1) targets →
  py_sum (np_array targets) = VInt (count_eq 1 (num_val <$> targets)) ∧
  len_minus_sum (np_array targets) = VInt (count_eq 0 (num_val <$> targets)).
Proof.
  intros Hne Hbin. destruct (Qc_sum_zero_one targets Hbin) as [H1 H0].
  assert (Forall (λ x, is_PyI x = true) targets) as Hint.
  { eapply Forall_impl; [exact Hbin|]. by intros t [-> | ->]. }
  assert (∀ (X : Type) (a b : X),
            match num_val <$> targets with [] => a | _ => b end = b) as Hmatch.
  { intros. by destruct targets. }
  rewrite np_array_ints by done.
  unfold py_sum, len_minus_sum. cbv zeta. cbn [data is_int].
  rewrite !Hmatch, H0, H1. by rewrite !Qfloor_Qc_of_Z.
Qed.

(** X9: for targets that are the integers 0 and 1, the two class counts
    of the target summary are the row sums of the confusion counts of the
    report: ['Count True class'] is [FN + TP] and ['Count False class'] is
    [TN + FP]. *)
Theorem target_counts_match_confusion E targets predictions threshold w r w' w0 :
  __init__ E targets predictions threshold w = (Ok r, w') →
  task_type r = Classification →
  Forall (λ t, t = PyI 0 ∨ t = PyI 1) targets →
  ∃ (tn fp fn tp : Z) info,
    dict_get "TN" (metrics r) = Some (VInt tn) ∧
    dict_get "FP" (metrics r) = Some (VInt fp) ∧
    dict_get "FN" (metrics r) = Some (VInt fn) ∧
    dict_get "TP" (metrics r) = Some (VInt tp) ∧
    __target_info E {| self_of := r; world_of := w0 |}
    = (Ok tt, {| self_of := set_target_info info r; world_of := w0 |}) ∧
    dict_get "Count True class" info = Some (VInt (fn + tp)) ∧
    dict_get "Count False class" info = Some (VInt (tn + fp)).
Proof.
  intros Hbuilt Ht Hbin.
  pose proof (built_nonempty _ _ _ _ _ _ _ Hbuilt) as Hdata.
  apply init_ok_inv in Hbuilt as (_ & Hyt & _ & _ & _ & Hm).
  rewrite Ht in Hm. destruct Hm as (Hyb' & _ & _ & Hm).
  apply generate_classification_metrics_inv in Hm
    as (yb & cm & tn & fp & fn & tp & auc & ll & ap & acc & prec & rec & f1 & mcc
        & Hyb & Hcm & Hravel & _ & _ & _ & _ & _ & _ & _ & _ & Hdict).
  assert (yb = np_greater_int (np_array predictions) threshold) as ->
    by congruence.
  pose proof Hcm as Hcm'. rewrite Hyt in Hcm'. fold (stored targets) in Hcm'.
  destruct (confusion_counts_by_label _ _ _ _ _ _ _ _ Hcm' Hravel)
    as (neg & pos & Hlt & Hvals & Hrow0 & Hrow1 & _ & _).
  assert (dict_get "TN" (metrics r) = Some (VInt tn) ∧
          dict_get "FP" (metrics r) = Some (VInt fp) ∧
          dict_get "FN" (metrics r) = Some (VInt fn) ∧
          dict_get "TP" (metrics r) = Some (VInt tp)) as (Htn & Hfp & Hfn & Htp).
  { rewrite Hdict. by split_and!. }
  clear Hdict Hcm Hcm' Hravel Hyb Hyb'.
  assert (targets ≠ []) as Hne.
  { intros ->. apply Hdata. by rewrite Hyt. }
  assert (stored targets = num_val <$> targets) as Hstored.
  { unfold stored. rewrite np_array_ints; [done..|].
    eapply Forall_impl; [exact Hbin|]. by intros t [-> | ->]. }
  assert (Qc_of_Z 0 = 0) as E0 by (apply Qc_is_canon; reflexivity).
  assert (Qc_of_Z 1 = 1) as E1 by (apply Qc_is_canon; reflexivity).
  assert (∀ v, v = neg ∨ v = pos → v = 0 ∨ v = 1) as Hzo.
  { intros v [Ht'|Hp]%Hvals%elem_of_app.
    - rewrite Hstored in Ht'. apply list_elem_of_fmap in Ht' as (t & -> & Hin).
      rewrite Forall_forall in Hbin. destruct (Hbin t Hin) as [-> | ->]; simpl; auto.
    - apply list_elem_of_fmap in Hp as (b & -> & Hin).
      unfold np_greater_int in Hin.
      destruct (_ && _); apply list_elem_of_fmap in Hin as (p & -> & _);
        case_decide; auto. }
  assert (neg = 0 ∧ pos = 1) as [-> ->].
  { destruct (Hzo neg) as [-> | ->]; [by left| |];
      (destruct (Hzo pos) as [-> | ->]; [by right| |]); try done;
      exfalso; revert Hlt; by_compute. }
  destruct (target_info_run E {| self_of := r; world_of := w0 |} Hdata)
    as (info & Hrun & _ & _ & Hcls & _).
  destruct (Hcls Ht) as [Htrue Hfalse]. simpl in Htrue, Hfalse, Hrun.
  destruct (class_counts_zero_one targets Hne Hbin) as [Hs1 Hs0].
  exists tn, fp, fn, tp, info. split_and!; try done.
  - by rewrite Htrue, Hrow1, Hyt, Hs1, Hstored.
  - by rewrite Hfalse, Hrow0, Hyt, Hs0, Hstored.
Qed.

Lemma target_counts_match_confusion_witness :
  ∃ (tn fp fn tp : Z) info,
    dict_get "TN" (metrics sample_classification_report) = Some (VInt tn) ∧
    dict_get "FP" (metrics sample_classification_report) = Some (VInt fp) ∧
    dict_get "FN" (metrics sample_classification_report) = Some (VInt fn) ∧
    dict_get "TP" (metrics sample_classification_report) = Some (VInt tp) ∧
    __target_info sample_env
      {| self_of := sample_classification_report; world_of := empty_world |}
    = (Ok tt, {| self_of := set_target_info info sample_classification_report;
                 world_of := empty_world |}) ∧
    dict_get "Count True class" info = Some (VInt (fn + tp)) ∧
    dict_get "Count False class" info = Some (VInt (tn + fp)).
Proof.
  destruct sample_classification_report_built as [w' Hbuilt].
  apply (target_counts_match_confusion sample_env binary_classification_y_true
           binary_classification_y_pred (PyF (qc 1 2)) empty_world
           sample_classification_report w' empty_world Hbuilt).
  - vm_compute. reflexivity.
  - clear Hbuilt. unfold binary_classification_y_true.
    repeat (apply Forall_cons; split; [auto|]). apply Forall_nil_2.
Defined.

(** ** The percentage error on a zero target *)

Lemma finite_values_NonFinite (l : list pyfloat) :
  NonFinite ∈ l → finite_values l = None.
Proof.
  induction l as [|x l IH]; [by intros ?%elem_of_nil|].
  intros [<-|Hin]%elem_of_cons; simpl; [done|].
  rewrite (IH Hin). by destruct x.
Qed.

Lemma np_mean_NonFinite E (l : list pyfloat) :
  l = [] ∨ NonFinite ∈ l → np_mean E l = NonFinite.
Proof.
  intros [->|Hin]; [done|]. unfold np_mean.
  destruct l as [|x l]; [done|]. by rewrite (finite_values_NonFinite _ Hin).
Qed.

(** A quotient by a zero element of [y_true] is infinite or not a number,
    whatever the shapes that numpy broadcasts. *)
Lemma quotients_zero_target (diff : list pyfloat) (yt : list Qc)
    (quot : list pyfloat) :
  0 ∈ yt →
  broadcast2 float_div diff yt = Some quot →
  quot = [] ∨ NonFinite ∈ quot.
Proof.
  intros Hz.
  assert (∀ d, float_div d 0 = NonFinite) as Hdiv.
  { intros [d|]; [|done]. unfold float_div. by rewrite decide_True. }
  unfold broadcast2. case_decide as Hlen.
  - intros [= <-]. right.
    apply list_elem_of_lookup in Hz as [i Hi].
    destruct (lookup_lt_is_Some_2 diff i) as [d Hd].
    { rewrite Hlen. by eapply lookup_lt_Some. }
    apply list_elem_of_lookup. exists i.
    rewrite lookup_zip_with, Hd, Hi.
    change (Some (float_div d 0) = Some NonFinite). by rewrite Hdiv.
  - destruct diff as [|x [|x' diff]].
    + destruct yt as [|y [|y' yt]]; [done| |done].
      intros [= <-]. by left.
    + intros [= <-]. right. apply list_elem_of_fmap. exists 0.
      split; [symmetry; exact (Hdiv x)|done].
    + destruct yt as [|y [|y' yt]]; [done| |done].
      intros [= <-]. right. apply list_elem_of_singleton in Hz as <-.
      apply elem_of_cons. left. symmetry. exact (Hdiv x).
Qed.

Lemma mean_abs_percentage_zero_target E (yt yp : ndarray) (m : pyfloat) :
  0 ∈ astype_float yt → mean_abs_percentage E yt yp = Ok m → m = NonFinite.
Proof.
  intros Hz. unfold mean_abs_percentage. intros H.
  apply outcome_bind_ok_inv in H as (diff & _ & H).
  apply outcome_bind_ok_inv in H as (quot & Hq%or_raise_ok_inv & H).
  injection H as <-.
  rewrite np_mean_NonFinite; [done|].
  destruct (quotients_zero_target _ _ _ Hz Hq) as [->|Hin]; [by left|right].
  apply list_elem_of_fmap. by exists NonFinite.
Qed.

(** The values of an array as the division takes them: every one converted
    to float64. *)
Lemma astype_float_np_array (l : list pynum) :
  astype_float (np_array l) = as_float64 <$> l.
Proof.
  unfold astype_float. destruct (ints_or_float l) as [Hints|Hfloat].
  - destruct l as [|x0 l0]; [done|].
    rewrite np_array_ints by done. cbn [is_int data].
    rewrite <-list_fmap_compose. apply list_fmap_ext. intros i x Hx.
    rewrite Forall_forall in Hints.
    assert (is_PyI x = true) as Hi.
    { apply Hints. by eapply list_elem_of_lookup_2. }
    by destruct x.
  - by rewrite np_array_floats.
Qed.

Lemma as_float64_zero (t : pynum) : num_val t = 0 → as_float64 t = 0.
Proof.
  destruct t as [z|q]; simpl; [|done]. intros ->. apply float64_0.
Qed.

(** X10: when some value of [y_true] is zero, a regression report that is
    built has no finite percentage error: the entry
    ['Mean Absolute Percentage Error'] is infinite or not a number. *)
Theorem mape_zero_target E targets predictions threshold w r w' :
  __init__ E targets predictions threshold w = (Ok r, w') →
  task_type r = Regression →
  Exists (λ t, num_val t = 0) targets →
  dict_get "Mean Absolute Percentage Error" (metrics r) = Some (VFloat NonFinite).
Proof.
  intros (_ & Hyt & _ & _ & _ & Hm)%init_ok_inv Ht Hz. rewrite Ht in Hm.
  destruct Hm as (_ & _ & _ & Hm).
  apply generate_regression_metrics_inv in Hm
    as (ynn & mse & msle & mae & r2 & evs & mx & mape & _ & _ & _ & _ & _
        & _ & _ & Hmape & ->).
  rewrite Hyt in Hmape.
  apply mean_abs_percentage_zero_target in Hmape as ->; [done|].
  rewrite astype_float_np_array.
  apply Exists_exists in Hz as (t & Hin & H0).
  apply list_elem_of_fmap. exists t. split; [|done].
  symmetry. by apply as_float64_zero.
Qed.

Lemma mape_zero_target_witness :
  ∃ r w',
    __init__ sample_env zero_target_y_true zero_target_y_pred (PyF (qc 1 2))
      empty_world = (Ok r, w') ∧
    dict_get "Mean Absolute Percentage Error" (metrics r) = Some (VFloat NonFinite).
Proof.
  destruct (__init__ sample_env zero_target_y_true zero_target_y_pred
              (PyF (qc 1 2)) empty_world) as [[r|e] w'] eqn:H.
  - assert (task_type r = Regression) as Ht.
    { apply init_ok_inv in H as (-> & _). vm_compute. reflexivity. }
    exists r, w'. split; [reflexivity|].
    apply (mape_zero_target sample_env zero_target_y_true zero_target_y_pred
             (PyF (qc 1 2)) empty_world r w' H Ht).
    clear H Ht. apply Exists_cons_hd. by_compute.
  - exfalso. vm_compute in H. discriminate H.
Defined.

(** ** The object under the methods *)

Section attributes.
Context {X : Type} (g : MetricsReport → X).

Lemma in_world_keeps_self {A} (m : M world A) :
  preserves (λ s, g (self_of s)) (in_world m).
Proof. apply (preserves_self_in_world g). Qed.

#[local] Hint Resolve in_world_keeps_self : keeps.

Lemma plot_method_keeps_self E p figsize :
  preserves (λ s, g (self_of s)) (plot_method E p figsize).
Proof. destruct p; simpl; unfold_plots; keeps. Qed.

Lemma plot_loop_body_keeps_self save folder name (plot_func : M state figure) :
  preserves (λ s, g (self_of s)) plot_func →
  preserves (λ s, g (self_of s)) (plot_loop_body save folder (name, plot_func)).
Proof. intros Hf. unfold plot_loop_body. simpl. keeps. Qed.

Lemma classification_plots_keep_self E save folder :
  preserves (λ s, g (self_of s)) (_classification_plots E save folder).
Proof.
  unfold _classification_plots.
  apply preserves_bind; [unfold recreate_plots_dir; keeps|]. intros _.
  apply preserves_for_each_Forall.
  repeat constructor; apply plot_loop_body_keeps_self; unfold_plots; keeps.
Qed.

Lemma regression_plots_keep_self E save folder :
  preserves (λ s, g (self_of s)) (_regression_plots E save folder).
Proof.
  unfold _regression_plots.
  apply preserves_bind; [unfold recreate_plots_dir; keeps|]. intros _.
  apply preserves_for_each_Forall.
  repeat constructor; apply plot_loop_body_keeps_self; unfold_plots; keeps.
Qed.

Lemma generate_html_report_keeps_self E folder add_css :
  preserves (λ s, g (self_of s)) (_generate_html_report E folder add_css).
Proof.
  unfold _generate_html_report.
  apply preserves_bind; [keeps|]. intros self.
  apply preserves_bind; [unfold __add_plot_images_to_report; keeps|]. keeps.
Qed.

Lemma plot_metrics_keeps_self E :
  preserves (λ s, g (self_of s)) (plot_metrics E).
Proof.
  unfold plot_metrics. apply preserves_bind; [keeps|]. intros self.
  destruct (task_type self);
    [apply classification_plots_keep_self|apply regression_plots_keep_self].
Qed.

Lemma print_metrics_keeps_self E :
  preserves (λ s, g (self_of s)) (print_metrics E).
Proof. unfold print_metrics. keeps. Qed.

Lemma print_report_keeps_self E :
  preserves (λ s, g (self_of s)) (print_report E).
Proof.
  unfold print_report. apply preserves_bind; [keeps|]. intros self.
  destruct (task_type self);
    repeat match goal with
      | |- preserves _ (plot_metrics _) => apply plot_metrics_keeps_self
      | |- preserves _ (print_metrics _) => apply print_metrics_keeps_self
      | |- preserves _ (_ ≫= _) => apply preserves_bind; [|intros ?]
      | |- _ => solve [keeps]
      end.
Qed.

(** The one assignment to an attribute after construction is
    [self.target_info = target_info]. *)
Hypothesis g_target_info : ∀ info r, g (set_target_info info r) = g r.

Lemma target_info_keeps_self E :
  preserves (λ s, g (self_of s)) (__target_info E).
Proof.
  intros s. unfold __target_info, get_self, mbind, M_bind, lift_outcome, set_self.
  simpl.
  destruct (task_type (self_of s)); simpl.
  - destruct (class_balance (y_true (self_of s))); simpl; [apply g_target_info|done].
  - destruct (np_min (data (y_true (self_of s)))); simpl; [|done].
    destruct (np_max (data (y_true (self_of s)))); simpl; [apply g_target_info|done].
Qed.

Lemma save_report_keeps_self E folder name :
  preserves (λ s, g (self_of s)) (save_report E folder name).
Proof.
  unfold save_report.
  apply preserves_bind; [keeps|]. intros _.
  apply preserves_bind; [apply target_info_keeps_self|]. intros _.
  apply preserves_bind; [keeps|]. intros self.
  apply preserves_bind.
  { destruct (task_type self);
      [apply classification_plots_keep_self|apply regression_plots_keep_self]. }
  intros _.
  apply preserves_bind; [apply generate_html_report_keeps_self|]. intros html.
  apply preserves_bind; [keeps|]. intros _.
  apply preserves_bind; [apply generate_html_report_keeps_self|]. intros plain.
  keeps.
Qed.

End attributes.

Lemma set_target_info_twice info info' r :
  set_target_info info (set_target_info info' r) = set_target_info info r.
Proof. reflexivity. Qed.

Lemma set_target_info_same r : set_target_info (target_info r) r = r.
Proof. by destruct r. Qed.

Lemma run_call_self E c s :
  match c with
  | Call_save_report _ _ =>
      ∃ info, self_of (run_call E c s) = set_target_info info (self_of s)
  | _ => self_of (run_call E c s) = self_of s
  end.
Proof.
  destruct c as [folder name| | | |folder add_css|save folder|save folder|p figsize];
    unfold run_call.
  - exists (target_info (self_of (save_report E folder name s).2)).
    rewrite <-(set_target_info_same (self_of (save_report E folder name s).2)) at 1.
    rewrite <-(set_target_info_twice _ [] (self_of s)).
    rewrite <-(set_target_info_twice _ [] (self_of (save_report E folder name s).2)).
    f_equal.
    exact (save_report_keeps_self (set_target_info []) (λ _ _, eq_refl) E folder name s).
  - exact (print_metrics_keeps_self id E s).
  - exact (plot_metrics_keeps_self id E s).
  - exact (print_report_keeps_self id E s).
  - exact (generate_html_report_keeps_self id E folder add_css s).
  - exact (classification_plots_keep_self id E save folder s).
  - exact (regression_plots_keep_self id E save folder s).
  - exact (plot_method_keeps_self id E p figsize s).
Qed.

(** X11: whether it returns or raises, no method other than [save_report]
    changes an attribute of the report, and [save_report] changes
    [target_info] only; so after any sequence of calls the report is the one
    that was built, up to its target summary. *)
Theorem calls_change_only_target_info E :
  (∀ c s,
     match c with
     | Call_save_report _ _ =>
         ∃ info, self_of (run_call E c s) = set_target_info info (self_of s)
     | _ => self_of (run_call E c s) = self_of s
     end) ∧
  (∀ cs s, ∃ info, self_of (run_calls E cs s) = set_target_info info (self_of s)).
Proof.
  split; [apply run_call_self|].
  intros cs. induction cs as [|c cs IH]; intros s.
  - exists (target_info (self_of s)). by rewrite set_target_info_same.
  - change (run_calls E (c :: cs) s) with (run_calls E cs (run_call E c s)).
    destruct (IH (run_call E c s)) as [info ->].
    pose proof (run_call_self E c s) as Hc.
    destruct c; try (rewrite Hc; by exists info).
    destruct Hc as [info' ->]. by exists info.
Qed.

(** ** Methods that only read *)

Lemma os_listdir_reads p w : (os_listdir p w).2 = w.
Proof.
  unfold os_listdir, mbind, M_bind, get. simpl.
  destruct (is_dir (fs w) p); [done|]. by destruct (fs w !! p).
Qed.

Lemma generate_html_report_reads E folder add_css s :
  (_generate_html_report E folder add_css s).2 = s.
Proof.
  unfold _generate_html_report, __add_plot_images_to_report, mbind, M_bind,
    get_self, in_world.
  pose proof (os_listdir_reads (folder ++ ["plots"]) (world_of s)) as Hw.
  destruct (os_listdir (folder ++ ["plots"]) (world_of s)) as [[files|e] w'];
    simpl in *; subst w'; by destruct s.
Qed.

(** X12: building the HTML text changes nothing, in the report and in the
    world, whether it returns or raises; printing the metrics or the report
    leaves the file system alone, and printing the metrics displays no
    figure. *)
Theorem reading_methods_change_nothing E s :
  (∀ folder add_css, (_generate_html_report E folder add_css s).2 = s) ∧
  fs (world_of (print_metrics E s).2) = fs (world_of s) ∧
  shown (world_of (print_metrics E s).2) = shown (world_of s) ∧
  fs (world_of (print_report E s).2) = fs (world_of s).
Proof.
  split_and!.
  - intros. apply generate_html_report_reads.
  - done.
  - done.
  - revert s. change (preserves (λ s, fs (world_of s)) (print_report E)).
    unfold print_report. apply preserves_bind; [keeps|]. intros self.
    assert (preserves (λ s, fs (world_of s)) (print_metrics E)) as Hpm.
    { unfold print_metrics. keeps. }
    assert (preserves (λ s, fs (world_of s)) (plot_metrics E)) as Hplot.
    { unfold plot_metrics. apply preserves_bind; [keeps|]. intros self'.
      destruct (task_type self');
        [apply classification_plots_show_preserves_fs
        |apply regression_plots_show_preserves_fs]. }
    destruct (task_type self);
      repeat match goal with
        | |- preserves _ (plot_metrics _) => exact Hplot
        | |- preserves _ (print_metrics _) => exact Hpm
        | |- preserves _ (_ ≫= _) => apply preserves_bind; [|intros ?]
        | |- _ => solve [keeps]
        end.
Qed.

(** ** Displaying the plots *)

(** The loop of the batch methods without [save]: [plt.show()] is called
    after every plot, in the order of the plots. *)
Lemma show_plots_loop E folder (ps : list plot) s :
  (∀ p, p ∈ ps → is_Some (figure_of E (self_of s) p)) →
  ∃ figs,
    Forall2 (λ p fig, figure_of E (self_of s) p = Some fig) ps figs ∧
    for_each ((λ p, (plot_key p, plot_method E p default_figsize)) <$> ps)
      (plot_loop_body false folder) s
    = (Ok tt, {| self_of := self_of s;
                 world_of := {| fs := fs (world_of s);
                                stdout := stdout (world_of s);
                                shown := shown (world_of s) ++ figs |} |}).
Proof.
  revert s. induction ps as [|p ps IH]; intros s Hfig.
  - exists []. split; [constructor|]. simpl. rewrite app_nil_r.
    by destruct s as [r [f o sh]].
  - destruct (Hfig p) as [fig Hp]; [left|].
    set (s1 := {| self_of := self_of s;
                  world_of := {| fs := fs (world_of s);
                                 stdout := stdout (world_of s);
                                 shown := shown (world_of s) ++ [fig] |} |}).
    assert (plot_loop_body false folder
              (plot_key p, plot_method E p default_figsize) s = (Ok tt, s1)) as Hbody.
    { unfold plot_loop_body. simpl.
      by rewrite (bind_ok _ _ _ _ _ (plot_method_run E p s fig Hp)). }
    destruct (IH s1) as (figs & Hfigs & Hrest).
    { intros p' Hp'. apply Hfig. by right. }
    exists (fig :: figs). split; [by constructor|].
    rewrite fmap_cons. simpl for_each. rewrite (bind_ok _ _ _ _ _ Hbody), Hrest.
    simpl. by rewrite <-app_assoc.
Qed.

(** X13: when every plot of the task can be drawn, [plot_metrics()]
    returns; it calls [plt.show()] once for each plot of the task, right
    after the plot is drawn and in the order of the plots; it prints nothing
    and changes neither the report nor the file system.  What a call of
    [plt.show()] puts on the screen besides the plot just drawn, figures
    that the caller left open, is outside the world. *)
Theorem plot_metrics_shows_task_plots E r w :
  (∀ p, p ∈ task_plots (task_type r) → is_Some (figure_of E r p)) →
  ∃ figs,
    Forall2 (λ p fig, figure_of E r p = Some fig) (task_plots (task_type r)) figs ∧
    plot_metrics E {| self_of := r; world_of := w |}
    = (Ok tt, {| self_of := r;
                 world_of := {| fs := fs w; stdout := stdout w;
                                shown := shown w ++ figs |} |}).
Proof.
  intros Hfig.
  destruct (show_plots_loop E current_directory (task_plots (task_type r))
              {| self_of := r; world_of := w |} Hfig) as (figs & Hfigs & Hloop).
  exists figs. split; [exact Hfigs|].
  simpl in Hloop. rewrite <-Hloop. clear Hloop Hfigs Hfig.
  unfold plot_metrics. unfold mbind at 1, M_bind at 1, get_self.
  cbv beta iota. cbn [self_of].
  destruct (task_type r).
  - by rewrite classification_plots_unfold.
  - by rewrite regression_plots_unfold.
Qed.

Lemma plot_metrics_shows_task_plots_witness :
  ∃ figs,
    Forall2 (λ p fig, figure_of sample_env sample_regression_report p = Some fig)
      (task_plots (task_type sample_regression_report)) figs ∧
    plot_metrics sample_env
      {| self_of := sample_regression_report; world_of := stale_world |}
    = (Ok tt, {| self_of := sample_regression_report;
                 world_of := {| fs := fs stale_world; stdout := stdout stale_world;
                                shown := shown stale_world ++ figs |} |}).
Proof.
  apply (plot_metrics_shows_task_plots sample_env sample_regression_report
           stale_world).
  intros p Hp.
  change (task_plots (task_type sample_regression_report))
    with [residual_plot; predicted_vs_actual] in Hp.
  apply elem_of_cons in Hp as [->|Hp]; [vm_compute; by eexists|].
  apply elem_of_cons in Hp as [->|Hp]; [vm_compute; by eexists|].
  exact (False_ind _ (proj1 (elem_of_nil p) Hp)).
Defined.

(** ** Classification plots on a regression report *)

(** A loop raises when one of its bodies raises in every state that the
    bodies before it can leave. *)
Lemma for_each_raises {S A} (I : S → Prop) (l : list A) (body : A → M S unit) x :
  x ∈ l →
  (∀ y s, y ∈ l → I s → I (body y s).2) →
  (∀ s, I s → ∃ e s', body x s = (Raise e, s')) →
  ∀ s, I s → ∃ e s', for_each l body s = (Raise e, s').
Proof.
  intros Hin Hkeep Hx. induction l as [|y l IH]; [by apply elem_of_nil in Hin|].
  intros s Hs. simpl. unfold mbind, M_bind.
  apply elem_of_cons in Hin as [<-|Hin].
  - destruct (Hx s Hs) as (e & s' & ->). by exists e, s'.
  - pose proof (Hkeep y s (list_elem_of_here _ _) Hs) as Hy.
    destruct (body y s) as [[[]|e] s1]; [|by exists e, s1].
    apply IH; [done| |done]. intros y' s' Hy'. apply Hkeep. by right.
Qed.

(** X14: a regression report has no attribute [probas_reval], so each of
    the four scikit-plot methods raises [AttributeError] on it, and
    [_classification_plots] never returns normally on it, with or without
    [save]. *)
Theorem scikitplot_plots_need_classification
    E targets predictions threshold w0 r w1 :
  __init__ E targets predictions threshold w0 = (Ok r, w1) →
  task_type r = Regression →
  (∀ p figsize w, p ∈ scikitplot_plots →
     plot_method E p figsize {| self_of := r; world_of := w |}
     = (Raise AttributeError, {| self_of := r; world_of := w |})) ∧
  (∀ save folder w, ∃ e s',
     _classification_plots E save folder {| self_of := r; world_of := w |}
     = (Raise e, s')).
Proof.
  intros (_ & _ & _ & _ & _ & Hm)%init_ok_inv Ht. rewrite Ht in Hm.
  destruct Hm as (_ & Hprobas & _).
  assert (∀ p figsize s, self_of s = r → p ∈ scikitplot_plots →
            plot_method E p figsize s = (Raise AttributeError, s)) as Hraise.
  { intros p figsize s Hs Hp. unfold scikitplot_plots in Hp.
    repeat (apply elem_of_cons in Hp as [->|Hp]);
      [| | | |by apply elem_of_nil in Hp];
      simpl; unfold_plots; unfold mbind, M_bind, get_self, lift_outcome;
      simpl; by rewrite Hs, Hprobas. }
  split.
  - intros p figsize w Hp. by apply Hraise.
  - intros save folder w. rewrite classification_plots_unfold.
    assert (self_of (recreate_plots_dir save folder
                       {| self_of := r; world_of := w |}).2 = r) as Hrec.
    { unfold recreate_plots_dir. destruct save; [|done].
      exact (preserves_self_in_world id _ {| self_of := r; world_of := w |}). }
    unfold mbind at 1, M_bind at 1.
    destruct (recreate_plots_dir save folder _) as [[[]|e] s1]; [|by exists e, s1].
    simpl in Hrec.
    apply (for_each_raises (λ s, self_of s = r) _ _
             (plot_key ks_statistic, plot_method E ks_statistic default_figsize)).
    + simpl. do 4 right. left.
    + intros y s (p & -> & _)%list_elem_of_fmap Hs. rewrite <-Hs.
      apply (plot_loop_body_keeps_self id). apply (plot_method_keeps_self id).
    + intros s Hs. exists AttributeError, s.
      apply bind_raise. apply Hraise; [done|]. do 0 right. left.
    + done.
Qed.

Lemma scikitplot_plots_need_classification_witness :
  (∀ p figsize w, p ∈ scikitplot_plots →
     plot_method sample_env p figsize
       {| self_of := sample_regression_report; world_of := w |}
     = (Raise AttributeError,
        {| self_of := sample_regression_report; world_of := w |})) ∧
  (∀ save folder w, ∃ e s',
     _classification_plots sample_env save folder
       {| self_of := sample_regression_report; world_of := w |}
     = (Raise e, s')).
Proof.
  destruct sample_regression_report_built as [w' Hbuilt].
  apply (scikitplot_plots_need_classification sample_env regression_y_true
           regression_y_pred (PyF (qc 1 2)) empty_world sample_regression_report
           w' Hbuilt).
  vm_compute. reflexivity.
Defined.

(** ** A regular file in the way *)

Lemma recreate_dir_blocked d c w :
  d ≠ [] → fs w !! d = Some (File c) →
  (os_path_exists d ≫= λ ex : bool,
     when ex (shutil_rmtree d) ≫= λ _, os_makedirs d) w
  = (Raise NotADirectoryError, w).
Proof.
  intros Hne Hd. unfold os_path_exists, shutil_rmtree, mbind, M_bind, get, mret, M_ret.
  destruct d; [done|]. rewrite Hd.
  rewrite bool_decide_eq_true_2 by (by eexists). simpl. by rewrite Hd.
Qed.

(** X15: when the name of the folder is taken by a regular file,
    [save_report] raises [NotADirectoryError] and changes nothing: the file
    stays, no directory is made and the target summary is not computed. *)
Theorem save_report_blocked_by_file E folder name c s :
  folder ≠ current_directory →
  fs (world_of s) !! folder = Some (File c) →
  save_report E folder name s = (Raise NotADirectoryError, s).
Proof.
  destruct s as [r w]. simpl. intros Hne Hd. unfold save_report.
  rewrite bool_decide_eq_true_2 by done. simpl when.
  apply bind_raise.
  exact (in_world_run _ r w _ _ (recreate_dir_blocked folder c w Hne Hd)).
Qed.

Lemma save_report_blocked_by_file_witness :
  save_report sample_env ["report_metrics"] "report_metrics"
    {| self_of := sample_regression_report; world_of := blocked_world |}
  = (Raise NotADirectoryError,
     {| self_of := sample_regression_report; world_of := blocked_world |}).
Proof.
  apply (save_report_blocked_by_file sample_env ["report_metrics"]
           "report_metrics" "notes"
           {| self_of := sample_regression_report; world_of := blocked_world |}).
  - discriminate.
  - vm_compute. reflexivity.
Defined.

(** ** The batch methods under [save] *)

Lemma prefix_of_snoc (d p : list string) x :
  p `prefix_of` d ++ [x] → p `prefix_of` d ∨ p = d ++ [x].
Proof.
  intros [k Hk]. destruct k as [|y k _] using rev_ind.
  - right. by rewrite app_nil_r in Hk.
  - left. rewrite app_assoc in Hk. apply app_inj_tail in Hk as [-> _]. by exists k.
Qed.

Lemma save_plots_run E t folder r w :
  (∀ p, p ∈ task_plots t → is_Some (figure_of E r p)) →
  fs_wf (fs w) →
  (∀ q c, q ≠ [] → q `prefix_of` folder ++ ["plots"] → fs w !! q ≠ Some (File c)) →
  ∃ w',
    batch_plots E t true folder {| self_of := r; world_of := w |}
    = (Ok tt, {| self_of := r; world_of := w' |}) ∧
    stdout w' = stdout w ∧ shown w' = shown w ∧
    (∀ q, q ≠ [] → q `prefix_of` folder ++ ["plots"] → fs w' !! q = Some Dir) ∧
    (∀ p, folder ++ ["plots"] `prefix_of` p → p ≠ folder ++ ["plots"] →
          is_Some (fs w' !! p) ↔ p ∈ png_path folder <$> task_plots t) ∧
    (∀ p, p ∈ task_plots t → ∃ fig, fs w' !! png_path folder p = Some (File fig)) ∧
    (∀ p, ¬ folder ++ ["plots"] `prefix_of` p →
          ¬ (p ≠ [] ∧ p `prefix_of` folder ++ ["plots"]) →
          fs w' !! p = fs w !! p).
Proof.
  intros Hfigs Hwf Hnofile. set (d := folder ++ ["plots"]) in *.
  assert (d ≠ []) as Hd by (unfold d; by destruct folder).
  destruct (recreate_dir_ok d w) as (w1 & Hrec & Hout1 & Hshown1 & Hfs1).
  { done. }
  { intros c. by apply Hnofile. }
  { intros Hnone p Hp. by eapply nothing_below_missing. }
  { intros q Hq Hpre _. destruct (fs w !! q) as [[|c]|] eqn:Hq'; [by right| |by left].
    by destruct (Hnofile q c Hq Hpre). }
  assert (∀ p0, d `prefix_of` png_path folder p0 ∧ png_path folder p0 ≠ d ∧
                ¬ png_path folder p0 `prefix_of` d) as Hpng.
  { intros p0. split_and!.
    - exists [plot_key p0 +:+ ".png"]. unfold png_path, d. by rewrite <-app_assoc.
    - apply png_path_not_plots_dir.
    - intros Hpre%prefix_length. rewrite length_png_path in Hpre.
      unfold d in Hpre. rewrite length_app in Hpre. simpl in Hpre. lia. }
  destruct (save_plots_loop E folder (task_plots t) {| self_of := r; world_of := w1 |})
    as (s2 & Hloop & Hself2 & Hout2 & Hshown2 & Hother2 & Hpng2).
  { done. }
  { simpl. rewrite Hfs1. by rewrite decide_True. }
  { intros p. simpl. rewrite Hfs1. destruct (Hpng p) as (Hpre & Hne & Hnpre).
    rewrite decide_False by (by intros [_ ?]). by rewrite decide_True. }
  destruct s2 as [r2 w2]. simpl in *. subst r2.
  exists w2. split_and!.
  - destruct t; unfold batch_plots;
      [rewrite classification_plots_unfold|rewrite regression_plots_unfold];
      unfold recreate_plots_dir; simpl when;
      rewrite (bind_ok _ _ _ _ _ (in_world_run _ r _ _ _ Hrec));
      exact Hloop.
  - congruence.
  - congruence.
  - intros q Hq Hpre. rewrite Hother2.
    + rewrite Hfs1. by rewrite decide_True.
    + intros (p0 & -> & _)%list_elem_of_fmap. by destruct (Hpng p0) as (_ & _ & ?).
  - intros p Hpre Hne.
    destruct (decide (p ∈ png_path folder <$> task_plots t)) as [Hin|Hnin].
    + split; [done|]. intros _.
      apply list_elem_of_fmap in Hin as (p0 & -> & Hp0).
      destruct (Hpng2 p0 Hp0) as [fig ->]. by eexists.
    + rewrite Hother2 by done. rewrite Hfs1.
      rewrite decide_False.
      * rewrite decide_True by done. split; [by intros [? ?]|done].
      * intros [_ Hpre']. apply Hne. by apply (anti_symm prefix).
  - done.
  - intros p Hn1 Hn2. rewrite Hother2.
    + rewrite Hfs1. rewrite decide_False by done.
      by rewrite decide_False.
    + intros (p0 & -> & _)%list_elem_of_fmap. by destruct (Hpng p0) as (? & _ & _).
Qed.

(** X16: under [save], for a folder of plain components, when every plot
    of the task can be drawn and no regular file lies on the path of
    [folder/plots], the batch method of the task returns; it leaves
    [folder/plots] and the directories above it in place, [folder/plots]
    holding one PNG file per plot of the task and nothing of what it held
    before; it calls [plt.show()] for no plot and prints nothing, and
    changes neither the report nor any path outside [folder/plots] other
    than the directories above it. *)
Theorem batch_plots_save E t folder r w :
  plain_path folder →
  (∀ p, p ∈ task_plots t → is_Some (figure_of E r p)) →
  fs_wf (fs w) →
  (∀ q c, q ≠ [] → q `prefix_of` folder ++ ["plots"] → fs w !! q ≠ Some (File c)) →
  ∃ w',
    batch_plots E t true folder {| self_of := r; world_of := w |}
    = (Ok tt, {| self_of := r; world_of := w' |}) ∧
    stdout w' = stdout w ∧ shown w' = shown w ∧
    (∀ q, q ≠ [] → q `prefix_of` folder ++ ["plots"] → fs w' !! q = Some Dir) ∧
    (∀ p, folder ++ ["plots"] `prefix_of` p → p ≠ folder ++ ["plots"] →
          is_Some (fs w' !! p) ↔ p ∈ png_path folder <$> task_plots t) ∧
    (∀ p, p ∈ task_plots t → ∃ fig, fs w' !! png_path folder p = Some (File fig)) ∧
    (∀ p, ¬ folder ++ ["plots"] `prefix_of` p → ¬ p `prefix_of` folder ++ ["plots"] →
          fs w' !! p = fs w !! p).
Proof.
  intros _ Hfigs Hwf Hnofile.
  destruct (save_plots_run E t folder r w Hfigs Hwf Hnofile)
    as (w' & Hrun & Hout & Hshown & Hanc & Hunder & Hpng & Hframe).
  exists w'. split_and!; try done.
  intros p Hn1 Hn2. apply Hframe; [done|]. by intros [_ ?].
Qed.

Lemma batch_plots_save_witness :
  plain_path ["report_metrics"] ∧
  ∃ w',
    batch_plots sample_env Regression true ["report_metrics"]
      {| self_of := sample_regression_report; world_of := stale_world |}
    = (Ok tt, {| self_of := sample_regression_report; world_of := w' |}) ∧
    fs w' !! ["report_metrics"; "plots"; "old.png"] = None ∧
    fs w' !! ["report_metrics"; "old.html"] = Some (File "stale") ∧
    (∀ p, p ∈ task_plots Regression →
          ∃ fig, fs w' !! png_path ["report_metrics"] p = Some (File fig)).
Proof.
  assert (plain_path ["report_metrics"]) as Hplain by by_compute.
  split; [exact Hplain|].
  destruct (batch_plots_save sample_env Regression ["report_metrics"]
              sample_regression_report stale_world Hplain)
    as (w' & Hrun & _ & _ & _ & Hunder & Hpng & Hout).
  - intros p Hp.
    change (task_plots Regression) with [residual_plot; predicted_vs_actual] in Hp.
    apply elem_of_cons in Hp as [->|Hp]; [vm_compute; by eexists|].
    apply elem_of_cons in Hp as [->|Hp]; [vm_compute; by eexists|].
    exact (False_ind _ (proj1 (elem_of_nil p) Hp)).
  - by_compute.
  - intros q c Hq [k Hk].
    destruct q as [|x [|y [|z q]]]; [done| | |].
    + injection Hk as <- _. vm_compute. discriminate.
    + injection Hk as <- <- _. vm_compute. discriminate.
    + injection Hk as _ _ Hk. discriminate Hk.
  - exists w'. split; [exact Hrun|]. split_and!.
    + destruct (fs w' !! ["report_metrics"; "plots"; "old.png"]) eqn:Hold; [|done].
      exfalso.
      assert (["report_metrics"; "plots"; "old.png"]
              ∈ png_path ["report_metrics"] <$> task_plots Regression) as Hin.
      { apply Hunder; [by exists ["old.png"]|discriminate|by rewrite Hold]. }
      clear -Hin. vm_compute in Hin.
      repeat (apply elem_of_cons in Hin as [Hin|Hin]; [discriminate Hin|]).
      by apply elem_of_nil in Hin.
    + rewrite Hout; [vm_compute; reflexivity| |].
      * intros [k Hk]. discriminate Hk.
      * intros [k Hk]. discriminate Hk.
    + exact Hpng.
Defined.

(** ** Saving into the current directory *)

(** X17: [save_report('.', name)] on a built report, for a name without
    ['/'], when the plots can be drawn, [plots] is not a regular file and
    the two report names are not directories: the working directory is not
    cleared; [plots] is emptied and refilled with one PNG file per plot of
    the task, the two report files are written, and every other path keeps
    what it held; one line is printed and only [target_info] changes in the
    report. *)
Theorem save_report_current_directory
    E targets predictions threshold w0 r w1 name w :
  __init__ E targets predictions threshold w0 = (Ok r, w1) →
  plain_name name →
  fs_wf (fs w) →
  (∀ c, fs w !! ["plots"] ≠ Some (File c)) →
  fs w !! [name +:+ ".html"] ≠ Some Dir →
  fs w !! [name +:+ ".md"] ≠ Some Dir →
  (∀ p, p ∈ task_plots (task_type r) → is_Some (figure_of E r p)) →
  ∃ info html md w',
    save_report E current_directory name {| self_of := r; world_of := w |}
    = (Ok tt, {| self_of := set_target_info info r; world_of := w' |}) ∧
    fs w' !! ["plots"] = Some Dir ∧
    (∀ p, ["plots"] `prefix_of` p → p ≠ ["plots"] →
          is_Some (fs w' !! p)
          ↔ p ∈ png_path current_directory <$> task_plots (task_type r)) ∧
    fs w' !! [name +:+ ".html"] = Some (File html) ∧
    fs w' !! [name +:+ ".md"] = Some (File md) ∧
    (∀ p, ¬ ["plots"] `prefix_of` p →
          p ≠ [name +:+ ".html"] → p ≠ [name +:+ ".md"] →
          fs w' !! p = fs w !! p) ∧
    stdout w' = stdout w ++ ["Report saved in folder: ."] ∧
    shown w' = shown w.
Proof.
  intros Hbuilt _ Hwf Hplots Hhtml_dir Hmd_dir Hfigs.
  pose proof (built_nonempty _ _ _ _ _ _ _ Hbuilt) as Hdata. clear Hbuilt.
  destruct (target_info_ok E {| self_of := r; world_of := w |} Hdata) as (info & Hinfo).
  simpl in Hinfo. set (r' := set_target_info info r) in *.
  destruct (save_plots_run E (task_type r) current_directory r' w)
    as (w2 & Hrun & Hout2 & Hshown2 & Hanc2 & Hunder2 & Hpng2 & Hframe2).
  { intros p Hp. unfold r'. rewrite figure_of_set_target_info. by apply Hfigs. }
  { done. }
  { intros q c Hq Hpre. simpl in Hpre.
    destruct (prefix_of_snoc [] q "plots" Hpre) as [Hnil%prefix_nil_inv| ->]; [done|].
    apply Hplots. }
  simpl app in *.
  assert (fs w2 !! ["plots"] = Some Dir) as Fplots by (by apply Hanc2).
  assert (∀ x, x ≠ "plots" → fs w2 !! [x] = fs w !! [x]) as Fchild.
  { intros x Hx. apply Hframe2.
    - intros [k Hk]. injection Hk as Hk. congruence.
    - intros [_ [k Hk]]. injection Hk as Hk. congruence. }
  destruct (generate_html_report_ok E current_directory true
              {| self_of := r'; world_of := w2 |}) as (html & Hhtml).
  { by apply is_dir_Some_Dir. }
  set (w3 := set_fs (<[[name +:+ ".html"] := File html]> (fs w2)) w2).
  assert (write_file [name +:+ ".html"] html w2 = (Ok tt, w3)) as Hw3.
  { apply write_file_ok; [|done].
    apply is_dir_not_Dir; [done|].
    by rewrite Fchild by apply html_name_not_plots. }
  destruct (generate_html_report_ok E current_directory false
              {| self_of := r'; world_of := w3 |}) as (plain & Hplain).
  { apply is_dir_Some_Dir. simpl. rewrite lookup_insert_ne; [done|].
    intros Heq. injection Heq as Heq. by apply html_name_not_plots in Heq. }
  set (w4 := set_fs (<[[name +:+ ".md"] := File (markdownify E plain)]> (fs w3)) w3).
  assert (write_file [name +:+ ".md"] (markdownify E plain) w3 = (Ok tt, w4)) as Hw4.
  { apply write_file_ok; [|done].
    apply is_dir_not_Dir; [done|]. simpl. rewrite lookup_insert_ne.
    - by rewrite Fchild by apply md_name_not_plots.
    - intros Heq. injection Heq as Heq. by apply html_name_not_md in Heq. }
  exists info, html, (markdownify E plain).
  eexists. split.
  { unfold save_report.
    rewrite bool_decide_eq_false_2 by (by intros Hn; apply Hn). simpl when.
    rewrite (bind_ok (mret tt) _ {| self_of := r; world_of := w |} tt _ eq_refl).
    rewrite (bind_ok _ _ _ _ _ Hinfo).
    rewrite (bind_ok get_self _ {| self_of := r'; world_of := w |} r' _ eq_refl).
    change (match task_type r' with
            | Classification => _classification_plots E true current_directory
            | Regression => _regression_plots E true current_directory
            end) with (batch_plots E (task_type r) true current_directory).
    rewrite (bind_ok _ _ _ _ _ Hrun).
    rewrite (bind_ok _ _ _ _ _ Hhtml).
    rewrite (bind_ok _ _ _ _ _ (in_world_run _ r' _ _ _ Hw3)).
    rewrite (bind_ok _ _ _ _ _ Hplain).
    rewrite (bind_ok _ _ _ _ _ (in_world_run _ r' _ _ _ Hw4)).
    reflexivity. }
  simpl.
  assert ([name +:+ ".html"] ≠ [name +:+ ".md"]) as Hhm.
  { intros Heq. injection Heq as Heq. by apply html_name_not_md in Heq. }
  assert (∀ p, ["plots"] `prefix_of` p →
               p ≠ [name +:+ ".html"] ∧ p ≠ [name +:+ ".md"]) as Hunder.
  { intros p [k Hk]. split; intros ->; injection Hk as Hk _.
    - by apply html_name_not_plots in Hk.
    - by apply md_name_not_plots in Hk. }
  split_and!.
  - destruct (Hunder ["plots"]) as [? ?]; [done|]. by rewrite !lookup_insert_ne.
  - intros p Hpre Hne. destruct (Hunder p Hpre) as [? ?].
    rewrite !lookup_insert_ne by done. by apply Hunder2.
  - rewrite lookup_insert_ne by done. by rewrite lookup_insert_eq.
  - by rewrite lookup_insert_eq.
  - intros p Hn1 Hn2 Hn3. rewrite !lookup_insert_ne by done.
    apply Hframe2; [done|]. intros [Hp Hpre].
    destruct (prefix_of_snoc [] p "plots" Hpre) as [Hnil%prefix_nil_inv| ->]; [done|].
    by apply Hn1.
  - by rewrite Hout2.
  - done.
Qed.

Lemma save_report_current_directory_witness :
  plain_name "report" ∧
  ∃ info html md w',
    save_report sample_env current_directory "report"
      {| self_of := sample_regression_report; world_of := home_world |}
    = (Ok tt, {| self_of := set_target_info info sample_regression_report;
                 world_of := w' |}) ∧
    fs w' !! ["plots"; "old.png"] = None ∧
    fs w' !! ["report.html"] = Some (File html) ∧
    fs w' !! ["report.md"] = Some (File md) ∧
    fs w' !! ["notes.txt"] = Some (File "notes") ∧
    fs w' !! ["data"; "train.csv"] = Some (File "rows").
Proof.
  assert (plain_name "report") as Hname by by_compute.
  split; [exact Hname|].
  destruct sample_regression_report_built as [w1 Hbuilt].
  destruct (save_report_current_directory sample_env regression_y_true
              regression_y_pred (PyF (qc 1 2)) empty_world sample_regression_report
              w1 "report" home_world Hbuilt Hname)
    as (info & html & md & w' & Hrun & _ & Hunder & Hhtml & Hmd & Hframe & _ & _).
  - clear. by_compute.
  - intros c. vm_compute. discriminate.
  - vm_compute. discriminate.
  - vm_compute. discriminate.
  - intros p Hp.
    change (task_plots (task_type sample_regression_report))
      with [residual_plot; predicted_vs_actual] in Hp.
    apply elem_of_cons in Hp as [->|Hp]; [vm_compute; by eexists|].
    apply elem_of_cons in Hp as [->|Hp]; [vm_compute; by eexists|].
    exact (False_ind _ (proj1 (elem_of_nil p) Hp)).
  - exists info, html, md, w'. split; [exact Hrun|]. split_and!.
    + destruct (fs w' !! ["plots"; "old.png"]) eqn:Hold; [|done]. exfalso.
      assert (["plots"; "old.png"]
              ∈ png_path current_directory
                  <$> task_plots (task_type sample_regression_report)) as Hin.
      { apply Hunder; [by exists ["old.png"]|discriminate|by rewrite Hold]. }
      clear -Hin. vm_compute in Hin.
      repeat (apply elem_of_cons in Hin as [Hin|Hin]; [discriminate Hin|]).
      by apply elem_of_nil in Hin.
    + exact Hhtml.
    + exact Hmd.
    + rewrite Hframe; [vm_compute; reflexivity| | |].
      * intros [k Hk]. discriminate Hk.
      * discriminate.
      * discriminate.
    + rewrite Hframe; [vm_compute; reflexivity| | |].
      * intros [k Hk]. discriminate Hk.
      * discriminate.
      * discriminate.
Defined.
